(** * Quota-aware ingestion and lifecycle manager (iplc-ai)

    A shallow embedding of [src/vectorize.ts] (the chunker, the quota
    tracker, the ingestion and deletion pipelines, retrieval and the
    usage report), of [src/cleanup.ts] (the age-based sweep) and of the
    router and the deletion endpoint of [src/index.ts] with the type
    guards of [src/types/requests.ts], followed by the properties the
    specification states about them and by further properties of the
    code.  All definitions come first; the lemmas and theorems follow,
    in one module of facts per part of the program.

    Conventions of the embedding.
    - A JavaScript string is a [string]; every character stands for one
      UTF-16 code unit in the range 0..255, so [String.length] is
      [.length].
    - A JavaScript number is a [number]: an integer of [Z] or [NaN].  The
      counters of this program are array lengths and their sums, far
      below 2^53, where double arithmetic is exact; the theorems about
      arithmetic on a counter bound it to the safe integers
      ([Num.safe]).
    - The platform (KV namespaces, the Vectorize index, Workers AI, the
      clock, the console) is a [World] threaded through a state and
      exception monad; every awaited platform call may reject, as decided
      by the fault plan of the [Env].
    - The percentages of the usage report are doubles, modelled with the
      binary64 numbers of the kernel. *)

From Stdlib Require Import ZArith String Ascii List Lia Bool.
From Stdlib Require Import Decimal DecimalString DecimalPos DecimalZ.
From Stdlib Require Floats.
From stdpp Require Import gmap strings list sorting.

Import ListNotations.
Local Open Scope string_scope.
Local Open Scope list_scope.
Local Open Scope Z_scope.

(* ===================================================================== *)
(** * JavaScript strings *)
(* ===================================================================== *)

Module JsString.

(** [WhiteSpace] and [LineTerminator] code units below 256: TAB, LF, VT,
    FF, CR, SPACE and NBSP.  This is the set [String.prototype.trim]
    and [parseInt] strip. *)
Definition is_whitespace (c : ascii) : bool :=
  let n := nat_of_ascii c in
  ((9 <=? n) && (n <=? 13))%nat || (n =? 32)%nat || (n =? 160)%nat.

Fixpoint trimStart (s : string) : string :=
  match s with
  | String c r => if is_whitespace c then trimStart r else s
  | EmptyString => EmptyString
  end.

Fixpoint trimEnd (s : string) : string :=
  match s with
  | String c r =>
      match trimEnd r with
      | EmptyString => if is_whitespace c then EmptyString else String c EmptyString
      | r' => String c r'
      end
  | EmptyString => EmptyString
  end.

Definition trim (s : string) : string := trimEnd (trimStart s).

(** [s.length] as a JavaScript number. *)
Definition len (s : string) : Z := Z.of_nat (String.length s).

(** [s.slice(0, n)] for a non-negative [n]. *)
Definition slice0 (n : nat) (s : string) : string := String.substring 0 n s.

(** Truthiness of a string: every string but the empty one. *)
Definition truthy (s : string) : bool :=
  match s with EmptyString => false | _ => true end.

End JsString.

(* ===================================================================== *)
(** * JavaScript numbers *)
(* ===================================================================== *)

Inductive number : Type :=
| Int (z : Z)
| NaN.

Module Num.

(** [Number.MAX_SAFE_INTEGER], 2^53 - 1. *)
Definition MAX_SAFE_INTEGER : Z := 9007199254740991.

(** [Number.isSafeInteger]: on the safe integers the double arithmetic
    of the engine is the arithmetic of [Z], and [toString] and
    [parseInt] write and read every digit.  The operations below are
    those of the engine where their arguments and results are safe
    (beyond, the engine rounds and the model does not); the theorems
    about counters state the bounds they need. *)
Definition safe (z : Z) : Prop := - MAX_SAFE_INTEGER <= z <= MAX_SAFE_INTEGER.

Definition add (a b : number) : number :=
  match a, b with
  | Int x, Int y => Int (x + y)
  | _, _ => NaN
  end.

Definition sub (a b : number) : number :=
  match a, b with
  | Int x, Int y => Int (x - y)
  | _, _ => NaN
  end.

Definition neg (a : number) : number :=
  match a with Int x => Int (- x) | NaN => NaN end.

(** [a <= b]: false as soon as one side is NaN. *)
Definition le (a b : number) : bool :=
  match a, b with
  | Int x, Int y => x <=? y
  | _, _ => false
  end.

(** [a < b]. *)
Definition lt (a b : number) : bool :=
  match a, b with
  | Int x, Int y => x <? y
  | _, _ => false
  end.

(** [Math.max(a, b)]: NaN as soon as one argument is NaN. *)
Definition max (a b : number) : number :=
  match a, b with
  | Int x, Int y => Int (Z.max x y)
  | _, _ => NaN
  end.

(** Truthiness: every number but 0 and NaN. *)
Definition truthy (a : number) : bool :=
  match a with Int 0 => false | Int _ => true | NaN => false end.

(** [n.toString()] (decimal; the exponent notation of numbers from
    1e21 on is out of the range of this program). *)
Definition toString (a : number) : string :=
  match a with
  | Int z => NilZero.string_of_int (Z.to_int z)
  | NaN => "NaN"
  end.

Definition digit_of_char (c : ascii) : option (Decimal.uint -> Decimal.uint) :=
  if Ascii.eqb c "0" then Some D0 else
  if Ascii.eqb c "1" then Some D1 else
  if Ascii.eqb c "2" then Some D2 else
  if Ascii.eqb c "3" then Some D3 else
  if Ascii.eqb c "4" then Some D4 else
  if Ascii.eqb c "5" then Some D5 else
  if Ascii.eqb c "6" then Some D6 else
  if Ascii.eqb c "7" then Some D7 else
  if Ascii.eqb c "8" then Some D8 else
  if Ascii.eqb c "9" then Some D9 else None.

(** The longest prefix of decimal digits, and what follows it. *)
Fixpoint digits_prefix (s : string) : Decimal.uint * string :=
  match s with
  | String c r =>
      match digit_of_char c with
      | Some d => let '(u, rest) := digits_prefix r in (d u, rest)
      | None => (Nil, s)
      end
  | EmptyString => (Nil, EmptyString)
  end.

Definition no_digit_head (s : string) : Prop :=
  match s with
  | String c _ => digit_of_char c = None
  | EmptyString => True
  end.

(** [parseInt(s, 10)]: leading white space is skipped, then an optional
    sign, then the longest run of digits; NaN when that run is empty. *)
Definition parseInt (s : string) : number :=
  let s := JsString.trimStart s in
  let '(negative, s) :=
    match s with
    | String c r =>
        if Ascii.eqb c "-" then (true, r)
        else if Ascii.eqb c "+" then (false, r)
        else (false, s)
    | EmptyString => (false, s)
    end in
  match fst (digits_prefix s) with
  | Nil => NaN
  | u => Int (Z.of_int (if negative then Neg u else Pos u))
  end.

End Num.

(* ===================================================================== *)
(** * The chunker: [chunkText] *)
(* ===================================================================== *)

Module Chunker.

Import JsString.

(** The class [[.!?]] of the sentence regular expression. *)
Definition is_terminator (c : ascii) : bool :=
  Ascii.eqb c "." || Ascii.eqb c "!" || Ascii.eqb c "?".

(** The longest prefix whose characters satisfy [p], and the rest: what
    a greedy [[...]+] consumes. *)
Fixpoint span (p : ascii -> bool) (s : string) : string * string :=
  match s with
  | String c r =>
      if p c then let '(a, b) := span p r in (String c a, b) else (EmptyString, s)
  | EmptyString => (EmptyString, EmptyString)
  end.

(** One attempt of [/[^.!?]+[.!?]+/] at the start of [s].  The two
    classes are complementary, so giving back characters of the first
    greedy run can never make the second one match: the attempt
    succeeds exactly when the greedy runs are both non-empty. *)
Definition exec_sentence (s : string) : option (string * string) :=
  let '(body, r1) := span (fun c => negb (is_terminator c)) s in
  let '(marks, r2) := span is_terminator r1 in
  match body, marks with
  | String _ _, String _ _ => Some (body +:+ marks, r2)
  | _, _ => None
  end.

(** [text.match(/[^.!?]+[.!?]+/g)]: all matches from left to right; a
    failed attempt moves one position on, a successful one resumes after
    the match.  The empty list stands for [null]. *)
Fixpoint match_sentences (fuel : nat) (s : string) : list string :=
  match fuel with
  | O => []
  | S fuel =>
      match s with
      | EmptyString => []
      | String _ r =>
          match exec_sentence s with
          | Some (m, rest) => m :: match_sentences fuel rest
          | None => match_sentences fuel r
          end
      end
  end.

(** [text.match(...) || [text]]. *)
Definition sentences_of (text : string) : list string :=
  match match_sentences (S (String.length text)) text with
  | [] => [text]
  | l => l
  end.

(** One turn of the [for] loop over the sentences; the state is
    [(chunks, currentChunk)]. *)
Definition chunk_step (maxChunkSize : Z) (st : list string * string)
    (sentence : string) : list string * string :=
  let '(chunks, currentChunk) := st in
  if (len (currentChunk +:+ sentence) >? maxChunkSize) && (len currentChunk >? 0)
  then (chunks ++ [trim currentChunk], sentence)
  else (chunks, currentChunk +:+ " " +:+ sentence).

(** [chunkText(text, maxChunkSize)]. *)
Definition chunkText (text : string) (maxChunkSize : Z) : list string :=
  let '(chunks, currentChunk) :=
    fold_left (chunk_step maxChunkSize) (sentences_of text) ([], EmptyString) in
  if len (trim currentChunk) >? 0 then chunks ++ [trim currentChunk] else chunks.

(** A text without any of its white space: the coarsest reading of
    "up to white space". *)
Fixpoint squeeze (s : string) : string :=
  match s with
  | String c r => if is_whitespace c then squeeze r else String c (squeeze r)
  | EmptyString => EmptyString
  end.

(** [n] copies of the character [c]. *)
Fixpoint repeat_char (c : ascii) (n : nat) : string :=
  match n with
  | O => EmptyString
  | S n => String c (repeat_char c n)
  end.

(** The concatenation of a list of strings. *)
Definition concat_all (l : list string) : string := String.concat EmptyString l.

(** A chunk within the bound the loop does enforce: at most
    [maxChunkSize + 1] characters, or one sentence, trimmed. *)
Definition chunk_within (maxChunkSize : Z) (sentences : list string) (c : string) : Prop :=
  len c <= maxChunkSize + 1 \/ exists s, s ∈ sentences /\ c = trim s.

Definition current_within (maxChunkSize : Z) (sentences : list string) (cur : string) : Prop :=
  cur = EmptyString
  \/ len cur <= maxChunkSize + 1
  \/ exists s, s ∈ sentences /\ (cur = s \/ cur = " " +:+ s).

(** A text made of sentences: it starts with a character that is not a
    terminator and ends with a terminator. *)
Fixpoint ends_with_terminator (s : string) : bool :=
  match s with
  | EmptyString => false
  | String c r =>
      match r with
      | EmptyString => is_terminator c
      | String _ _ => ends_with_terminator r
      end
  end.

Definition starts_sentence (s : string) : bool :=
  match s with
  | String c _ => negb (is_terminator c)
  | EmptyString => false
  end.

Definition made_of_sentences (s : string) : bool :=
  starts_sentence s && ends_with_terminator s.

(** [chunkText(text)], with the default [maxChunkSize = 1000]. *)
Definition chunkText_default (text : string) : list string := chunkText text 1000.

End Chunker.

(* ===================================================================== *)
(** * JSON values, [JSON.stringify] and [JSON.parse] *)
(* ===================================================================== *)

(** The values this program serialises: integers are the only numbers it
    writes.  An object is the list of its members in textual order; a
    property read takes the last member of that name, as [JSON.parse]
    does with a repeated key. *)
#[warnings="-register-all"]
Inductive json : Type :=
| JNull
| JBool (b : bool)
| JNum (z : Z)
| JStr (s : string)
| JArr (items : list json)
| JObj (members : list (string * json)).

Module Json.

(** ** Property access and truthiness *)

(** [v.name]: [None] is [undefined] (a missing member, or a member of
    a value that is not an object). *)
Fixpoint member (name : string) (members : list (string * json)) : option json :=
  match members with
  | [] => None
  | (k, v) :: rest =>
      match member name rest with
      | Some v' => Some v'
      | None => if String.eqb k name then Some v else None
      end
  end.

Definition prop (name : string) (v : json) : option json :=
  match v with
  | JObj members => member name members
  | _ => None
  end.

Definition truthy (v : json) : bool :=
  match v with
  | JNull => false
  | JBool b => b
  | JNum z => Num.truthy (Int z)
  | JStr s => JsString.truthy s
  | JArr _ | JObj _ => true
  end.

(** Truthiness of a value that may be [undefined] or [null]. *)
Definition truthy_opt (v : option json) : bool :=
  match v with Some v => truthy v | None => false end.

(** ** Printing *)

(** The double quote character. *)
Definition dquote : ascii := "034"%char.

Definition hex_digit (n : nat) : ascii :=
  ascii_of_nat (if (n <? 10)%nat then 48 + n else 87 + n).

(** [QuoteJSONString], character by character. *)
Definition escape_char (c : ascii) : string :=
  let n := nat_of_ascii c in
  if (n =? 34)%nat then String "\" (String dquote EmptyString) else
  if (n =? 92)%nat then "\\" else
  if (n =? 8)%nat then "\b" else
  if (n =? 9)%nat then "\t" else
  if (n =? 10)%nat then "\n" else
  if (n =? 12)%nat then "\f" else
  if (n =? 13)%nat then "\r" else
  if (n <? 32)%nat then
    "\u00" +:+ String (hex_digit (n / 16)) (String (hex_digit (n mod 16)) EmptyString)
  else String c EmptyString.

Fixpoint escape (s : string) : string :=
  match s with
  | String c r => escape_char c +:+ escape r
  | EmptyString => EmptyString
  end.

Definition quote (s : string) : string :=
  String dquote (escape s +:+ String dquote EmptyString).

(** [JSON.stringify(v)], without indentation. *)
Fixpoint stringify (v : json) : string :=
  match v with
  | JNull => "null"
  | JBool true => "true"
  | JBool false => "false"
  | JNum z => Num.toString (Int z)
  | JStr s => quote s
  | JArr items =>
      "[" +:+
      (fix elems (l : list json) : string :=
         match l with
         | [] => "]"
         | x :: r =>
             stringify x +:+ match r with [] => "]" | _ => "," +:+ elems r end
         end) items
  | JObj members =>
      "{" +:+
      (fix mems (l : list (string * json)) : string :=
         match l with
         | [] => "}"
         | (k, x) :: r =>
             quote k +:+ ":" +:+ stringify x +:+
             match r with [] => "}" | _ => "," +:+ mems r end
         end) members
  end.

(** ** Parsing *)

(** JSON white space: space, TAB, LF, CR. *)
Definition is_ws (c : ascii) : bool :=
  let n := nat_of_ascii c in
  (n =? 32)%nat || (n =? 9)%nat || (n =? 10)%nat || (n =? 13)%nat.

Fixpoint skip_ws (s : string) : string :=
  match s with
  | String c r => if is_ws c then skip_ws r else s
  | EmptyString => EmptyString
  end.

Definition hex_value (c : ascii) : option nat :=
  let n := nat_of_ascii c in
  if ((48 <=? n) && (n <=? 57))%nat then Some (n - 48)%nat else
  if ((97 <=? n) && (n <=? 102))%nat then Some (n - 87)%nat else
  if ((65 <=? n) && (n <=? 70))%nat then Some (n - 55)%nat else None.

(** The code unit of a [\uXXXX] escape; code units from 256 on are
    outside this model of strings and are refused. *)
Definition unicode_escape (a b c d : ascii) : option ascii :=
  match hex_value a, hex_value b, hex_value c, hex_value d with
  | Some x, Some y, Some z, Some t =>
      let n := (((x * 16 + y) * 16 + z) * 16 + t)%nat in
      if (n <? 256)%nat then Some (ascii_of_nat n) else None
  | _, _, _, _ => None
  end.

Definition cons_char (c : ascii) (r : option (string * string)) : option (string * string) :=
  match r with
  | Some (x, rest) => Some (String c x, rest)
  | None => None
  end.

(** The characters of a string literal after its opening quote, up to
    and including the closing quote. *)
Fixpoint parse_chars (s : string) : option (string * string) :=
  match s with
  | EmptyString => None
  | String c r =>
      let n := nat_of_ascii c in
      if (n =? 34)%nat then Some (EmptyString, r)
      else if (n =? 92)%nat then
        match r with
        | String e r1 =>
            let m := nat_of_ascii e in
            if (m =? 34)%nat then cons_char dquote (parse_chars r1) else
            if (m =? 92)%nat then cons_char "\" (parse_chars r1) else
            if (m =? 47)%nat then cons_char "/" (parse_chars r1) else
            if (m =? 98)%nat then cons_char (ascii_of_nat 8) (parse_chars r1) else
            if (m =? 102)%nat then cons_char (ascii_of_nat 12) (parse_chars r1) else
            if (m =? 110)%nat then cons_char (ascii_of_nat 10) (parse_chars r1) else
            if (m =? 114)%nat then cons_char (ascii_of_nat 13) (parse_chars r1) else
            if (m =? 116)%nat then cons_char (ascii_of_nat 9) (parse_chars r1) else
            if (m =? 117)%nat then
              match r1 with
              | String h1 (String h2 (String h3 (String h4 r2))) =>
                  match unicode_escape h1 h2 h3 h4 with
                  | Some u => cons_char u (parse_chars r2)
                  | None => None
                  end
              | _ => None
              end
            else None
        | EmptyString => None
        end
      else if (n <? 32)%nat then None
      else cons_char c (parse_chars r)
  end.

Definition starts_fraction (s : string) : bool :=
  match s with
  | String c _ => Ascii.eqb c "." || Ascii.eqb c "e" || Ascii.eqb c "E"
  | EmptyString => false
  end.

(** A number literal, restricted to integers: a fraction or an exponent
    is refused, as is a superfluous leading zero. *)
Definition parse_number (s : string) : option (json * string) :=
  let '(negative, s) :=
    match s with
    | String c r => if Ascii.eqb c "-" then (true, r) else (false, s)
    | EmptyString => (false, s)
    end in
  let '(u, rest) := Num.digits_prefix s in
  if starts_fraction rest then None else
  match u with
  | Nil => None
  | D0 (D0 _ | D1 _ | D2 _ | D3 _ | D4 _ | D5 _ | D6 _ | D7 _ | D8 _ | D9 _) => None
  | _ => Some (JNum (Z.of_int (if negative then Neg u else Pos u)), rest)
  end.

(** [s] after the keyword [kw], when it starts with it. *)
Fixpoint after_keyword (kw s : string) : option string :=
  match kw, s with
  | EmptyString, _ => Some s
  | String a kw', String b s' => if Ascii.eqb a b then after_keyword kw' s' else None
  | String _ _, EmptyString => None
  end.

Definition keyword (kw : string) (v : json) (s : string) : option (json * string) :=
  match after_keyword kw s with
  | Some rest => Some (v, rest)
  | None => None
  end.

Fixpoint parse_value (fuel : nat) (s : string) {struct fuel} : option (json * string) :=
  match fuel with
  | O => None
  | S fuel =>
      match skip_ws s with
      | EmptyString => None
      | String c r as s' =>
          if Ascii.eqb c dquote then
            match parse_chars r with
            | Some (x, rest) => Some (JStr x, rest)
            | None => None
            end
          else if Ascii.eqb c "[" then
            match skip_ws r with
            | String c' r' =>
                if Ascii.eqb c' "]" then Some (JArr [], r')
                else match parse_elems fuel r with
                     | Some (items, rest) => Some (JArr items, rest)
                     | None => None
                     end
            | EmptyString => None
            end
          else if Ascii.eqb c "{" then
            match skip_ws r with
            | String c' r' =>
                if Ascii.eqb c' "}" then Some (JObj [], r')
                else match parse_members fuel r with
                     | Some (members, rest) => Some (JObj members, rest)
                     | None => None
                     end
            | EmptyString => None
            end
          else if Ascii.eqb c "n" then keyword "null" JNull s'
          else if Ascii.eqb c "t" then keyword "true" (JBool true) s'
          else if Ascii.eqb c "f" then keyword "false" (JBool false) s'
          else parse_number s'
      end
  end

with parse_elems (fuel : nat) (s : string) {struct fuel} : option (list json * string) :=
  match fuel with
  | O => None
  | S fuel =>
      match parse_value fuel s with
      | Some (x, r) =>
          match skip_ws r with
          | String c r' =>
              if Ascii.eqb c "," then
                match parse_elems fuel r' with
                | Some (items, rest) => Some (x :: items, rest)
                | None => None
                end
              else if Ascii.eqb c "]" then Some ([x], r')
              else None
          | EmptyString => None
          end
      | None => None
      end
  end

with parse_members (fuel : nat) (s : string) {struct fuel}
    : option (list (string * json) * string) :=
  match fuel with
  | O => None
  | S fuel =>
      match skip_ws s with
      | String q r0 =>
          if Ascii.eqb q dquote then
            match parse_chars r0 with
            | Some (k, r1) =>
                match skip_ws r1 with
                | String colon r2 =>
                    if Ascii.eqb colon ":" then
                      match parse_value fuel r2 with
                      | Some (x, r) =>
                          match skip_ws r with
                          | String c r' =>
                              if Ascii.eqb c "," then
                                match parse_members fuel r' with
                                | Some (members, rest) => Some ((k, x) :: members, rest)
                                | None => None
                                end
                              else if Ascii.eqb c "}" then Some ([(k, x)], r')
                              else None
                          | EmptyString => None
                          end
                      | None => None
                      end
                    else None
                | EmptyString => None
                end
            | None => None
            end
          else None
      | EmptyString => None
      end
  end.

(** [JSON.parse(text)] for the texts whose numbers are safe integers.
    [None] is a [SyntaxError], except for a text with a number that has
    a fraction or an exponent: the engine parses it into a value that
    the values of [json] cannot hold.  The theorems about the content
    of a stored record are stated for records that [parse] reads. *)
Definition parse (text : string) : option json :=
  match parse_value (S (String.length text)) text with
  | Some (v, rest) =>
      match skip_ws rest with
      | EmptyString => Some v
      | String _ _ => None
      end
  | None => None
  end.

(** ** Measures and views used to reason about the parser *)

(** The elements of an array as [stringify] prints them, closing
    bracket included; likewise the members of an object. *)
Fixpoint print_elems (l : list json) : string :=
  match l with
  | [] => "]"
  | x :: r => stringify x +:+ match r with [] => "]" | _ => "," +:+ print_elems r end
  end.

Fixpoint print_members (l : list (string * json)) : string :=
  match l with
  | [] => "}"
  | (k, x) :: r =>
      quote k +:+ ":" +:+ stringify x +:+
      match r with [] => "}" | _ => "," +:+ print_members r end
  end.

(** A bound on the fuel [parse_value] needs to read a value back. *)
Fixpoint size (v : json) : nat :=
  match v with
  | JArr items =>
      S ((fix go (l : list json) : nat :=
            match l with [] => O | x :: r => S (size x + go r) end) items)
  | JObj members =>
      S ((fix go (l : list (string * json)) : nat :=
            match l with [] => O | (_, x) :: r => S (size x + go r) end) members)
  | _ => 1%nat
  end.

Fixpoint size_elems (l : list json) : nat :=
  match l with [] => O | x :: r => S (size x + size_elems r) end.

Fixpoint size_members (l : list (string * json)) : nat :=
  match l with [] => O | (_, x) :: r => S (size x + size_members r) end.

(** What may follow a value inside a text: nothing, or a separator. *)
Definition delimited (rest : string) : bool :=
  match rest with
  | EmptyString => true
  | String c _ => Ascii.eqb c "," || Ascii.eqb c "]" || Ascii.eqb c "}"
  end.

(** What the first character of a printed value is not. *)
Definition value_head (c : ascii) : bool :=
  negb (is_ws c) && negb (Ascii.eqb c "]") && negb (Ascii.eqb c "}").

(** A printed value followed by a delimited rest is read back, with any
    fuel above its size. *)
Definition reads_back (v : json) : Prop :=
  forall fuel rest,
    (size v <= fuel)%nat -> delimited rest = true ->
    parse_value fuel (stringify v +:+ rest) = Some (v, rest).

(** Structural induction through the nested lists. *)
Section Induction.
Variable P : json -> Prop.
Hypothesis Hnull : P JNull.
Hypothesis Hbool : forall b, P (JBool b).
Hypothesis Hnum : forall z, P (JNum z).
Hypothesis Hstr : forall s, P (JStr s).
Hypothesis Harr : forall items, Forall P items -> P (JArr items).
Hypothesis Hobj : forall members, Forall (fun kv => P (snd kv)) members -> P (JObj members).

Fixpoint json_nested_ind (v : json) : P v :=
  match v with
  | JNull => Hnull
  | JBool b => Hbool b
  | JNum z => Hnum z
  | JStr s => Hstr s
  | JArr items =>
      Harr items
        ((fix go (l : list json) : Forall P l :=
            match l with
            | [] => @List.Forall_nil _ _
            | x :: r => @List.Forall_cons _ _ x r (json_nested_ind x) (go r)
            end) items)
  | JObj members =>
      Hobj members
        ((fix go (l : list (string * json)) : Forall (fun kv => P (snd kv)) l :=
            match l with
            | [] => @List.Forall_nil _ _
            | kv :: r => @List.Forall_cons _ _ kv r (json_nested_ind (snd kv)) (go r)
            end) members)
  end.
End Induction.

End Json.

(* ===================================================================== *)
(** * Dates: [Date.prototype.toISOString] and [Date.parse] *)
(* ===================================================================== *)

Module JsDate.

Definition ms_per_day : Z := 86400000.

(** Proleptic Gregorian calendar: the date of a day number counted
    from 1970-01-01, and back. *)
Definition civil_from_days (days : Z) : Z * Z * Z :=
  let z := days + 719468 in
  let era := z / 146097 in
  let doe := z - era * 146097 in
  let yoe := (doe - doe / 1460 + doe / 36524 - doe / 146096) / 365 in
  let doy := doe - (365 * yoe + yoe / 4 - yoe / 100) in
  let mp := (5 * doy + 2) / 153 in
  let d := doy - (153 * mp + 2) / 5 + 1 in
  let m := if mp <? 10 then mp + 3 else mp - 9 in
  let y := yoe + era * 400 + (if m <=? 2 then 1 else 0) in
  (y, m, d).

Definition days_from_civil (y m d : Z) : Z :=
  let y := if m <=? 2 then y - 1 else y in
  let era := y / 400 in
  let yoe := y - era * 400 in
  let doy := (153 * (if m >? 2 then m - 3 else m + 9) + 2) / 5 + d - 1 in
  let doe := yoe * 365 + yoe / 4 - yoe / 100 + doy in
  era * 146097 + doe - 719468.

(** [n] in decimal, padded with zeros to [width] digits. *)
Definition pad (width : nat) (n : Z) : string :=
  let digits := Num.toString (Int n) in
  String.concat EmptyString (repeat "0" (width - String.length digits)) +:+ digits.

(** The year of a date: four digits, or a sign and six digits outside
    the years 0 to 9999. *)
Definition year_string (y : Z) : string :=
  if (0 <=? y) && (y <=? 9999) then pad 4 y
  else (if y <? 0 then "-" else "+") +:+ pad 6 (Z.abs y).

(** [new Date(ms).toISOString()]. *)
Definition toISOString (ms : Z) : string :=
  let '(y, m, d) := civil_from_days (ms / ms_per_day) in
  let t := ms mod ms_per_day in
  year_string y +:+ "-" +:+ pad 2 m +:+ "-" +:+ pad 2 d +:+ "T" +:+
  pad 2 (t / 3600000) +:+ ":" +:+ pad 2 (t / 60000 mod 60) +:+ ":" +:+
  pad 2 (t / 1000 mod 60) +:+ "." +:+ pad 3 (t mod 1000) +:+ "Z".

(** A field of [width] decimal digits at the head of [s]. *)
Fixpoint field (width : nat) (acc : Z) (s : string) : option (Z * string) :=
  match width with
  | O => Some (acc, s)
  | S width =>
      match s with
      | String c r =>
          let n := nat_of_ascii c in
          if ((48 <=? n) && (n <=? 57))%nat
          then field width (10 * acc + Z.of_nat (n - 48)) r
          else None
      | EmptyString => None
      end
  end.

Definition expect (c : ascii) (s : string) : option string :=
  match s with
  | String c' r => if Ascii.eqb c c' then Some r else None
  | EmptyString => None
  end.

Definition days_in_month (y m : Z) : Z :=
  if m =? 2 then
    if ((y mod 4 =? 0) && negb (y mod 100 =? 0)) || (y mod 400 =? 0) then 29 else 28
  else if (m =? 4) || (m =? 6) || (m =? 9) || (m =? 11) then 30 else 31.

(** The time value of a text in the format [toISOString] writes for
    the years 0 to 9999, [YYYY-MM-DDTHH:mm:ss.sssZ]. *)
Definition parse_iso (s : string) : option Z :=
  '(y, s) ← field 4 0 s; s ← expect "-" s;
  '(m, s) ← field 2 0 s; s ← expect "-" s;
  '(d, s) ← field 2 0 s; s ← expect "T" s;
  '(hh, s) ← field 2 0 s; s ← expect ":" s;
  '(mm, s) ← field 2 0 s; s ← expect ":" s;
  '(ss, s) ← field 2 0 s; s ← expect "." s;
  '(ms, s) ← field 3 0 s; s ← expect "Z" s;
  match s with
  | EmptyString =>
      if (1 <=? m) && (m <=? 12) && (1 <=? d) && (d <=? days_in_month y m)
         && (hh <=? 23) && (mm <=? 59) && (ss <=? 59)
      then Some (days_from_civil y m d * ms_per_day
                 + hh * 3600000 + mm * 60000 + ss * 1000 + ms)
      else None
  | String _ _ => None
  end.

(** [Date.parse(s)].  A text in the format above has the time value it
    denotes; what the built-in makes of any other text (the shorter ISO
    forms, the formats of [toString], the heuristics of the engine) is
    left to [other_formats]. *)
Definition parse (other_formats : string -> number) (s : string) : number :=
  match parse_iso s with
  | Some t => Int t
  | None => other_formats s
  end.

(** [TimeClip]. *)
Definition time_clip (t : Z) : number :=
  if Z.abs t <=? 8640000000000000 then Int t else NaN.

(** [ToString] of a JSON value, as [ToPrimitive] takes it for an array
    or an object: the elements of an array joined by commas, [null]
    elements empty. *)
Fixpoint primitive_string (v : json) : string :=
  match v with
  | JNull => "null"
  | JBool true => "true"
  | JBool false => "false"
  | JNum z => Num.toString (Int z)
  | JStr s => s
  | JArr items =>
      (fix join (l : list json) : string :=
         match l with
         | [] => EmptyString
         | x :: r =>
             match x with JNull => EmptyString | _ => primitive_string x end
             +:+ match r with [] => EmptyString | _ => "," +:+ join r end
         end) items
  | JObj _ => "[object Object]"
  end.

(** [new Date(v).getTime()] for a JSON value [v]: a string is parsed, a
    number, a boolean or [null] is a time value, an array or an object
    is parsed as its string. *)
Definition time_of_json (other_formats : string -> number) (v : json) : number :=
  match v with
  | JStr s => parse other_formats s
  | JNum z => time_clip z
  | JBool b => Int (if b then 1 else 0)
  | JNull => Int 0
  | JArr _ | JObj _ => parse other_formats (primitive_string v)
  end.

End JsDate.

(* ===================================================================== *)
(** * Exceptions and the state and exception monad *)
(* ===================================================================== *)

(** A thrown value: an [Error] instance with its message, or anything
    else ([error instanceof Error] is false). *)
Inductive exn : Type :=
| Error (message : string)
| Thrown (what : string).

Inductive result (A : Type) : Type :=
| Ok (a : A)
| Throw (e : exn).
Arguments Ok {A} a.
Arguments Throw {A} e.

(** A computation over a state [S]: it returns or throws, and leaves a
    state behind in both cases. *)
Definition M (S A : Type) : Type := S -> result A * S.

Definition ret {S A} (a : A) : M S A := fun s => (Ok a, s).

Definition bind {S A B} (m : M S A) (k : A -> M S B) : M S B :=
  fun s =>
    match m s with
    | (Ok a, s') => k a s'
    | (Throw e, s') => (Throw e, s')
    end.

Definition throw {S A} (e : exn) : M S A := fun s => (Throw e, s).

(** [try { m } catch (error) { handler error }]. *)
Definition try_catch {S A} (m : M S A) (handler : exn -> M S A) : M S A :=
  fun s =>
    match m s with
    | (Ok a, s') => (Ok a, s')
    | (Throw e, s') => handler e s'
    end.

Definition gets {S A} (f : S -> A) : M S A := fun s => (Ok (f s), s).
Definition modify {S} (f : S -> S) : M S unit := fun s => (Ok tt, f s).

(** [for (const x of l) { body x }]. *)
Fixpoint for_of {S A} (l : list A) (body : A -> M S unit) : M S unit :=
  match l with
  | [] => ret tt
  | x :: rest => bind (body x) (fun _ => for_of rest body)
  end.

Declare Scope js_scope.
Delimit Scope js_scope with js.
Notation "'let*' x ':=' m 'in' k" := (bind m (fun x => k))
  (at level 10, x pattern, m at level 100, k at level 200) : js_scope.
Notation "m ';;;' k" := (bind m (fun _ => k))
  (at level 100, k at level 200, right associativity) : js_scope.
Local Open Scope js_scope.

(* ===================================================================== *)
(** * The platform: KV namespaces, the Vectorize index, Workers AI *)
(* ===================================================================== *)

(** An embedding is a payload the pipelines never look into. *)
Definition embedding : Type := list Z.

(** The caller's metadata of [embedAndStore] ([EmbedMetadata]); its
    optional extra members are carried along untouched by the source and
    are left out here. *)
Record EmbedMetadata : Type := {
  documentId : string;
  documentName : string;
  documentType : string;
}.

(** The metadata attached to one vector. *)
Record ChunkMetadata : Type := {
  cm_source : EmbedMetadata;
  chunkIndex : Z;
  textIndex : Z;
  chunk : string;
  fullChunk : string;
  timestamp : string;
}.

Record VectorizeVector : Type := {
  id : string;
  values : embedding;
  metadata : option ChunkMetadata;
}.

(** What [env.AI.run] resolves to, as far as [embedAndStore] tells the
    shapes apart: a falsy response, a response without (truthy) [data],
    a [data] that is not an array, or an array of embeddings. *)
Inductive AiResponse : Type :=
| AiFalsy
| AiNoData
| AiDataNotArray
| AiData (data : list embedding).

(** The awaited platform calls. *)
Inductive Op : Type :=
| KvGet (ns key : string)
| KvPut (ns key value : string)
| KvDelete (ns key : string)
| KvList (ns : string)
| AiRun (model : string) (texts : list string)
| IndexUpsert (vectors : list VectorizeVector)
| IndexDeleteByIds (ids : option (list string)).

(** One record of the console. *)
Inductive LogEntry : Type :=
| Metric (at_time : string) (count : number) (delta : option number) (reason : string)
| ConsoleError (label : string) (error : exn).

Record World : Type := {
  kv : gmap string (gmap string string); (* the KV namespaces, by namespace id *)
  index : gmap string VectorizeVector;    (* the Vectorize index, by vector id *)
  now : Z;                                (* the clock, in ms since the epoch *)
  console : list LogEntry;                (* the console, oldest record first *)
  calls : nat;                            (* platform calls awaited so far *)
}.

(** The bindings of a worker and the behaviour of its platform.
    [DOC_METADATA] and [DOCUMENT_METADATA] name KV namespaces and may
    name the same one.  [AI] is the answer of the embedding service;
    [fault] says which platform calls reject, with what, as a function of
    the number of calls before and of the call; [Date_parse_other] is
    what the engine's [Date.parse] makes of a text outside the format of
    [toISOString]. *)
Record Env : Type := {
  DOC_METADATA : string;
  DOCUMENT_METADATA : string;
  AI : nat -> string -> list string -> AiResponse;
  fault : nat -> Op -> option exn;
  Date_parse_other : string -> number;
}.

Module Platform.

Definition namespace (w : World) (ns : string) : gmap string string :=
  default ∅ (kv w !! ns).

Definition set_namespace (ns : string) (content : gmap string string) (w : World) : World :=
  {| kv := <[ns := content]> (kv w); index := index w; now := now w;
     console := console w; calls := calls w |}.

Definition set_index (i : gmap string VectorizeVector) (w : World) : World :=
  {| kv := kv w; index := i; now := now w; console := console w; calls := calls w |}.

Definition log (e : LogEntry) (w : World) : World :=
  {| kv := kv w; index := index w; now := now w;
     console := console w ++ [e]; calls := calls w |}.

(** The same platform at another time of the clock. *)
Definition at_time (t : Z) (w : World) : World :=
  {| kv := kv w; index := index w; now := t; console := console w; calls := calls w |}.

Definition tick (w : World) : World :=
  {| kv := kv w; index := index w; now := now w;
     console := console w; calls := S (calls w) |}.

(** An awaited call: it is counted, then rejects if the fault plan says
    so (leaving the stores as they were), else acts. *)
Definition await {A} (env : Env) (op : Op) (act : M World A) : M World A :=
  fun w =>
    match fault env (calls w) op with
    | Some e => (Throw e, tick w)
    | None => act (tick w)
    end.

(** [ns.get(key, 'text')]: [None] is [null]. *)
Definition kv_get_text (env : Env) (ns key : string) : M World (option string) :=
  await env (KvGet ns key) (gets (fun w => namespace w ns !! key)).

(** [ns.get(key, 'json')]: the text is parsed; a text that is not JSON
    rejects with a [SyntaxError]. *)
Definition kv_get_json (env : Env) (ns key : string) : M World (option json) :=
  let* text := kv_get_text env ns key in
  match text with
  | None => ret None
  | Some t =>
      match Json.parse t with
      | Some v => ret (Some v)
      | None => throw (Error "Unexpected token in JSON")
      end
  end.

Definition kv_put (env : Env) (ns key value : string) : M World unit :=
  await env (KvPut ns key value)
    (modify (fun w => set_namespace ns (<[key := value]> (namespace w ns)) w)).

Definition kv_delete (env : Env) (ns key : string) : M World unit :=
  await env (KvDelete ns key)
    (modify (fun w => set_namespace ns (delete key (namespace w ns)) w)).

(** The order of the keys of a listing: that of their bytes. *)
Definition key_le (a b : string) : Prop := String.leb a b = true.

#[global] Instance key_le_dec : RelDecision key_le :=
  fun a b => decide (String.leb a b = true).

(** The keys one call of [ns.list()] returns: the names in the order
    of their bytes, and at most 1000 of them (the rest is behind a
    cursor, which this program does not follow). *)
Definition listed_keys (content : gmap string string) : list string :=
  take (Z.to_nat 1000) (merge_sort key_le (map_to_list content).*1).

(** [ns.list()]. *)
Definition kv_list (env : Env) (ns : string) : M World (list string) :=
  await env (KvList ns) (gets (fun w => listed_keys (namespace w ns))).

Definition ai_run (env : Env) (model : string) (texts : list string) : M World AiResponse :=
  await env (AiRun model texts) (gets (fun w => AI env (calls w) model texts)).

(** [index.upsert(vectors)]: each vector replaces the one of its id. *)
Definition index_upsert (env : Env) (vectors : list VectorizeVector) : M World unit :=
  await env (IndexUpsert vectors)
    (modify (fun w =>
       set_index (fold_left (fun i v => <[id v := v]> i) vectors (index w)) w)).

(** [index.deleteByIds(ids)]; an argument that is not an array of
    strings ([None]) is rejected by the binding. *)
Definition index_deleteByIds (env : Env) (ids : option (list string)) : M World unit :=
  await env (IndexDeleteByIds ids)
    (match ids with
     | Some l => modify (fun w => set_index (fold_left (fun i k => delete k i) l (index w)) w)
     | None => throw (Error "deleteByIds: ids must be an array of strings")
     end).

Definition Date_now : M World Z := gets now.

(** [new Date().toISOString()]. *)
Definition Date_toISOString : M World string := gets (fun w => JsDate.toISOString (now w)).

Definition console_error (label : string) (error : exn) : M World unit :=
  modify (log (ConsoleError label error)).

(** A platform on which no call rejects. *)
Definition fault_free (env : Env) : Prop :=
  forall calls_before op, fault env calls_before op = None.

(** A platform on which no call to a KV namespace rejects. *)
Definition kv_quiet (env : Env) : Prop :=
  forall calls_before op,
    match op with
    | KvGet _ _ | KvPut _ _ _ | KvDelete _ _ | KvList _ => fault env calls_before op = None
    | _ => True
    end.

End Platform.

(* ===================================================================== *)
(** * [src/vectorize.ts] *)
(* ===================================================================== *)

Module QuotaCheck.
Record t : Type := {
  allowed : bool;
  currentCount : number;
  availableQuota : number;
}.
End QuotaCheck.

Module EmbedResponse.
Record t : Type := {
  success : bool;
  vectorIds : option (list string);
  error : option string;
}.
End EmbedResponse.

Module DeleteResult.
Record t : Type := {
  success : bool;
  deletedCount : number;
  error : option string;
}.
End DeleteResult.

Module Vectorize.

Import Platform.

Definition EMBED_MODEL : string := "@cf/baai/bge-small-en-v1.5".
Definition MAX_VECTORS : Z := 100.
Definition VECTOR_COUNT_KEY : string := "__vector_count__".

(** ** Quota tracking *)

Definition getVectorCount (env : Env) : M World number :=
  let* count := kv_get_text env (DOC_METADATA env) VECTOR_COUNT_KEY in
  ret (match count with
       | Some c => if JsString.truthy c then Num.parseInt c else Int 0
       | None => Int 0
       end).

(** The count the store holds: what a read by [getVectorCount] gives. *)
Definition stored_count (env : Env) (w : World) : number :=
  match namespace w (DOC_METADATA env) !! VECTOR_COUNT_KEY with
  | Some c => if JsString.truthy c then Num.parseInt c else Int 0
  | None => Int 0
  end.

(** The counter holds the integer [c]: its key has the decimal text of
    [c], or [c] is 0 and the key is absent. *)
Definition counter_is (env : Env) (w : World) (c : Z) : Prop :=
  namespace w (DOC_METADATA env) !! VECTOR_COUNT_KEY = Some (Num.toString (Int c))
  \/ (namespace w (DOC_METADATA env) !! VECTOR_COUNT_KEY = None /\ c = 0).

Definition updateVectorCount (env : Env) (delta : number) : M World number :=
  let* currentCount := getVectorCount env in
  let newCount := Num.max (Int 0) (Num.add currentCount delta) in
  kv_put env (DOC_METADATA env) VECTOR_COUNT_KEY (Num.toString newCount) ;;;
  ret newCount.

(** A run of adjustments, one after the other; the values returned. *)
Fixpoint adjust_all (env : Env) (deltas : list Z) : M World (list number) :=
  match deltas with
  | [] => ret []
  | d :: rest =>
      let* v := updateVectorCount env (Int d) in
      let* vs := adjust_all env rest in
      ret (v :: vs)
  end.

Definition checkVectorQuota (env : Env) (requiredVectors : number) : M World QuotaCheck.t :=
  let* currentCount := getVectorCount env in
  let availableQuota := Num.sub (Int MAX_VECTORS) currentCount in
  let allowed := Num.le requiredVectors availableQuota in
  ret {| QuotaCheck.allowed := allowed;
         QuotaCheck.currentCount := currentCount;
         QuotaCheck.availableQuota := availableQuota |}.

(** [emitQuotaMetric]: one [[METRIC]] record on the console.  The
    constant [type] tag and the derived floating-point [percentUsed] of
    the record are not kept. *)
Definition emitQuotaMetric (env : Env) (count : number) (delta : option number)
    (reason : string) : M World unit :=
  let* at_time := Date_toISOString in
  modify (log (Metric at_time count delta reason)).

(** ** Ingestion *)

(** The inner [forEach] of [embedAndStore]: the chunk records of one
    text.  The clock is read once per invocation. *)
Definition chunks_of_text (md : EmbedMetadata) (at_time : string)
    (textIndex : nat) (text : string) : list ChunkMetadata :=
  imap (fun chunkIndex chunk =>
          {| cm_source := md;
             chunkIndex := Z.of_nat chunkIndex;
             textIndex := Z.of_nat textIndex;
             chunk := JsString.slice0 200 chunk;
             fullChunk := chunk;
             timestamp := at_time |})
       (Chunker.chunkText_default text).

(** The outer [forEach]: [chunkMetadata]; [allChunks] is its
    [fullChunk] column. *)
Definition chunk_all (md : EmbedMetadata) (at_time : string) (texts : list string)
    : list ChunkMetadata :=
  concat (imap (chunks_of_text md at_time) texts).

Definition count_of {A} (l : list A) : number := Int (Z.of_nat (length l)).

(** The chunk records [embedAndStore] builds in the world [w], and
    their number, the requested count of the admission check. *)
Definition chunks_in (md : EmbedMetadata) (texts : list string) (w : World)
    : list ChunkMetadata :=
  chunk_all md (JsDate.toISOString (now w)) texts.

Definition requested (md : EmbedMetadata) (texts : list string) (w : World) : Z :=
  Z.of_nat (length (chunks_in md texts w)).

Definition quota_denied_message (q : QuotaCheck.t) (requested : number) : string :=
  "Vector limit exceeded. Current count: " +:+ Num.toString (QuotaCheck.currentCount q)
  +:+ "/" +:+ Num.toString (Int MAX_VECTORS)
  +:+ ". Requested: " +:+ Num.toString requested
  +:+ ". Available quota: " +:+ Num.toString (QuotaCheck.availableQuota q).

Definition make_vectors (md : EmbedMetadata) (date_now : Z)
    (chunkMetadata : list ChunkMetadata) (data : list embedding) : list VectorizeVector :=
  imap (fun idx e =>
          {| id := documentId md +:+ "-" +:+ Num.toString (Int date_now) +:+ "-"
                   +:+ Num.toString (Int (Z.of_nat idx));
             values := e;
             metadata := chunkMetadata !! idx |})
       data.

(** The record [embedAndStore] persists under the document id. *)
Definition docMetadata (md : EmbedMetadata) (uploadedAt : string)
    (vectors : list VectorizeVector) : json :=
  JObj [ ("name", JStr (documentName md));
         ("type", JStr (documentType md));
         ("chunksCount", JNum (Z.of_nat (length vectors)));
         ("uploadedAt", JStr uploadedAt);
         ("vectorIds", JArr (map (fun v => JStr (id v)) vectors)) ].

(** The body of the [try] block of [embedAndStore]. *)
Definition embedAndStore_try (texts : list string) (md : EmbedMetadata) (env : Env)
    : M World EmbedResponse.t :=
  let* at_time := Date_toISOString in
  let chunkMetadata := chunk_all md at_time texts in
  let allChunks := map fullChunk chunkMetadata in
  let* quotaCheck := checkVectorQuota env (count_of allChunks) in
  if negb (QuotaCheck.allowed quotaCheck) then
    emitQuotaMetric env (QuotaCheck.currentCount quotaCheck) (Some (Int 0))
      ("quota_denied_requested_" +:+ Num.toString (count_of allChunks)) ;;;
    ret {| EmbedResponse.success := false;
           EmbedResponse.vectorIds := None;
           EmbedResponse.error := Some (quota_denied_message quotaCheck (count_of allChunks)) |}
  else
    let* embedResponse := ai_run env EMBED_MODEL allChunks in
    match embedResponse with
    | AiData data =>
        let* date_now := Date_now in
        let vectors := make_vectors md date_now chunkMetadata data in
        index_upsert env vectors ;;;
        let* newCount := updateVectorCount env (count_of vectors) in
        emitQuotaMetric env newCount (Some (count_of vectors))
          ("upsert_document_" +:+ documentId md) ;;;
        let* uploadedAt := Date_toISOString in
        kv_put env (DOC_METADATA env) (documentId md)
          (Json.stringify (docMetadata md uploadedAt vectors)) ;;;
        ret {| EmbedResponse.success := true;
               EmbedResponse.vectorIds := Some (map id vectors);
               EmbedResponse.error := None |}
    | _ => throw (Error "Invalid embedding response")
    end.

(** [error instanceof Error ? error.message : fallback]. *)
Definition message_or (fallback : string) (e : exn) : string :=
  match e with
  | Error message => message
  | Thrown _ => fallback
  end.

(** The failure result of the [catch] clause of [embedAndStore]. *)
Definition embed_failure (e : exn) : EmbedResponse.t :=
  {| EmbedResponse.success := false;
     EmbedResponse.vectorIds := None;
     EmbedResponse.error := Some (message_or "Failed to embed and store documents" e) |}.

Definition embedAndStore (texts : list string) (md : EmbedMetadata) (env : Env)
    : M World EmbedResponse.t :=
  try_catch (embedAndStore_try texts md env)
    (fun error =>
       console_error "Embed and store error:" error ;;;
       ret (embed_failure error)).

(** ** Deletion *)

(** A JSON value as the argument of [deleteByIds]: the strings of an
    array of strings. *)
Definition string_array (v : json) : option (list string) :=
  match v with
  | JArr items => mapM (fun x => match x with JStr s => Some s | _ => None end) items
  | _ => None
  end.

(** [v.length] in arithmetic; NaN stands for the [undefined] of a value
    without a length. *)
Definition length_of (v : json) : number :=
  match v with
  | JArr items => count_of items
  | JStr s => Int (JsString.len s)
  | _ => NaN
  end.

Definition no_op_success : DeleteResult.t :=
  {| DeleteResult.success := true;
     DeleteResult.deletedCount := Int 0;
     DeleteResult.error := None |}.

(** The body of the [try] block of [deleteDocumentVectors]. *)
Definition deleteDocumentVectors_try (documentId : string) (env : Env)
    : M World DeleteResult.t :=
  let* metadata := kv_get_json env (DOC_METADATA env) documentId in
  match metadata with
  | None => ret no_op_success                             (* [!metadata]: null *)
  | Some md =>
      if negb (Json.truthy md) then ret no_op_success     (* [!metadata] *)
      else
        match Json.prop "vectorIds" md with
        | None => ret no_op_success                       (* [!metadata.vectorIds] *)
        | Some vectorIds =>
            if negb (Json.truthy vectorIds) then ret no_op_success
            else
              index_deleteByIds env (string_array vectorIds) ;;;
              let* newCount := updateVectorCount env (Num.neg (length_of vectorIds)) in
              emitQuotaMetric env newCount (Some (Num.neg (length_of vectorIds)))
                ("delete_document_" +:+ documentId) ;;;
              kv_delete env (DOC_METADATA env) documentId ;;;
              ret {| DeleteResult.success := true;
                     DeleteResult.deletedCount := length_of vectorIds;
                     DeleteResult.error := None |}
        end
  end.

Definition deleteDocumentVectors (documentId : string) (env : Env)
    : M World DeleteResult.t :=
  try_catch (deleteDocumentVectors_try documentId env)
    (fun error =>
       console_error "Error deleting document vectors:" error ;;;
       ret {| DeleteResult.success := false;
              DeleteResult.deletedCount := Int 0;
              DeleteResult.error :=
                Some (message_or "Failed to delete document vectors" error) |}).

End Vectorize.

(* ===================================================================== *)
(** * [src/cleanup.ts] *)
(* ===================================================================== *)

Module Cleanup.

Import Platform.

(** The state of a sweep: the platform and the local [deletedCount],
    which the [catch] clause of [cleanupOldVectors] still reads after a
    throw. *)
Record Sweep : Type := {
  world : World;
  deletedCount : Z;
}.

(** A platform computation run inside a sweep. *)
Definition lift {A} (m : M World A) : M Sweep A :=
  fun s =>
    let '(r, w) := m (world s) in
    (r, {| world := w; deletedCount := deletedCount s |}).

Definition add_deleted (n : Z) : M Sweep unit :=
  modify (fun s => {| world := world s; deletedCount := deletedCount s + n |}).

(** [metadata.chunks?.map((chunk) => chunk.id) || []].  A [chunks]
    that is neither nullish nor an array has no [map] to call, and the
    [id] of a [null] chunk cannot be read: both are a [TypeError]. *)
Definition chunk_ids (md : json) : result (list (option json)) :=
  match Json.prop "chunks" md with
  | None | Some JNull => Ok []
  | Some (JArr chunks) =>
      if forallb (fun c => match c with JNull => false | _ => true end) chunks
      then Ok (map (Json.prop "id") chunks)
      else Throw (Error "Cannot read properties of null (reading 'id')")
  | Some _ => Throw (Error "metadata.chunks.map is not a function")
  end.

(** The list of ids as the argument of [deleteByIds]. *)
Definition string_ids (ids : list (option json)) : option (list string) :=
  mapM (fun x => match x with Some (JStr s) => Some s | _ => None end) ids.

(** One turn of the loop over [documents.keys]. *)
Definition sweep_document (env : Env) (cutoffTimestamp : number) (key : string)
    : M Sweep unit :=
  let* metadata := lift (kv_get_json env (DOCUMENT_METADATA env) key) in
  match metadata with
  | None => ret tt
  | Some md =>
      if negb (Json.truthy md) then ret tt
      else
        match Json.prop "uploadedAt" md with
        | None => ret tt
        | Some uploadedAt =>
            if negb (Json.truthy uploadedAt) then ret tt
            else
              let uploadTimestamp :=
                JsDate.time_of_json (Date_parse_other env) uploadedAt in
              if Num.lt uploadTimestamp cutoffTimestamp then
                let* vectorIds :=
                  match chunk_ids md with
                  | Ok ids => ret ids
                  | Throw e => throw e
                  end in
                (if (0 <? length vectorIds)%nat then
                   try_catch
                     (lift (index_deleteByIds env (string_ids vectorIds)) ;;;
                      add_deleted (Z.of_nat (length vectorIds)) ;;;
                      lift (Vectorize.updateVectorCount env
                              (Num.neg (Vectorize.count_of vectorIds))) ;;;
                      ret tt)
                     (fun error =>
                        lift (console_error
                                ("Error deleting vectors for document " +:+ key +:+ ":")
                                error))
                 else ret tt) ;;;
                lift (kv_delete env (DOCUMENT_METADATA env) key)
              else ret tt
        end
  end.

(** [cutoffDate.getTime()] after [setDate(getDate() - maxAgeInDays)].
    The worker's clock is UTC, where [setDate] goes back whole days of
    86 400 000 ms; a date it takes out of the range of time values is
    an invalid date, whose time is NaN. *)
Definition cutoff_time (date_now maxAgeInDays : Z) : number :=
  JsDate.time_clip (date_now - maxAgeInDays * JsDate.ms_per_day).

(** [cleanupOldVectors(env, maxAgeInDays)], as a sweep. *)
Definition cleanupOldVectors_sweep (env : Env) (maxAgeInDays : Z) : M Sweep Z :=
  let* date_now := lift Date_now in
  let cutoffTimestamp := cutoff_time date_now maxAgeInDays in
  try_catch
    (let* documents := lift (kv_list env (DOCUMENT_METADATA env)) in
     for_of documents (sweep_document env cutoffTimestamp) ;;;
     gets deletedCount)
    (fun error =>
       lift (console_error "Error during vector cleanup:" error) ;;;
       gets deletedCount).

Definition cleanupOldVectors (env : Env) (maxAgeInDays : Z) : M World Z :=
  fun w =>
    let '(r, s) := cleanupOldVectors_sweep env maxAgeInDays
                     {| world := w; deletedCount := 0 |} in
    (r, world s).

(** [handleScheduledCleanup]: the sweep with a retention of 30 days
    (the elapsed wall-clock time it also reports is not modelled). *)
Definition handleScheduledCleanup (env : Env) : M World Z := cleanupOldVectors env 30.

(** Whether the sweep takes a record for older than the cutoff: never
    when the cutoff is NaN. *)
Definition over_age (env : Env) (cutoffTimestamp : number) (record : json) : bool :=
  Json.truthy record &&
  match Json.prop "uploadedAt" record with
  | Some uploadedAt =>
      Json.truthy uploadedAt
      && Num.lt (JsDate.time_of_json (Date_parse_other env) uploadedAt) cutoffTimestamp
  | None => false
  end.

Definition over_age_text (env : Env) (cutoffTimestamp : number) (text : string) : bool :=
  match Json.parse text with
  | Some record => over_age env cutoffTimestamp record
  | None => false
  end.

(** A stored text whose vectors the sweep does not remove: it is JSON
    and, when over age, its [chunks] give no id or [deleteByIds] rejects
    them. *)
Definition removal_blocked (env : Env) (cutoffTimestamp : number) (text : string) : Prop :=
  exists record,
    Json.parse text = Some record
    /\ (over_age env cutoffTimestamp record = true ->
        exists ids,
          chunk_ids record = Ok ids
          /\ (ids = []
              \/ forall calls_before,
                   fault env calls_before (IndexDeleteByIds (string_ids ids)) <> None)).

(** What the sweep leaves under a key that held [entry]. *)
Definition kept (env : Env) (cutoffTimestamp : number) (entry : option string)
    : option string :=
  match entry with
  | Some text => if over_age_text env cutoffTimestamp text then None else Some text
  | None => None
  end.

End Cleanup.

(* ===================================================================== *)
(** * Concrete platforms and worlds *)
(* ===================================================================== *)

Module Demo.

Import Platform.

(** An embedding service that returns one embedding per text. *)
Definition embed_each (calls_before : nat) (model : string) (texts : list string)
    : AiResponse :=
  AiData (map (fun _ => [1; 2; 3]) texts).

(** A worker whose two metadata bindings name the same KV namespace,
    on a platform that does not fail. *)
Definition env : Env :=
  {| DOC_METADATA := "metadata";
     DOCUMENT_METADATA := "metadata";
     AI := embed_each;
     fault := fun _ _ => None;
     Date_parse_other := fun _ => NaN |}.

(** The same worker with two distinct namespaces. *)
Definition env_split : Env :=
  {| DOC_METADATA := "metadata";
     DOCUMENT_METADATA := "documents";
     AI := embed_each;
     fault := fun _ _ => None;
     Date_parse_other := fun _ => NaN |}.

Definition index_down : exn := Error "index unavailable".

(** A platform whose [deleteByIds] rejects. *)
Definition env_deleteByIds_down : Env :=
  {| DOC_METADATA := "metadata";
     DOCUMENT_METADATA := "metadata";
     AI := embed_each;
     fault := fun _ op =>
                match op with IndexDeleteByIds _ => Some index_down | _ => None end;
     Date_parse_other := fun _ => NaN |}.


(** 2023-11-14T22:13:20.123Z. *)
Definition t0 : Z := 1700000000123.

Definition empty : World :=
  {| kv := ∅; index := ∅; now := t0; console := []; calls := O |}.

(** A world whose counter holds [c]. *)
Definition with_count (c : Z) : World :=
  {| kv := {[ "metadata" := {[ Vectorize.VECTOR_COUNT_KEY := Num.toString (Int c) ]} ]};
     index := ∅; now := t0; console := []; calls := O |}.

Definition doc : EmbedMetadata :=
  {| documentId := "doc1"; documentName := "Notes"; documentType := "text" |}.

(** The world after [doc] was ingested into an empty one. *)
Definition ingested : World :=
  snd (Vectorize.embedAndStore ["Hello world. How are you?"] doc env empty).

(** A record in the format the sweep reads, uploaded at [t0]. *)
Definition legacy_json : json :=
  JObj [ ("uploadedAt", JStr (JsDate.toISOString t0));
         ("chunks", JArr [JObj [("id", JStr "old-0")]; JObj [("id", JStr "old-1")]]) ].

Definition legacy_record : string := Json.stringify legacy_json.

Definition with_legacy_record : World :=
  {| kv := {[ "metadata" := {[ Vectorize.VECTOR_COUNT_KEY := "2"; "old" := legacy_record ]} ]};
     index := {[ "old-0" := {| id := "old-0"; values := [1]; metadata := None |};
                 "old-1" := {| id := "old-1"; values := [2]; metadata := None |} ]};
     now := t0 + 31 * JsDate.ms_per_day; console := []; calls := O |}.

(** Three sentences of 601, 500 and 500 characters, none starting with
    white space. *)
Definition long_text : string :=
  Chunker.repeat_char "a" 600 +:+ "." +:+ Chunker.repeat_char "b" 499 +:+ "."
  +:+ Chunker.repeat_char "c" 499 +:+ ".".

End Demo.

Module ChunkerViews.
Import JsString.

(** A chunk as [chunkText] returns them: not empty, and with no white
    space at either end. *)
Definition trimmed_chunk (c : string) : Prop := c <> EmptyString /\ trim c = c.

(** A text without any of the sentence terminators. *)
Definition unpunctuated (text : string) : Prop :=
  Forall (fun c => Chunker.is_terminator c = false) (list_ascii_of_string text).

End ChunkerViews.

Module IngestViews.
Import Platform Vectorize.

(** The id [embedAndStore] gives the vector of position [idx]:
    [`${metadata.documentId}-${Date.now()}-${idx}`]. *)
Definition vector_id (documentId : string) (date_now : Z) (idx : nat) : string :=
  documentId +:+ "-" +:+ Num.toString (Int date_now) +:+ "-"
  +:+ Num.toString (Int (Z.of_nat idx)).

(** The answer of the embedding service inside [embedAndStore] run
    from the world [w]: the service is the second call awaited, after
    the read of the counter. *)
Definition embed_answer (env : Env) (md : EmbedMetadata) (texts : list string) (w : World)
    : AiResponse :=
  AI env (S (S (calls w))) EMBED_MODEL (map fullChunk (chunks_in md texts w)).

End IngestViews.

Module DateViews.
Import JsDate.

(** The day [doe] of a 400-year era (0 is March 1 of a year divisible
    by 400): its year of the era, month and day, as [civil_from_days]
    computes them. *)
Definition civil_of_doe (doe : Z) : Z * Z * Z :=
  let yoe := (doe - doe / 1460 + doe / 36524 - doe / 146096) / 365 in
  let doy := doe - (365 * yoe + yoe / 4 - yoe / 100) in
  let mp := (5 * doy + 2) / 153 in
  let d := doy - (153 * mp + 2) / 5 + 1 in
  let m := if mp <? 10 then mp + 3 else mp - 9 in
  (yoe, m, d).

(** What holds of every day of an era. *)
Definition doe_ok (doe : Z) : bool :=
  let '(yoe, m, d) := civil_of_doe doe in
  let adj := if m <=? 2 then 1 else 0 in
  (0 <=? yoe) && (yoe <=? 399)
  && (1 <=? m) && (m <=? 12) && (1 <=? d) && (d <=? days_in_month (yoe + adj) m)
  && (yoe * 365 + yoe / 4 - yoe / 100
      + ((153 * (if m >? 2 then m - 3 else m + 9) + 2) / 5 + d - 1) =? doe)
  && (if doe <? 146037 then yoe + adj <=? 399 else yoe + adj =? 400).

Fixpoint all_from (ok : Z -> bool) (count : nat) (from : Z) : bool :=
  match count with
  | O => true
  | S k => if ok from then all_from ok k (from + 1) else false
  end.

(** A number below [10 ^ width] is read back from its padded text. *)
Definition pad_ok (width : nat) (n : Z) : bool :=
  match field width 0 (pad width n) with
  | Some (v, EmptyString) => v =? n
  | _ => false
  end.

End DateViews.

Module SweepViews.
Import Platform Cleanup.

(** The vector ids the sweep takes from a record, when every chunk
    has a string [id]. *)
Definition record_ids (record : json) : option (list string) :=
  match chunk_ids record with
  | Ok ids => string_ids ids
  | Throw _ => None
  end.

(** A stored text in the format the sweep reads: it is JSON and, when
    over age, each of its [chunks] has a string [id]. *)
Definition legacy_format (env : Env) (cutoffTimestamp : number) (text : string) : Prop :=
  exists record,
    Json.parse text = Some record
    /\ (over_age env cutoffTimestamp record = true -> is_Some (record_ids record)).

(** The vector ids the sweep removes for a stored text. *)
Definition swept_ids (env : Env) (cutoffTimestamp : number) (text : string)
    : list string :=
  match Json.parse text with
  | Some record =>
      if over_age env cutoffTimestamp record then default [] (record_ids record) else []
  | None => []
  end.

(** The same for the text under a key, if any. *)
Definition swept_ids_at (env : Env) (cutoffTimestamp : number) (w : World) (key : string)
    : list string :=
  match namespace w (DOCUMENT_METADATA env) !! key with
  | Some text => swept_ids env cutoffTimestamp text
  | None => []
  end.

(** The cell of the counter. *)
Definition counter_cell (env : Env) (ns key : string) : Prop :=
  ns = DOC_METADATA env /\ key = Vectorize.VECTOR_COUNT_KEY.

(** What a computation of the sweep may do to the local count and to
    the index: raise the one, shrink the other. *)
Definition sweeps_on (s s' : Sweep) : Prop :=
  deletedCount s <= deletedCount s'
  /\ index (world s') ⊆ index (world s).

Definition sweeping {A} (m : M Sweep A) : Prop := forall s, sweeps_on s (snd (m s)).

(** What a computation of the sweep may do to a cell of the KV store
    other than the counter: delete it. *)
Definition erases_on (env : Env) (w w' : World) : Prop :=
  forall ns k,
    ~ counter_cell env ns k ->
    namespace w' ns !! k = None \/ namespace w' ns !! k = namespace w ns !! k.

Definition erasing (env : Env) {A} (m : M World A) : Prop :=
  forall w, erases_on env w (snd (m w)).

Definition sweep_erasing (env : Env) {A} (m : M Sweep A) : Prop :=
  forall s, erases_on env (world s) (world (snd (m s))).

Definition shrinking {A} (m : M World A) : Prop := forall w, index (snd (m w)) ⊆ index w.

End SweepViews.

Module DeletionViews.
Import Platform Vectorize.

(** What a deletion may do to a counter that holds a number: lower it,
    not below zero. *)
Definition lowers_on (env : Env) (w w' : World) : Prop :=
  forall c, counter_is env w c -> 0 <= c -> exists c', counter_is env w' c' /\ 0 <= c' <= c.

Definition lowering (env : Env) {A} (m : M World A) : Prop :=
  forall w, lowers_on env w (snd (m w)).

End DeletionViews.

(* ===================================================================== *)
(** * [Math.min], and the numbers of the usage report as doubles *)
(* ===================================================================== *)

Module Math.

(** [Math.min(a, b)]: NaN as soon as one argument is NaN. *)
Definition min (a b : number) : number :=
  match a, b with
  | Int x, Int y => Int (Z.min x y)
  | _, _ => NaN
  end.

End Math.

(** The percentages of the usage report are computed in double
    precision; they are modelled with the binary64 numbers of the
    kernel. *)
Module Double.

Definition double : Type := PrimFloat.float.

(** The double nearest to an integer (exactly that integer below
    2^53 in absolute value). *)
Definition of_Z (z : Z) : double :=
  FloatOps.SF2Prim (SpecFloat.binary_normalize FloatOps.prec FloatOps.emax z 0 false).

Definition of_number (a : number) : double :=
  match a with
  | Int z => of_Z z
  | NaN => PrimFloat.nan
  end.

(** [Math.round(x)]: the nearest integer, a tie going up; an integer,
    an infinity, a zero and NaN are returned as they are, and a result
    of zero keeps the sign of [x]. *)
Definition round (x : double) : double :=
  match FloatOps.Prim2SF x with
  | SpecFloat.S754_finite s m e =>
      if 0 <=? e then x
      else
        let v := if s then Z.neg m else Z.pos m in
        let q := 2 ^ (- e) in
        let n := (2 * v + q) / (2 * q) in
        if n =? 0 then (if s then PrimFloat.neg_zero else PrimFloat.zero) else of_Z n
  | _ => x
  end.

(** [(count / MAX_VECTORS) * 100], as [emitQuotaMetric] logs it and
    [getVectorUsageStatus] starts from. *)
Definition percentUsed (count : number) : double :=
  PrimFloat.mul (PrimFloat.div (of_number count) (of_Z Vectorize.MAX_VECTORS)) (of_Z 100).

(** [Math.round(p * 100) / 100]. *)
Definition round2 (p : double) : double :=
  PrimFloat.div (round (PrimFloat.mul p (of_Z 100))) (of_Z 100).

End Double.

(* ===================================================================== *)
(** * [src/vectorize.ts]: retrieval and the usage report *)
(* ===================================================================== *)

(** A value of the metadata of a vector as the index gives it back: a
    string, a number, a boolean or a list of strings. *)
Inductive MetaValue : Type :=
| MStr (s : string)
| MNum (z : Z)
| MBool (b : bool)
| MStrs (l : list string).

(** The relevance of a match is a payload the pipelines never look
    into. *)
Definition score : Type := Z.

(** One match of [env.DOC_INDEX.query]; its metadata may be missing. *)
Record VectorizeMatch : Type := {
  match_id : string;
  match_score : score;
  match_metadata : option (gmap string MetaValue);
}.

(** What [env.DOC_INDEX.query] resolves to: an array of matches, or a
    value that has no [map] method. *)
Inductive QueryAnswer : Type :=
| Matches (matches : list VectorizeMatch)
| NotAnArray.

(** The bindings of a worker that serves queries: those of [Env], the
    answer of the index to a query (a rejection included) as a function
    of the number of calls before, of the index, of the query vector
    and of [topK], and what [data[0]] is, if it is an array, when the
    [data] of the embedding service is not one. *)
Record QueryEnv : Type := {
  bindings :> Env;
  DOC_INDEX_query :
    nat -> gmap string VectorizeVector -> embedding -> number -> result QueryAnswer;
  AI_data_0 : nat -> string -> list string -> option embedding;
}.

Module QueryMetadata.
Record t : Type := {
  chunk : MetaValue;
  documentId : option MetaValue;
  documentName : option MetaValue;
  pageNumber : option MetaValue;
  timestamp : option MetaValue;
  fullChunk : option MetaValue;
}.
End QueryMetadata.

Module QueryResult.
Record t : Type := {
  id : string;
  score : score;
  metadata : QueryMetadata.t;
}.
End QueryResult.

Module UsageStatus.
Record t : Type := {
  currentCount : number;
  maxCount : number;
  availableQuota : number;
  percentageUsed : Double.double;
}.
End UsageStatus.

Module Retrieval.

Import Platform Vectorize.

Definition truthy (v : MetaValue) : bool :=
  match v with
  | MStr s => JsString.truthy s
  | MNum z => Num.truthy (Int z)
  | MBool b => b
  | MStrs _ => true
  end.

(** [match.metadata?.name]. *)
Definition field (name : string) (m : VectorizeMatch) : option MetaValue :=
  md ← match_metadata m; md !! name.

(** One element of the [results.map(...)] of [queryDocuments]. *)
Definition to_result (m : VectorizeMatch) : QueryResult.t :=
  {| QueryResult.id := match_id m;
     QueryResult.score := match_score m;
     QueryResult.metadata :=
       {| QueryMetadata.chunk :=
            match field "chunk" m with
            | Some v => if truthy v then v else MStr EmptyString
            | None => MStr EmptyString
            end;
          QueryMetadata.documentId := field "documentId" m;
          QueryMetadata.documentName := field "documentName" m;
          QueryMetadata.pageNumber := field "pageNumber" m;
          QueryMetadata.timestamp := field "timestamp" m;
          QueryMetadata.fullChunk :=
            match field "fullChunk" m with
            | Some v => if truthy v then Some v else None
            | None => None
            end |} |}.

(** [env.DOC_INDEX.query(vector, { topK })]. *)
Definition index_query (env : QueryEnv) (vector : embedding) (topK : number)
    : M World QueryAnswer :=
  fun w => (DOC_INDEX_query env (calls w) (index w) vector topK, tick w).

(** [queryEmbedding.data[0]] when it is an array, for a response that
    passed [!queryEmbedding || !queryEmbedding.data]. *)
Definition query_vector (env : QueryEnv) (calls_before : nat) (texts : list string)
    (response : AiResponse) : option embedding :=
  match response with
  | AiFalsy | AiNoData => None
  | AiDataNotArray => AI_data_0 env calls_before EMBED_MODEL texts
  | AiData data => head data
  end.

(** The body of the [try] block of [queryDocuments]. *)
Definition queryDocuments_try (query : string) (limit : number) (env : QueryEnv)
    : M World (list QueryResult.t) :=
  let safeLimit := Math.min limit (Int MAX_VECTORS) in
  let* queryEmbedding := ai_run env EMBED_MODEL [query] in
  let* calls_before := gets calls in
  match query_vector env calls_before [query] queryEmbedding with
  | Some vector =>
      let* results := index_query env vector safeLimit in
      match results with
      | Matches matches => ret (map to_result matches)
      | NotAnArray => throw (Error "results.map is not a function")
      end
  | None => throw (Error "Invalid query embedding response")
  end.

Definition queryDocuments (query : string) (limit : number) (env : QueryEnv)
    : M World (list QueryResult.t) :=
  try_catch (queryDocuments_try query limit env)
    (fun error =>
       console_error "Query documents error:" error ;;;
       ret []).

(** [metadata.fullChunk || metadata.chunk || '']. *)
Definition context_chunk (result : QueryResult.t) : MetaValue :=
  let md := QueryResult.metadata result in
  match QueryMetadata.fullChunk md with
  | Some v =>
      if truthy v then v
      else if truthy (QueryMetadata.chunk md) then QueryMetadata.chunk md
      else MStr EmptyString
  | None =>
      if truthy (QueryMetadata.chunk md) then QueryMetadata.chunk md
      else MStr EmptyString
  end.

(** [chunk.length > 0]: a number and a boolean have no length. *)
Definition has_length (v : MetaValue) : bool :=
  match v with
  | MStr s => 0 <? JsString.len s
  | MStrs l => (0 <? length l)%nat
  | MNum _ | MBool _ => false
  end.

(** The text [join] makes of an element. *)
Definition text_of (v : MetaValue) : string :=
  match v with
  | MStr s => s
  | MStrs l => String.concat "," l
  | MNum z => Num.toString (Int z)
  | MBool true => "true"
  | MBool false => "false"
  end.

Definition newline : ascii := "010"%char.

(** The separator of the context, two newlines, three dashes, two
    newlines. *)
Definition separator : string :=
  String newline (String newline ("---" +:+ String newline (String newline EmptyString))).

Definition getDocumentContext (query : string) (topK : number) (env : QueryEnv)
    : M World string :=
  let safeTopK := Math.min topK (Int MAX_VECTORS) in
  let* results := queryDocuments query safeTopK env in
  match results with
  | [] => ret EmptyString
  | _ =>
      let contextChunks := filter (fun c => has_length c = true) (map context_chunk results) in
      ret (String.concat separator (map text_of contextChunks))
  end.

(** [getDocumentContext(query, undefined, env)]: [topK] defaults to 4. *)
Definition getDocumentContext_default (query : string) (env : QueryEnv) : M World string :=
  getDocumentContext query (Int 4) env.

Definition getVectorUsageStatus (env : Env) : M World UsageStatus.t :=
  let* currentCount := getVectorCount env in
  let availableQuota := Num.sub (Int MAX_VECTORS) currentCount in
  let percentageUsed := Double.percentUsed currentCount in
  ret {| UsageStatus.currentCount := currentCount;
         UsageStatus.maxCount := Int MAX_VECTORS;
         UsageStatus.availableQuota := availableQuota;
         UsageStatus.percentageUsed := Double.round2 percentageUsed |}.

(** The metadata of a chunk as an object of the index:
    [{ ...metadata, chunkIndex, textIndex, chunk, fullChunk, timestamp }]. *)
Definition stored_metadata (cm : ChunkMetadata) : gmap string MetaValue :=
  <["timestamp" := MStr (timestamp cm)]>
  (<["fullChunk" := MStr (fullChunk cm)]>
  (<["chunk" := MStr (chunk cm)]>
  (<["textIndex" := MNum (textIndex cm)]>
  (<["chunkIndex" := MNum (chunkIndex cm)]>
  (<["documentType" := MStr (documentType (cm_source cm))]>
  (<["documentName" := MStr (documentName (cm_source cm))]>
  (<["documentId" := MStr (documentId (cm_source cm))]> ∅))))))).

(** A match that gives back a stored vector with its metadata. *)
Definition returns_vector (m : VectorizeMatch) (v : VectorizeVector) : Prop :=
  match_id m = id v /\ match_metadata m = stored_metadata <$> metadata v.

End Retrieval.

(* ===================================================================== *)
(** * [src/src/types/requests.ts]: the type guards *)
(* ===================================================================== *)

Module Requests.

(** [typeof data === 'object' && data !== null]: arrays are objects. *)
Definition is_object (data : json) : bool :=
  match data with
  | JObj _ | JArr _ => true
  | _ => false
  end.

(** [name in data], for an object or array [data] and for the names of
    the guards below, none of which is an index, [length] or inherited:
    [data] has a member of that name. *)
Definition has_member (name : string) (data : json) : bool :=
  match data with
  | JObj members =>
      match Json.member name members with
      | Some _ => true
      | None => false
      end
  | _ => false
  end.

(** [typeof v === 'string'], for a value that may be [undefined]. *)
Definition is_string (v : option json) : bool :=
  match v with
  | Some (JStr _) => true
  | _ => false
  end.

Definition isEmbedRequest (data : json) : bool :=
  is_object data
  && has_member "texts" data
  && match Json.prop "texts" data with
     | Some (JArr texts) => forallb (fun text => is_string (Some text)) texts
     | _ => false                                        (* [Array.isArray] *)
     end.

Definition isRAGRequest (data : json) : bool :=
  is_object data
  && has_member "question" data
  && is_string (Json.prop "question" data).

Definition isQueryRequest (data : json) : bool :=
  is_object data
  && has_member "query" data
  && is_string (Json.prop "query" data).

Definition isDeleteDocumentRequest (data : json) : bool :=
  is_object data
  && has_member "documentId" data
  && is_string (Json.prop "documentId" data).

End Requests.

(* ===================================================================== *)
(** * [src/src/index.ts]: the router and the deletion endpoint *)
(* ===================================================================== *)

Module Worker.

Import Platform Vectorize Requests.

(** A request as the runtime hands it over: its method, the path of its
    URL, and what [request.json()] resolves to or rejects with. *)
Record Request : Type := {
  method : string;
  pathname : string;
  json_body : result json;
}.

(** [new Response(body, { status, headers })]: the body ([None] is
    [null]), the status (200 when the init names none) and the headers
    of the init, in the order of the object. *)
Record Response : Type := {
  body : option string;
  status : Z;
  headers : list (string * string);
}.

Definition request_json (request : Request) : M World json :=
  fun w => (json_body request, w).

Definition corsHeaders : list (string * string) :=
  [ ("Access-Control-Allow-Origin", "*");
    ("Access-Control-Allow-Methods", "GET, POST, PUT, DELETE, OPTIONS");
    ("Access-Control-Allow-Headers", "Content-Type, Authorization") ].

(** [{ ...corsHeaders, 'Content-Type': 'application/json' }]. *)
Definition jsonHeaders : list (string * string) :=
  corsHeaders ++ [("Content-Type", "application/json")].

(** [new Response(JSON.stringify(v), { headers: jsonHeaders })]. *)
Definition json_response (v : json) : Response :=
  {| body := Some (Json.stringify v); status := 200; headers := jsonHeaders |}.

(** [new Response(JSON.stringify({ error }), { status, headers: jsonHeaders })]. *)
Definition error_response (code : Z) (error : string) : Response :=
  {| body := Some (Json.stringify (JObj [("error", JStr error)]));
     status := code;
     headers := jsonHeaders |}.

Definition method_not_allowed : Response :=
  {| body := Some "Method not allowed"; status := 405; headers := corsHeaders |}.

Definition not_found : Response :=
  {| body := Some "Not found"; status := 404; headers := corsHeaders |}.

Definition preflight : Response :=
  {| body := None; status := 200; headers := corsHeaders |}.

Definition health : Response :=
  json_response (JObj [("status", JStr "ok"); ("service", JStr "iplc-ai")]).

(** The result of [deleteDocumentVectors] as [JSON.stringify] sees it:
    the members of the object in the order of the literal; [error] is
    there on failure only, and a [deletedCount] that is [undefined] (the
    length of a value without one, NaN above) is left out. *)
Definition delete_result_json (r : DeleteResult.t) : json :=
  JObj ([("success", JBool (DeleteResult.success r))]
        ++ match DeleteResult.deletedCount r with
           | Int n => [("deletedCount", JNum n)]
           | NaN => []
           end
        ++ match DeleteResult.error r with
           | Some message => [("error", JStr message)]
           | None => []
           end).

Definition handleDeleteDocument (request : Request) (env : Env) : M World Response :=
  let* data := request_json request in
  if negb (isDeleteDocumentRequest data) then
    ret (error_response 400 "Document ID is required")
  else
    match Json.prop "documentId" data with
    | Some (JStr documentId) =>
        try_catch
          (let* result := deleteDocumentVectors documentId env in
           ret (json_response (delete_result_json result)))
          (fun error =>
             console_error "Delete document error:" error ;;;
             ret (error_response 500 "Failed to delete document"))
    | _ => ret (error_response 400 "Document ID is required")   (* excluded by the guard *)
    end.

(** The other handlers of the router. *)
Record Handlers : Type := {
  handleEmbed : Request -> Env -> M World Response;
  handleRAG : Request -> Env -> M World Response;
  handleQuery : Request -> Env -> M World Response;
  handleListDocuments : Env -> M World Response;
  handleMetricsQuota : Env -> M World Response;
}.

(** The [switch] on the path of the URL. *)
Definition dispatch (h : Handlers) (request : Request) (env : Env) : M World Response :=
  let path := pathname request in
  let on m := String.eqb (method request) m in
  if String.eqb path "/health" then ret health
  else if String.eqb path "/embed" then
    if negb (on "POST") then ret method_not_allowed
    else handleEmbed h request env
  else if String.eqb path "/rag" then
    if negb (on "POST") then ret method_not_allowed
    else handleRAG h request env
  else if String.eqb path "/query" then
    if negb (on "POST") then ret method_not_allowed
    else handleQuery h request env
  else if String.eqb path "/documents" then
    if on "GET" then handleListDocuments h env
    else if on "DELETE" then handleDeleteDocument request env
    else ret method_not_allowed
  else if String.eqb path "/metrics/quota" then
    if negb (on "GET") then ret method_not_allowed
    else handleMetricsQuota h env
  else ret not_found.

Definition fetch (h : Handlers) (request : Request) (env : Env) : M World Response :=
  if String.eqb (method request) "OPTIONS" then ret preflight
  else
    try_catch (dispatch h request env)
      (fun error =>
         console_error "Worker error:" error ;;;
         ret (error_response 500 (message_or "Unknown error" error))).

(** The routes that reach a handler: path and method. *)
Definition routes : list (string * string) :=
  [ ("/embed", "POST"); ("/rag", "POST"); ("/query", "POST");
    ("/documents", "GET"); ("/documents", "DELETE"); ("/metrics/quota", "GET") ].

End Worker.

(* ===================================================================== *)
(** * More concrete platforms and worlds *)
(* ===================================================================== *)

Module Cases.

Import Platform.



(** A world whose counter key holds a text that is not a number. *)
Definition unreadable_counter : World :=
  {| kv := {[ "metadata" := {[ Vectorize.VECTOR_COUNT_KEY := "n/a" ]} ]};
     index := ∅; now := Demo.t0; console := []; calls := O |}.

(** The one chunk record of [Demo.ingested]. *)
Definition ingested_chunk : ChunkMetadata :=
  {| cm_source := Demo.doc;
     chunkIndex := 0;
     textIndex := 0;
     chunk := "Hello world.  How are you?";
     fullChunk := "Hello world.  How are you?";
     timestamp := JsDate.toISOString Demo.t0 |}.

(** A match for a stored vector, with its metadata. *)
Definition match_of (v : VectorizeVector) : VectorizeMatch :=
  {| match_id := id v;
     match_score := 1;
     match_metadata := Retrieval.stored_metadata <$> metadata v |}.

(** A worker whose index answers every query with all its vectors,
    metadata included, whatever the query vector. *)
Definition query_env : QueryEnv :=
  {| bindings := Demo.env;
     DOC_INDEX_query := fun _ index _ _ =>
       Ok (Matches (map (fun entry => match_of (snd entry)) (map_to_list index)));
     AI_data_0 := fun _ _ _ => None |}.

(** A worker whose index is down. *)
Definition query_env_down : QueryEnv :=
  {| bindings := Demo.env;
     DOC_INDEX_query := fun _ _ _ _ => Throw Demo.index_down;
     AI_data_0 := fun _ _ _ => None |}.

(** Handlers that throw. *)
Definition handlers_down : Worker.Handlers :=
  {| Worker.handleEmbed := fun _ _ => throw (Error "embed unavailable");
     Worker.handleRAG := fun _ _ => throw (Error "rag unavailable");
     Worker.handleQuery := fun _ _ => throw (Error "query unavailable");
     Worker.handleListDocuments := fun _ => throw (Error "list unavailable");
     Worker.handleMetricsQuota := fun _ => throw (Thrown "quota unavailable") |}.

End Cases.

(* ===================================================================== *)
(** * Properties *)
(* ===================================================================== *)

(** [String.append] is declared [simpl never] by stdpp; the proofs about
    printed texts need it to compute on literals. *)
#[local] Arguments String.append !_ _ / : simpl nomatch.

Module NumFacts.
Import Num.

Lemma digits_prefix_cons c r :
  digits_prefix (String c r) =
  match digit_of_char c with
  | Some d => let '(u, rest) := digits_prefix r in (d u, rest)
  | None => (Nil, String c r)
  end.
Proof. reflexivity. Qed.

Lemma digits_prefix_print (u : Decimal.uint) (rest : string) :
  no_digit_head rest ->
  digits_prefix (NilEmpty.string_of_uint u +:+ rest) = (u, rest).
Proof.
  intros Hrest.
  induction u; cbn [NilEmpty.string_of_uint append];
    try (rewrite digits_prefix_cons, IHu; reflexivity).
  destruct rest as [|c r]; [reflexivity|].
  rewrite digits_prefix_cons. cbn in Hrest. rewrite Hrest. reflexivity.
Qed.

Lemma digit_not_space c :
  digit_of_char c <> None ->
  JsString.is_whitespace c = false /\ Ascii.eqb c "-" = false /\ Ascii.eqb c "+" = false.
Proof.
  destruct c as [[] [] [] [] [] [] [] []]; vm_compute; intuition congruence.
Qed.

Lemma print_head (u : Decimal.uint) :
  u <> Nil ->
  exists c r, NilEmpty.string_of_uint u = String c r /\ digit_of_char c <> None.
Proof.
  destruct u; [congruence|..]; intros _; eexists _, _; (split; [reflexivity|]); discriminate.
Qed.

Lemma digits_prefix_print_all (u : Decimal.uint) :
  digits_prefix (NilEmpty.string_of_uint u) = (u, EmptyString).
Proof.
  induction u; cbn [NilEmpty.string_of_uint]; [reflexivity|..];
    rewrite digits_prefix_cons, IHu; reflexivity.
Qed.

Lemma parseInt_print_uint (u : Decimal.uint) :
  u <> Nil -> parseInt (NilEmpty.string_of_uint u) = Int (Z.of_int (Pos u)).
Proof.
  intros Hu. destruct (print_head u Hu) as (c & r & E & Hc).
  destruct (digit_not_space c Hc) as (Hw & Hm & Hp).
  unfold parseInt. rewrite E. cbn [JsString.trimStart]. rewrite Hw, Hm, Hp.
  rewrite <- E, digits_prefix_print_all. cbn [fst].
  destruct u; [congruence|..]; reflexivity.
Qed.

Lemma parseInt_print_neg (u : Decimal.uint) :
  u <> Nil -> parseInt (String "-" (NilEmpty.string_of_uint u)) = Int (Z.of_int (Neg u)).
Proof.
  intros Hu. unfold parseInt. cbn [JsString.trimStart].
  change (JsString.is_whitespace "-") with false. cbn iota.
  change (Ascii.eqb "-" "-") with true. cbn iota.
  rewrite digits_prefix_print_all. cbn [fst].
  destruct u; [congruence|..]; reflexivity.
Qed.

(** Reading back what [toString] wrote. *)
Lemma parseInt_toString (z : Z) : parseInt (toString (Int z)) = Int z.
Proof.
  rewrite <- (DecimalZ.of_to z) at 2. unfold toString.
  destruct z as [|p|p]; [reflexivity|..];
    cbn [Z.to_int NilZero.string_of_int];
    pose proof (DecimalPos.Unsigned.to_uint_nonnil p) as Hn;
    unfold NilZero.string_of_uint;
    destruct (Pos.to_uint p) eqn:E; try congruence;
    rewrite <- E in *.
  all: first [ apply parseInt_print_uint, Hn | apply parseInt_print_neg, Hn ].
Qed.

Lemma toString_truthy (a : number) : JsString.truthy (toString a) = true.
Proof.
  destruct a as [z|]; [|reflexivity]. unfold toString.
  destruct z as [|p|p]; [reflexivity| |reflexivity].
  cbn [Z.to_int NilZero.string_of_int]. unfold NilZero.string_of_uint.
  pose proof (DecimalPos.Unsigned.to_uint_nonnil p) as Hn.
  destruct (Pos.to_uint p); try congruence; reflexivity.
Qed.

Lemma parseInt_NaN : parseInt (toString NaN) = NaN.
Proof. reflexivity. Qed.
End NumFacts.

Module JsonFacts.
Import Json.

Lemma stringify_arr items : stringify (JArr items) = "[" +:+ print_elems items.
Proof. reflexivity. Qed.

Lemma stringify_obj members : stringify (JObj members) = "{" +:+ print_members members.
Proof. reflexivity. Qed.

Lemma parse_chars_escape_char (c : ascii) (t : string) :
  parse_chars (escape_char c +:+ t) = cons_char c (parse_chars t).
Proof.
  destruct c as [[] [] [] [] [] [] [] []]; reflexivity.
Qed.

Lemma string_app_assoc (a b c : string) : (a +:+ b) +:+ c = a +:+ b +:+ c.
Proof. induction a; simpl; congruence. Qed.

Lemma quote_app (s rest : string) :
  quote s +:+ rest = String dquote (escape s +:+ String dquote rest).
Proof. unfold quote. cbn [String.append]. rewrite string_app_assoc. reflexivity. Qed.

Lemma parse_chars_escape (s rest : string) :
  parse_chars (escape s +:+ String dquote rest) = Some (s, rest).
Proof.
  induction s as [|c s IH]; [reflexivity|].
  cbn [escape]. rewrite string_app_assoc, parse_chars_escape_char, IH. reflexivity.
Qed.

Lemma delimited_no_digit rest :
  delimited rest = true -> Num.no_digit_head rest /\ starts_fraction rest = false.
Proof.
  destruct rest as [|c r]; [intros _; split; [exact I|reflexivity]|].
  cbn [delimited Num.no_digit_head starts_fraction].
  destruct c as [[] [] [] [] [] [] [] []]; vm_compute; intuition congruence.
Qed.

Lemma delimited_skip rest : delimited rest = true -> skip_ws rest = rest.
Proof.
  destruct rest as [|c r]; [reflexivity|]. cbn [delimited skip_ws].
  destruct c as [[] [] [] [] [] [] [] []]; vm_compute; congruence.
Qed.

Lemma nzhead_no_zero (d d' : Decimal.uint) : nzhead d <> D0 d'.
Proof. induction d; cbn; congruence. Qed.

Lemma to_uint_no_leading_zero (p : positive) (d : Decimal.uint) : Pos.to_uint p <> D0 d.
Proof.
  intros E.
  pose proof (DecimalPos.Unsigned.to_of (Pos.to_uint p)) as H.
  rewrite DecimalPos.Unsigned.of_to in H. cbn [N.to_uint] in H.
  rewrite E in H. rewrite DecimalFacts.unorm_D0 in H. unfold unorm in H.
  destruct (nzhead d) eqn:N.
  - injection H as ->. exact (DecimalPos.Unsigned.to_uint_nonzero p E).
  - exact (nzhead_no_zero d _ (eq_trans N (eq_sym H))).
  - discriminate. - discriminate. - discriminate. - discriminate. - discriminate.
  - discriminate. - discriminate. - discriminate. - discriminate.
Qed.

Lemma parse_number_print_uint (negative : bool) (u : Decimal.uint) (rest : string) :
  u <> Nil -> (forall d, u = D0 d -> d = Nil) -> delimited rest = true ->
  parse_number ((if negative then "-" else EmptyString) +:+ NilEmpty.string_of_uint u +:+ rest)
  = Some (JNum (Z.of_int (if negative then Neg u else Pos u)), rest).
Proof.
  intros Hnil Hzero Hrest.
  destruct (delimited_no_digit rest Hrest) as [Hd Hf].
  destruct (NumFacts.print_head u Hnil) as (c & r & E & Hc).
  destruct (NumFacts.digit_not_space c Hc) as (_ & Hm & _).
  unfold parse_number.
  assert (Hsplit :
    (let '(neg, s) :=
       match (if negative then "-" else EmptyString) +:+ NilEmpty.string_of_uint u +:+ rest with
       | String c r => if Ascii.eqb c "-" then (true, r)
                       else (false, (if negative then "-" else EmptyString) +:+ NilEmpty.string_of_uint u +:+ rest)
       | EmptyString => (false, (if negative then "-" else EmptyString) +:+ NilEmpty.string_of_uint u +:+ rest)
       end in (neg, s)) = (negative, NilEmpty.string_of_uint u +:+ rest)).
  { destruct negative; [reflexivity|]. rewrite E. simpl. rewrite Hm. reflexivity. }
  destruct (match (if negative then "-" else EmptyString) +:+ NilEmpty.string_of_uint u +:+ rest with
            | String c r => _ | EmptyString => _ end) as [neg s].
  injection Hsplit as -> ->.
  rewrite NumFacts.digits_prefix_print by exact Hd. rewrite Hf.
  destruct u as [|d|d|d|d|d|d|d|d|d|d]; try congruence; try reflexivity.
  rewrite (Hzero d eq_refl). reflexivity.
Qed.

Lemma parse_number_print (z : Z) (rest : string) :
  delimited rest = true ->
  parse_number (Num.toString (Int z) +:+ rest) = Some (JNum z, rest).
Proof.
  intros Hrest. rewrite <- (DecimalZ.of_to z) at 2. unfold Num.toString.
  destruct z as [|p|p].
  - apply (parse_number_print_uint false (D0 Nil) rest); [discriminate| |exact Hrest].
    intros d [= <-]. reflexivity.
  - cbn [Z.to_int NilZero.string_of_int]. unfold NilZero.string_of_uint.
    pose proof (DecimalPos.Unsigned.to_uint_nonnil p) as Hn.
    pose proof (to_uint_no_leading_zero p) as Hz.
    destruct (Pos.to_uint p) eqn:E; try congruence; rewrite <- E in *;
      apply (parse_number_print_uint false); try assumption;
      intros d Hd; destruct (Hz d Hd).
  - cbn [Z.to_int NilZero.string_of_int]. unfold NilZero.string_of_uint.
    pose proof (DecimalPos.Unsigned.to_uint_nonnil p) as Hn.
    pose proof (to_uint_no_leading_zero p) as Hz.
    destruct (Pos.to_uint p) eqn:E; try congruence; rewrite <- E in *;
      apply (parse_number_print_uint true (Pos.to_uint p) rest); try assumption;
      intros d Hd; destruct (Hz d Hd).
Qed.

Lemma size_arr items : size (JArr items) = S (size_elems items).
Proof. reflexivity. Qed.

Lemma size_obj members : size (JObj members) = S (size_members members).
Proof. reflexivity. Qed.

Lemma toString_head (z : Z) :
  exists c r, Num.toString (Int z) = String c r
              /\ (Num.digit_of_char c <> None \/ c = "-"%char).
Proof.
  unfold Num.toString. destruct z as [|p|p].
  - eexists _, _. split; [reflexivity|]. left. discriminate.
  - cbn [Z.to_int NilZero.string_of_int]. unfold NilZero.string_of_uint.
    pose proof (DecimalPos.Unsigned.to_uint_nonnil p) as Hn.
    destruct (NumFacts.print_head _ Hn) as (c & r & E & Hc).
    exists c, r. split; [|left; exact Hc].
    destruct (Pos.to_uint p); try congruence; exact E.
  - eexists _, _. split; [reflexivity|]. right. reflexivity.
Qed.

Lemma number_head_dispatch (c : ascii) (s : string) (fuel : nat) :
  Num.digit_of_char c <> None \/ c = "-"%char ->
  parse_value (S fuel) (String c s) = parse_number (String c s)
  /\ value_head c = true.
Proof.
  destruct c as [[] [] [] [] [] [] [] []]; intros [H|H];
    try (exfalso; apply H; reflexivity); try discriminate H;
    split; reflexivity.
Qed.

Lemma stringify_head (v : json) :
  exists c r, stringify v = String c r /\ value_head c = true.
Proof.
  destruct v as [|[]|z|s|items|members];
    try (eexists _, _; split; reflexivity).
  destruct (toString_head z) as (c & r & E & Hc).
  exists c, r. split; [exact E|].
  exact (proj2 (number_head_dispatch c EmptyString O Hc)).
Qed.

Lemma value_head_skip (c : ascii) (r : string) :
  value_head c = true -> skip_ws (String c r) = String c r.
Proof.
  unfold value_head. cbn [skip_ws]. destruct (is_ws c); [discriminate|reflexivity].
Qed.

Lemma value_head_not_close (c : ascii) :
  value_head c = true -> Ascii.eqb c "]" = false /\ Ascii.eqb c "}" = false.
Proof.
  unfold value_head. destruct (is_ws c), (Ascii.eqb c "]"), (Ascii.eqb c "}");
    cbn; intuition congruence.
Qed.

Section Roundtrip.

Lemma parse_elems_print (items : list json) :
  Forall reads_back items -> items <> [] ->
  forall fuel rest,
    (size_elems items <= fuel)%nat ->
    parse_elems fuel (print_elems items +:+ rest) = Some (items, rest).
Proof.
  induction 1 as [|x r Hx Hr IH]; [congruence|]. intros _ fuel rest Hfuel.
  cbn [size_elems] in Hfuel. destruct fuel as [|fuel]; [lia|].
  cbn [print_elems parse_elems]. rewrite string_app_assoc.
  destruct r as [|y r'].
  - rewrite (Hx fuel ("]" +:+ rest)) by (try reflexivity; lia). reflexivity.
  - rewrite string_app_assoc.
    rewrite (Hx fuel ("," +:+ print_elems (y :: r') +:+ rest)) by (try reflexivity; lia).
    change (skip_ws ("," +:+ ?t)) with ("," +:+ t).
    cbn [String.append]. cbn iota. change (Ascii.eqb "," ",") with true. cbn iota.
    rewrite IH by (try discriminate; cbn [size_elems] in *; lia). reflexivity.
Qed.

Lemma parse_members_print (members : list (string * json)) :
  Forall (fun kv => reads_back (snd kv)) members -> members <> [] ->
  forall fuel rest,
    (size_members members <= fuel)%nat ->
    parse_members fuel (print_members members +:+ rest) = Some (members, rest).
Proof.
  induction 1 as [|[k x] r Hx Hr IH]; [congruence|]. intros _ fuel rest Hfuel.
  cbn [size_members snd] in *. destruct fuel as [|fuel]; [lia|].
  cbn [print_members parse_members].
  rewrite !string_app_assoc, quote_app. cbn [skip_ws].
  change (is_ws dquote) with false. cbn iota.
  change (Ascii.eqb dquote dquote) with true. cbn iota.
  rewrite parse_chars_escape. cbn [String.append skip_ws].
  change (is_ws ":") with false. cbn iota.
  change (Ascii.eqb ":" ":") with true. cbn iota.
  destruct r as [|y r'].
  - rewrite (Hx fuel ("}" +:+ rest)) by (try reflexivity; lia). reflexivity.
  - rewrite (Hx fuel (String "," (print_members (y :: r')) +:+ rest))
      by (try reflexivity; lia).
    change (skip_ws (String "," ?a +:+ ?t)) with (String "," (a +:+ t)).
    cbn [String.append]. cbn iota. change (Ascii.eqb "," ",") with true. cbn iota.
    rewrite IH by (try discriminate; cbn [size_members] in *; lia). reflexivity.
Qed.

Lemma parse_value_print (v : json) : reads_back v.
Proof.
  induction v as [|b|z|s|items IH|members IH] using json_nested_ind;
    intros fuel rest Hfuel Hrest; (destruct fuel as [|fuel]; [cbn in Hfuel; lia|]).
  - reflexivity.
  - destruct b; reflexivity.
  - destruct (toString_head z) as (c & r & E & Hc).
    cbn [stringify]. rewrite E. cbn [String.append].
    rewrite (proj1 (number_head_dispatch c (r +:+ rest) fuel Hc)).
    change (String c (r +:+ rest)) with (String c r +:+ rest). rewrite <- E.
    apply parse_number_print, Hrest.
  - cbn [stringify]. rewrite quote_app.
    cbn [parse_value skip_ws].
    change (is_ws dquote) with false. cbn iota.
    change (Ascii.eqb dquote dquote) with true. cbn iota.
    rewrite parse_chars_escape. reflexivity.
  - rewrite stringify_arr, size_arr in *. rewrite string_app_assoc.
    cbn [String.append parse_value skip_ws].
    change (is_ws "[") with false. cbn iota.
    change (Ascii.eqb "[" dquote) with false. change (Ascii.eqb "[" "[") with true. cbn iota.
    destruct items as [|x r]; [reflexivity|].
    rewrite parse_elems_print by (try discriminate; try assumption; lia).
    destruct (stringify_head x) as (c & t & E & Hc).
    cbn [print_elems]. rewrite E. cbn [String.append].
    rewrite value_head_skip by exact Hc.
    rewrite (proj1 (value_head_not_close c Hc)). reflexivity.
  - rewrite stringify_obj, size_obj in *. rewrite string_app_assoc.
    cbn [String.append parse_value skip_ws].
    change (is_ws "{") with false. cbn iota.
    change (Ascii.eqb "{" dquote) with false. change (Ascii.eqb "{" "[") with false.
    change (Ascii.eqb "{" "{") with true. cbn iota.
    destruct members as [|[k x] r]; [reflexivity|].
    rewrite parse_members_print by (try discriminate; try assumption; lia).
    reflexivity.
Qed.
End Roundtrip.

Lemma string_length_app (a b : string) :
  String.length (a +:+ b) = (String.length a + String.length b)%nat.
Proof. induction a; simpl; congruence. Qed.

Lemma string_app_empty_r (a : string) : a +:+ EmptyString = a.
Proof. induction a; simpl; congruence. Qed.

Lemma size_le_length (v : json) : (size v <= String.length (stringify v))%nat.
Proof.
  induction v as [|b|z|s|items IH|members IH] using json_nested_ind.
  - cbn. lia.
  - destruct b; cbn; lia.
  - destruct (toString_head z) as (c & r & E & _). cbn [stringify size]. rewrite E. cbn. lia.
  - cbn [stringify size]. unfold quote. cbn. lia.
  - rewrite stringify_arr, size_arr. cbn [String.append String.length].
    apply le_n_S. induction IH as [|x r Hx Hr IHr]; [cbn; lia|].
    cbn [size_elems print_elems]. rewrite string_length_app.
    destruct r; [cbn in *; lia|]. cbn [String.append String.length]. lia.
  - rewrite stringify_obj, size_obj. cbn [String.append String.length].
    apply le_n_S. induction IH as [|[k x] r Hx Hr IHr]; [cbn; lia|].
    cbn [size_members print_members snd] in *. rewrite !string_length_app.
    destruct r; [cbn in *; lia|]. cbn [String.append String.length]. lia.
Qed.

(** [JSON.parse] reads back what [JSON.stringify] wrote. *)
Lemma parse_stringify (v : json) : parse (stringify v) = Some v.
Proof.
  unfold parse.
  rewrite <- (string_app_empty_r (stringify v)) at 2.
  rewrite parse_value_print by (try reflexivity; pose proof (size_le_length v); lia).
  reflexivity.
Qed.
End JsonFacts.

Module PlatformFacts.
Import Platform.

Lemma bind_run {S A B} (m : M S A) (k : A -> M S B) (s : S) :
  bind m k s =
  match m s with
  | (Ok a, s') => k a s'
  | (Throw e, s') => (Throw e, s')
  end.
Proof. reflexivity. Qed.

Lemma await_quiet {A} (env : Env) (op : Op) (act : M World A) (w : World) :
  fault env (calls w) op = None -> await env op act w = act (tick w).
Proof. intros H. unfold await. rewrite H. reflexivity. Qed.

Lemma await_rejects {A} (env : Env) (op : Op) (act : M World A) (w : World) (e : exn) :
  fault env (calls w) op = Some e -> await env op act w = (Throw e, tick w).
Proof. intros H. unfold await. rewrite H. reflexivity. Qed.

Lemma namespace_set_same (ns : string) (content : gmap string string) (w : World) :
  namespace (set_namespace ns content w) ns = content.
Proof. unfold namespace, set_namespace. cbn. rewrite lookup_insert_eq. reflexivity. Qed.

Lemma namespace_set_other (ns ns' : string) (content : gmap string string) (w : World) :
  ns <> ns' -> namespace (set_namespace ns content w) ns' = namespace w ns'.
Proof. intros H. unfold namespace, set_namespace. cbn. rewrite lookup_insert_ne by exact H. reflexivity. Qed.

Lemma kv_get_text_run (env : Env) (ns key : string) (w : World) :
  fault env (calls w) (KvGet ns key) = None ->
  kv_get_text env ns key w = (Ok (namespace w ns !! key), tick w).
Proof. intros H. unfold kv_get_text. rewrite await_quiet by exact H. reflexivity. Qed.

Lemma kv_put_run (env : Env) (ns key value : string) (w : World) :
  fault env (calls w) (KvPut ns key value) = None ->
  kv_put env ns key value w
  = (Ok tt, set_namespace ns (<[key := value]> (namespace w ns)) (tick w)).
Proof. intros H. unfold kv_put. rewrite await_quiet by exact H. reflexivity. Qed.

Lemma kv_delete_run (env : Env) (ns key : string) (w : World) :
  fault env (calls w) (KvDelete ns key) = None ->
  kv_delete env ns key w
  = (Ok tt, set_namespace ns (delete key (namespace w ns)) (tick w)).
Proof. intros H. unfold kv_delete. rewrite await_quiet by exact H. reflexivity. Qed.

End PlatformFacts.

Module QuotaFacts.
Import Platform Vectorize PlatformFacts.

Lemma counter_is_stored (env : Env) (w : World) (c : Z) :
  counter_is env w c -> stored_count env w = Int c.
Proof.
  unfold counter_is, stored_count. intros [-> | [-> ->]]; [|reflexivity].
  rewrite NumFacts.toString_truthy. apply NumFacts.parseInt_toString.
Qed.

Lemma getVectorCount_run (env : Env) (w : World) :
  fault env (calls w) (KvGet (DOC_METADATA env) VECTOR_COUNT_KEY) = None ->
  getVectorCount env w = (Ok (stored_count env w), tick w).
Proof.
  intros H. unfold getVectorCount. rewrite bind_run, kv_get_text_run by exact H.
  reflexivity.
Qed.

Lemma updateVectorCount_run (env : Env) (w : World) (delta : number) :
  fault env (calls w) (KvGet (DOC_METADATA env) VECTOR_COUNT_KEY) = None ->
  (forall v, fault env (S (calls w)) (KvPut (DOC_METADATA env) VECTOR_COUNT_KEY v) = None) ->
  let newCount := Num.max (Int 0) (Num.add (stored_count env w) delta) in
  updateVectorCount env delta w
  = (Ok newCount,
     set_namespace (DOC_METADATA env)
       (<[VECTOR_COUNT_KEY := Num.toString newCount]> (namespace w (DOC_METADATA env)))
       (tick (tick w))).
Proof.
  intros Hget Hput. unfold updateVectorCount.
  rewrite bind_run, getVectorCount_run by exact Hget.
  rewrite bind_run, kv_put_run by apply Hput. reflexivity.
Qed.

(** C5. [checkVectorQuota(n)] on a counter holding [c] (0 when its
    key is absent) returns the current count [c], the available quota
    [100 - c], and allows exactly when [n <= 100 - c]; it writes
    nothing.  The counter, the quota and the request are safe integers,
    the numbers on which the arithmetic of the engine is that of the
    integers. *)
Theorem checkVectorQuota_decides (env : Env) (w : World) (n c : Z) :
  fault env (calls w) (KvGet (DOC_METADATA env) VECTOR_COUNT_KEY) = None ->
  counter_is env w c ->
  Num.safe c ->
  Num.safe (100 - c) ->
  Num.safe n ->
  exists q w',
    checkVectorQuota env (Int n) w = (Ok q, w')
    /\ QuotaCheck.currentCount q = Int c
    /\ QuotaCheck.availableQuota q = Int (100 - c)
    /\ (QuotaCheck.allowed q = true <-> n <= 100 - c)
    /\ kv w' = kv w /\ index w' = index w /\ console w' = console w.
Proof.
  intros Hget Hc _ _ _. unfold checkVectorQuota.
  rewrite bind_run, getVectorCount_run by exact Hget.
  rewrite (counter_is_stored env w c Hc).
  eexists _, _. split; [reflexivity|]. cbn.
  repeat split; try reflexivity; unfold MAX_VECTORS; lia.
Qed.

Lemma counter_is_after_put (env : Env) (w : World) (v : Z) :
  counter_is env
    (set_namespace (DOC_METADATA env)
       (<[VECTOR_COUNT_KEY := Num.toString (Int v)]> (namespace w (DOC_METADATA env)))
       (tick (tick w))) v.
Proof.
  left. rewrite namespace_set_same. apply lookup_insert_eq.
Qed.

(** A run of adjustments from a non-negative counter: every value on
    the way lies between 0 and the counter plus the sizes of the deltas
    so far. *)
Lemma adjust_all_nonneg (env : Env) (deltas : list Z) :
  fault_free env ->
  forall (w : World) (c : Z),
    counter_is env w c -> 0 <= c ->
    c + fold_right (fun d total => Z.abs d + total) 0 deltas <= Num.MAX_SAFE_INTEGER ->
    exists (vs : list Z) (w' : World) (c' : Z),
      adjust_all env deltas w = (Ok (map Int vs), w')
      /\ Forall (fun v => 0 <= v <= Num.MAX_SAFE_INTEGER) vs
      /\ counter_is env w' c' /\ 0 <= c' <= Num.MAX_SAFE_INTEGER.
Proof.
  intros Hq. induction deltas as [|d rest IH]; intros w c Hc Hpos Hsafe.
  - cbn [fold_right] in Hsafe. exists [], w, c.
    repeat split; [constructor | exact Hc | exact Hpos | lia].
  - cbn [fold_right] in Hsafe.
    assert (Hrest : 0 <= fold_right (fun d total => Z.abs d + total) 0 rest).
    { clear. induction rest as [|x l IHl]; cbn [fold_right]; lia. }
    cbn [adjust_all]. rewrite bind_run, updateVectorCount_run by (intros; apply Hq).
    rewrite (counter_is_stored env w c Hc). cbn [Num.add Num.max].
    destruct (IH _ (Z.max 0 (c + d)) (counter_is_after_put env w _) ltac:(lia) ltac:(lia))
      as (vs & w' & c' & Hrun & Hvs & Hc' & Hpos').
    rewrite bind_run, Hrun.
    exists (Z.max 0 (c + d) :: vs), w', c'.
    repeat split; [constructor; [lia | exact Hvs] | exact Hc' | apply Hpos' | apply Hpos'].
Qed.

(** C6. [updateVectorCount(d)] on a counter holding [c] returns
    [max(0, c + d)] and leaves exactly that under the counter key; in a
    run of adjustments that starts from a non-negative counter, every
    value returned is non-negative and so is the counter left behind.
    The counter, the delta and their sum are safe integers, the numbers
    on which the arithmetic of the engine is that of the integers; for
    a run, the counter and the sizes of the deltas add up to a safe
    integer. *)
Theorem updateVectorCount_clamps (env : Env) (w : World) (c : Z) :
  fault_free env ->
  counter_is env w c ->
  Num.safe c ->
  (forall d,
      Num.safe d ->
      Num.safe (c + d) ->
      exists w',
        updateVectorCount env (Int d) w = (Ok (Int (Z.max 0 (c + d))), w')
        /\ namespace w' (DOC_METADATA env) !! VECTOR_COUNT_KEY
           = Some (Num.toString (Int (Z.max 0 (c + d))))
        /\ stored_count env w' = Int (Z.max 0 (c + d))
        /\ 0 <= Z.max 0 (c + d))
  /\ (0 <= c ->
      forall deltas,
        c + fold_right (fun d total => Z.abs d + total) 0 deltas <= Num.MAX_SAFE_INTEGER ->
        exists (vs : list Z) (w' : World) (c' : Z),
          adjust_all env deltas w = (Ok (map Int vs), w')
          /\ Forall (fun v => 0 <= v <= Num.MAX_SAFE_INTEGER) vs
          /\ counter_is env w' c' /\ 0 <= c' <= Num.MAX_SAFE_INTEGER).
Proof.
  intros Hq Hc _. split.
  - intros d _ _. eexists. rewrite updateVectorCount_run by (intros; apply Hq).
    rewrite (counter_is_stored env w c Hc). cbn [Num.add Num.max].
    split; [reflexivity|].
    pose proof (counter_is_after_put env w (Z.max 0 (c + d))) as Hput.
    split; [|split; [apply counter_is_stored, Hput | lia]].
    rewrite namespace_set_same. apply lookup_insert_eq.
  - intros Hpos deltas Hsafe. exact (adjust_all_nonneg env deltas Hq w c Hc Hpos Hsafe).
Qed.

End QuotaFacts.

Module IngestFacts.
Import Platform Vectorize PlatformFacts QuotaFacts.

#[local] Arguments Json.stringify : simpl never.
#[local] Arguments Num.toString : simpl never.
#[local] Arguments Num.parseInt : simpl never.
#[local] Arguments JsDate.toISOString : simpl never.
#[local] Arguments chunk_all : simpl never.
#[local] Arguments make_vectors : simpl never.
#[local] Arguments docMetadata : simpl never.
#[local] Arguments quota_denied_message : simpl never.
#[local] Arguments String.append : simpl never.
#[local] Arguments namespace : simpl never.
#[local] Arguments stored_count : simpl never.

Lemma count_of_allChunks md texts w :
  count_of (map fullChunk (chunks_in md texts w)) = Int (requested md texts w).
Proof. unfold count_of, requested. rewrite length_map. reflexivity. Qed.

(** C3. If the admission check denies a batch (the counter holds [c]
    and the batch has more chunks than the [100 - c] left), then
    [embedAndStore] returns the failure carrying current count, limit,
    requested count and available quota, emits the
    [quota_denied_requested_n] metric with delta 0 and the count [c],
    and leaves the vector store and the KV store (counter and metadata
    records) as they were. *)
Theorem embedAndStore_denied (env : Env) (texts : list string) (md : EmbedMetadata)
    (w : World) (c : Z) :
  fault env (calls w) (KvGet (DOC_METADATA env) VECTOR_COUNT_KEY) = None ->
  counter_is env w c ->
  100 - c < requested md texts w ->
  let n := requested md texts w in
  exists w',
    embedAndStore texts md env w
    = (Ok {| EmbedResponse.success := false;
             EmbedResponse.vectorIds := None;
             EmbedResponse.error :=
               Some ("Vector limit exceeded. Current count: " +:+ Num.toString (Int c)
                     +:+ "/" +:+ Num.toString (Int 100)
                     +:+ ". Requested: " +:+ Num.toString (Int n)
                     +:+ ". Available quota: " +:+ Num.toString (Int (100 - c))) |}, w')
    /\ console w' = console w ++
         [Metric (JsDate.toISOString (now w)) (Int c) (Some (Int 0))
                 ("quota_denied_requested_" +:+ Num.toString (Int n))]
    /\ index w' = index w
    /\ kv w' = kv w.
Proof.
  intros Hget Hc Hn n.
  unfold embedAndStore, try_catch, embedAndStore_try.
  rewrite bind_run. cbn [Date_toISOString gets].
  fold (chunks_in md texts w). rewrite count_of_allChunks.
  rewrite bind_run. unfold checkVectorQuota.
  rewrite bind_run, getVectorCount_run by exact Hget.
  rewrite (counter_is_stored env w c Hc).
  cbn [ret Num.sub Num.le QuotaCheck.allowed QuotaCheck.currentCount].
  fold n. replace (n <=? MAX_VECTORS - c) with false
    by (symmetry; apply Z.leb_gt; unfold MAX_VECTORS, n; lia).
  cbn [negb]. eexists. split; [reflexivity|]. cbn. repeat split; reflexivity.
Qed.



End IngestFacts.

Module DeleteFacts.
Import Platform Vectorize PlatformFacts QuotaFacts.

#[local] Arguments Json.parse : simpl never.
#[local] Arguments Json.stringify : simpl never.
#[local] Arguments Num.toString : simpl never.
#[local] Arguments Num.parseInt : simpl never.
#[local] Arguments JsDate.toISOString : simpl never.
#[local] Arguments String.append : simpl never.
#[local] Arguments namespace : simpl never.
#[local] Arguments stored_count : simpl never.

Lemma kv_get_json_run (env : Env) (ns key : string) (w : World) :
  fault env (calls w) (KvGet ns key) = None ->
  kv_get_json env ns key w =
  match namespace w ns !! key with
  | None => (Ok None, tick w)
  | Some text =>
      match Json.parse text with
      | Some v => (Ok (Some v), tick w)
      | None => (Throw (Error "Unexpected token in JSON"), tick w)
      end
  end.
Proof.
  intros H. unfold kv_get_json. rewrite bind_run, kv_get_text_run by exact H.
  destruct (namespace w ns !! key) as [text|]; [|reflexivity].
  destruct (Json.parse text); reflexivity.
Qed.

(** C8. Deleting a document whose metadata record is absent, or whose
    record has no (truthy) [vectorIds], succeeds with [deletedCount = 0]
    and changes neither the KV store (counter, metadata) nor the index;
    it emits nothing. *)
Theorem deleteDocumentVectors_unknown (env : Env) (documentId : string) (w : World) :
  fault env (calls w) (KvGet (DOC_METADATA env) documentId) = None ->
  (namespace w (DOC_METADATA env) !! documentId = None
   \/ exists text record,
        namespace w (DOC_METADATA env) !! documentId = Some text
        /\ Json.parse text = Some record
        /\ Json.truthy_opt (Json.prop "vectorIds" record) = false) ->
  exists w',
    deleteDocumentVectors documentId env w
    = (Ok {| DeleteResult.success := true;
             DeleteResult.deletedCount := Int 0;
             DeleteResult.error := None |}, w')
    /\ kv w' = kv w /\ index w' = index w /\ console w' = console w.
Proof.
  intros Hget Hrec. exists (tick w).
  unfold deleteDocumentVectors, try_catch, deleteDocumentVectors_try.
  rewrite bind_run, kv_get_json_run by exact Hget.
  destruct Hrec as [-> | (text & record & -> & -> & Hno)].
  - repeat split; reflexivity.
  - destruct (Json.truthy record); cbn [negb]; [|repeat split; reflexivity].
    destruct (Json.prop "vectorIds" record) as [ids|]; [|repeat split; reflexivity].
    cbn [Json.truthy_opt] in Hno. rewrite Hno. repeat split; reflexivity.
Qed.
End DeleteFacts.

Module RoundTripFacts.
Import Platform Vectorize PlatformFacts QuotaFacts IngestFacts DeleteFacts.

#[local] Arguments Json.parse : simpl never.
#[local] Arguments Json.stringify : simpl never.
#[local] Arguments Num.toString : simpl never.
#[local] Arguments Num.parseInt : simpl never.
#[local] Arguments JsDate.toISOString : simpl never.
#[local] Arguments String.append : simpl never.
#[local] Arguments namespace : simpl never.
#[local] Arguments stored_count : simpl never.
#[local] Arguments chunk_all : simpl never.
#[local] Arguments make_vectors : simpl never.
#[local] Arguments docMetadata : simpl never.

Lemma namespace_tick w ns : namespace (tick w) ns = namespace w ns.
Proof. reflexivity. Qed.
Lemma namespace_log e w ns : namespace (log e w) ns = namespace w ns.
Proof. reflexivity. Qed.
Lemma namespace_set_index i w ns : namespace (set_index i w) ns = namespace w ns.
Proof. reflexivity. Qed.
Lemma namespace_at_time t w ns : namespace (at_time t w) ns = namespace w ns.
Proof. reflexivity. Qed.

Lemma stored_count_tick env w : stored_count env (tick w) = stored_count env w.
Proof. reflexivity. Qed.
Lemma stored_count_log env e w : stored_count env (log e w) = stored_count env w.
Proof. reflexivity. Qed.
Lemma stored_count_set_index env i w : stored_count env (set_index i w) = stored_count env w.
Proof. reflexivity. Qed.
Lemma stored_count_at_time env t w : stored_count env (at_time t w) = stored_count env w.
Proof. reflexivity. Qed.

Lemma emitQuotaMetric_run (env : Env) (count : number) (delta : option number)
    (reason : string) (w : World) :
  emitQuotaMetric env count delta reason w
  = (Ok tt, log (Metric (JsDate.toISOString (now w)) count delta reason) w).
Proof. reflexivity. Qed.

Lemma index_upsert_run (env : Env) (vectors : list VectorizeVector) (w : World) :
  fault env (calls w) (IndexUpsert vectors) = None ->
  index_upsert env vectors w
  = (Ok tt, set_index (fold_left (fun i v => <[id v := v]> i) vectors (index w)) (tick w)).
Proof. intros H. unfold index_upsert. rewrite await_quiet by exact H. reflexivity. Qed.

Lemma index_deleteByIds_run (env : Env) (ids : list string) (w : World) :
  fault env (calls w) (IndexDeleteByIds (Some ids)) = None ->
  index_deleteByIds env (Some ids) w
  = (Ok tt, set_index (fold_left (fun i k => delete k i) ids (index w)) (tick w)).
Proof. intros H. unfold index_deleteByIds. rewrite await_quiet by exact H. reflexivity. Qed.

Lemma ai_run_run (env : Env) (model : string) (texts : list string) (w : World) :
  fault env (calls w) (AiRun model texts) = None ->
  ai_run env model texts w = (Ok (AI env (S (calls w)) model texts), tick w).
Proof. intros H. unfold ai_run. rewrite await_quiet by exact H. reflexivity. Qed.

Lemma stored_count_of_text (env : Env) (w : World) (v : Z) :
  namespace w (DOC_METADATA env) !! VECTOR_COUNT_KEY = Some (Num.toString (Int v)) ->
  stored_count env w = Int v.
Proof. intros H. apply counter_is_stored. left. exact H. Qed.

Lemma string_array_strings (ids : list string) :
  string_array (JArr (map JStr ids)) = Some ids.
Proof.
  cbn [string_array]. induction ids as [|x r IH]; [reflexivity|].
  cbn [map mapM]. rewrite IH. reflexivity.
Qed.

Lemma make_vectors_length md t chunks data :
  length (make_vectors md t chunks data) = length data.
Proof. unfold make_vectors. apply length_imap. Qed.

(** The run of [embedAndStore] on an admitted batch, on a platform
    that does not fail. *)
Lemma embedAndStore_admitted (env : Env) (texts : list string) (md : EmbedMetadata)
    (data : list embedding) (w : World) (c : Z) :
  fault_free env ->
  counter_is env w c ->
  requested md texts w <= 100 - c ->
  (forall calls_before,
      AI env calls_before EMBED_MODEL (map fullChunk (chunks_in md texts w)) = AiData data) ->
  let vectors := make_vectors md (now w) (chunks_in md texts w) data in
  let newCount := Z.max 0 (c + Z.of_nat (length vectors)) in
  exists w1,
    embedAndStore texts md env w
    = (Ok {| EmbedResponse.success := true;
             EmbedResponse.vectorIds := Some (map id vectors);
             EmbedResponse.error := None |}, w1)
    /\ namespace w1 (DOC_METADATA env)
       = <[documentId md :=
             Json.stringify (docMetadata md (JsDate.toISOString (now w)) vectors)]>
           (<[VECTOR_COUNT_KEY := Num.toString (Int newCount)]>
              (namespace w (DOC_METADATA env)))
    /\ index w1 = fold_left (fun i v => <[id v := v]> i) vectors (index w)
    /\ console w1 = console w ++
         [Metric (JsDate.toISOString (now w)) (Int newCount)
                 (Some (Int (Z.of_nat (length vectors))))
                 ("upsert_document_" +:+ documentId md)].
Proof.
  intros Hq Hc Hn Hai vectors newCount.
  unfold embedAndStore, try_catch, embedAndStore_try.
  rewrite bind_run. cbn [Date_toISOString gets].
  fold (chunks_in md texts w). rewrite count_of_allChunks.
  rewrite bind_run. unfold checkVectorQuota.
  rewrite bind_run, getVectorCount_run by apply Hq.
  rewrite (counter_is_stored env w c Hc).
  cbn [ret Num.sub Num.le QuotaCheck.allowed QuotaCheck.currentCount].
  replace (requested md texts w <=? MAX_VECTORS - c) with true
    by (symmetry; apply Z.leb_le; unfold MAX_VECTORS; lia).
  cbn [negb]. rewrite bind_run, ai_run_run by apply Hq. rewrite Hai.
  rewrite bind_run. cbn [Date_now gets now tick]. fold vectors.
  rewrite bind_run, index_upsert_run by apply Hq.
  rewrite bind_run, updateVectorCount_run by (intros; apply Hq).
  cbv zeta. rewrite stored_count_set_index, !stored_count_tick.
  rewrite (counter_is_stored env w c Hc).
  cbn [count_of Num.add Num.max]. fold newCount.
  rewrite bind_run, emitQuotaMetric_run.
  rewrite bind_run. cbn [Date_toISOString gets].
  rewrite bind_run, kv_put_run by apply Hq.
  eexists. split; [reflexivity|].
  rewrite namespace_set_same. cbn [now log set_namespace tick set_index].
  rewrite namespace_log, namespace_set_same.
  cbn [index console log set_namespace tick set_index]. repeat split; reflexivity.
Qed.

(** The run of [deleteDocumentVectors] on a record that lists the
    vector ids [ids], on a platform that does not fail. *)
Lemma deleteDocumentVectors_listed (env : Env) (documentId : string) (w : World)
    (text : string) (record : json) (ids : list string) (c : Z) :
  fault_free env ->
  namespace w (DOC_METADATA env) !! documentId = Some text ->
  Json.parse text = Some record ->
  Json.truthy record = true ->
  Json.prop "vectorIds" record = Some (JArr (map JStr ids)) ->
  counter_is env w c ->
  let removed := Z.of_nat (length ids) in
  let newCount := Z.max 0 (c - removed) in
  exists w2,
    deleteDocumentVectors documentId env w
    = (Ok {| DeleteResult.success := true;
             DeleteResult.deletedCount := Int removed;
             DeleteResult.error := None |}, w2)
    /\ namespace w2 (DOC_METADATA env)
       = delete documentId
           (<[VECTOR_COUNT_KEY := Num.toString (Int newCount)]>
              (namespace w (DOC_METADATA env)))
    /\ index w2 = fold_left (fun i k => delete k i) ids (index w)
    /\ console w2 = console w ++
         [Metric (JsDate.toISOString (now w)) (Int newCount) (Some (Int (- removed)))
                 ("delete_document_" +:+ documentId)].
Proof.
  intros Hq Htext Hparse Htruthy Hids Hc removed newCount.
  unfold deleteDocumentVectors, try_catch, deleteDocumentVectors_try.
  rewrite bind_run, kv_get_json_run by apply Hq.
  rewrite Htext, Hparse, Htruthy, Hids.
  cbn [negb Json.truthy length_of]. unfold count_of. rewrite !length_map.
  fold removed. rewrite string_array_strings.
  rewrite bind_run, index_deleteByIds_run by apply Hq.
  rewrite bind_run, updateVectorCount_run by (intros; apply Hq).
  cbv zeta. rewrite stored_count_set_index, !stored_count_tick.
  rewrite (counter_is_stored env w c Hc).
  cbn [Num.neg Num.add Num.max].
  replace (c + - removed) with (c - removed) by lia.
  fold newCount.
  rewrite bind_run, emitQuotaMetric_run.
  rewrite bind_run, kv_delete_run by apply Hq.
  eexists. split; [reflexivity|].
  rewrite namespace_set_same. cbn [now log set_namespace tick set_index].
  rewrite namespace_log, namespace_set_same.
  cbn [index console log set_namespace tick set_index]. repeat split; reflexivity.
Qed.

Lemma docMetadata_vectorIds md uploadedAt vectors :
  Json.prop "vectorIds" (docMetadata md uploadedAt vectors)
  = Some (JArr (map JStr (map id vectors))).
Proof. unfold docMetadata. rewrite map_map. reflexivity. Qed.

(** The round trip for a document id other than the counter key.  On
    a platform that does not fail, with a counter holding a
    non-negative [c]: an
    admitted ingestion whose [N] chunks each get their embedding
    stores [N] vector ids and brings the counter to [c + N]; deleting
    the document afterwards, at any later time, removes [N] vectors and
    brings the counter back to [c]. *)
Theorem ingest_then_delete_restores_count (env : Env) (texts : list string)
    (md : EmbedMetadata) (data : list embedding) (w : World) (c later : Z) :
  fault_free env ->
  counter_is env w c ->
  0 <= c ->
  documentId md <> VECTOR_COUNT_KEY ->
  let N := requested md texts w in
  N <= 100 - c ->
  (forall calls_before,
      AI env calls_before EMBED_MODEL (map fullChunk (chunks_in md texts w)) = AiData data) ->
  Z.of_nat (length data) = N ->
  exists ids w1 w2,
    embedAndStore texts md env w
    = (Ok {| EmbedResponse.success := true;
             EmbedResponse.vectorIds := Some ids;
             EmbedResponse.error := None |}, w1)
    /\ Z.of_nat (length ids) = N
    /\ stored_count env w1 = Int (c + N)
    /\ deleteDocumentVectors (documentId md) env (at_time later w1)
       = (Ok {| DeleteResult.success := true;
                DeleteResult.deletedCount := Int N;
                DeleteResult.error := None |}, w2)
    /\ stored_count env w2 = Int c.
Proof.
  intros Hq Hc Hpos Hkey N Hn Hai Hlen.
  destruct (embedAndStore_admitted env texts md data w c Hq Hc Hn Hai)
    as (w1 & Hrun & Hns & _ & _).
  set (vectors := make_vectors md (now w) (chunks_in md texts w) data) in *.
  assert (HlenV : Z.of_nat (length vectors) = N)
    by (unfold vectors; rewrite make_vectors_length; exact Hlen).
  rewrite HlenV in Hns. replace (Z.max 0 (c + N)) with (c + N) in Hns by lia.
  assert (Hcount1 : namespace w1 (DOC_METADATA env) !! VECTOR_COUNT_KEY
                    = Some (Num.toString (Int (c + N)))).
  { rewrite Hns, lookup_insert_ne by exact Hkey. apply lookup_insert_eq. }
  destruct (deleteDocumentVectors_listed env (documentId md) (at_time later w1)
              _ _ (map id vectors) (c + N) Hq
              ltac:(rewrite namespace_at_time, Hns; apply lookup_insert_eq)
              (JsonFacts.parse_stringify _) eq_refl
              (docMetadata_vectorIds _ _ _)
              ltac:(left; rewrite namespace_at_time; exact Hcount1))
    as (w2 & Hdel & Hns2 & _ & _).
  rewrite length_map, HlenV in Hdel, Hns2.
  replace (Z.max 0 (c + N - N)) with c in Hns2 by lia.
  exists (map id vectors), w1, w2.
  split; [exact Hrun|]. split; [rewrite length_map; exact HlenV|].
  split; [apply stored_count_of_text, Hcount1|]. split; [exact Hdel|].
  apply stored_count_of_text. rewrite Hns2, lookup_delete_ne by exact Hkey.
  apply lookup_insert_eq.
Qed.
End RoundTripFacts.

Module CleanupFacts.
Import Platform Vectorize Cleanup PlatformFacts QuotaFacts DeleteFacts RoundTripFacts.

#[local] Arguments Json.parse : simpl never.
#[local] Arguments Json.stringify : simpl never.
#[local] Arguments Num.toString : simpl never.
#[local] Arguments Num.parseInt : simpl never.
#[local] Arguments JsDate.toISOString : simpl never.
#[local] Arguments JsDate.time_of_json : simpl never.
#[local] Arguments String.append : simpl never.
#[local] Arguments namespace : simpl never.
#[local] Arguments stored_count : simpl never.
#[local] Arguments chunk_ids : simpl never.

Lemma lift_run {A} (m : M World A) (s : Sweep) :
  lift m s = (fst (m (world s)), {| world := snd (m (world s)); deletedCount := deletedCount s |}).
Proof. unfold lift. destruct (m (world s)). reflexivity. Qed.

Lemma kv_quiet_get env t ns key : kv_quiet env -> fault env t (KvGet ns key) = None.
Proof. intros H. exact (H t (KvGet ns key)). Qed.

Lemma kv_quiet_delete env t ns key : kv_quiet env -> fault env t (KvDelete ns key) = None.
Proof. intros H. exact (H t (KvDelete ns key)). Qed.

Lemma kv_quiet_list env t ns : kv_quiet env -> fault env t (KvList ns) = None.
Proof. intros H. exact (H t (KvList ns)). Qed.

Lemma fault_free_kv_quiet env : fault_free env -> kv_quiet env.
Proof. intros H t op. rewrite H. destruct op; exact I || reflexivity. Qed.

Lemma kv_list_run (env : Env) (ns : string) (w : World) :
  fault env (calls w) (KvList ns) = None ->
  kv_list env ns w = (Ok (listed_keys (namespace w ns)), tick w).
Proof.
  intros H. unfold kv_list. rewrite await_quiet by exact H. reflexivity.
Qed.

Lemma listed_keys_NoDup (m : gmap string string) : NoDup (listed_keys m).
Proof.
  unfold listed_keys. eapply sublist_NoDup; [|apply sublist_take].
  rewrite merge_sort_Permutation. apply NoDup_fst_map_to_list.
Qed.

Lemma listed_keys_elem (m : gmap string string) (k : string) :
  k ∈ listed_keys m -> is_Some (m !! k).
Proof.
  unfold listed_keys. intros H.
  apply (fun H => elem_of_sublist _ _ _ H (sublist_take _ _)) in H.
  rewrite merge_sort_Permutation in H.
  apply list_elem_of_fmap in H as ([k' text] & -> & Hin).
  apply elem_of_map_to_list in Hin. exists text. exact Hin.
Qed.

(** A namespace of at most 1000 keys is listed in full. *)
Lemma listed_keys_all (m : gmap string string) (k : string) :
  Z.of_nat (size m) <= 1000 -> is_Some (m !! k) -> k ∈ listed_keys m.
Proof.
  intros Hsize [text Hk]. unfold listed_keys. rewrite take_ge.
  - rewrite merge_sort_Permutation. apply list_elem_of_fmap. exists (k, text).
    split; [reflexivity | apply elem_of_map_to_list, Hk].
  - rewrite merge_sort_Permutation, length_fmap, length_map_to_list. lia.
Qed.

(** ** The sweep when no removal goes through *)

(** A turn of the loop that leaves the stores as they were. *)
Ltac skipped Hsame :=
  eexists; split; [reflexivity|];
  split; [apply Hsame; reflexivity | split; reflexivity].

Section NoRemoval.

Variable env : Env.
Hypothesis Hquiet : kv_quiet env.

(** One turn of the loop on a record whose vectors are not removed: the
    record goes if it is over age, and nothing else changes. *)
Lemma sweep_document_no_removal (cutoff : number) (key text : string) (s : Sweep) :
  namespace (world s) (DOCUMENT_METADATA env) !! key = Some text ->
  removal_blocked env cutoff text ->
  exists s',
    sweep_document env cutoff key s = (Ok tt, s')
    /\ (forall ns k,
          namespace (world s') ns !! k
          = if decide (ns = DOCUMENT_METADATA env /\ k = key)
            then kept env cutoff (Some text)
            else namespace (world s) ns !! k)
    /\ index (world s') = index (world s)
    /\ deletedCount s' = deletedCount s.
Proof.
  intros Htext (record & Hparse & Hids).
  unfold sweep_document.
  rewrite bind_run, lift_run, kv_get_json_run by apply kv_quiet_get, Hquiet.
  rewrite Htext, Hparse. cbn [fst snd kept]. unfold over_age_text. rewrite Hparse.
  unfold over_age in *.
  assert (Hsame : forall w' : World,
             (forall ns, namespace w' ns = namespace (world s) ns) ->
             forall ns k,
               namespace w' ns !! k
               = if decide (ns = DOCUMENT_METADATA env /\ k = key)
                 then Some text else namespace (world s) ns !! k).
  { intros w' Hw ns k. rewrite Hw. case_decide as Hd; [|reflexivity].
    destruct Hd as [-> ->]. exact Htext. }
  destruct (Json.truthy record); cbn [negb andb];
    [|skipped Hsame].
  destruct (Json.prop "uploadedAt" record) as [uploadedAt|];
    [|skipped Hsame].
  destruct (Json.truthy uploadedAt); cbn [negb andb];
    [|skipped Hsame].
  destruct (Num.lt (JsDate.time_of_json (Date_parse_other env) uploadedAt) cutoff);
    [|skipped Hsame].
  destruct (Hids eq_refl) as (ids & Hchunks & Hblocked). rewrite Hchunks, bind_run. cbn [ret].
  assert (Hdeleted : forall w' : World,
             (forall ns, namespace w' ns = namespace (world s) ns) ->
             forall ns k,
               namespace
                 (set_namespace (DOCUMENT_METADATA env)
                    (delete key (namespace w' (DOCUMENT_METADATA env))) (tick w')) ns !! k
               = if decide (ns = DOCUMENT_METADATA env /\ k = key)
                 then None else namespace (world s) ns !! k).
  { intros w' Hw ns k.
    destruct (decide (DOCUMENT_METADATA env = ns)) as [<-|Hns].
    - rewrite namespace_set_same, Hw.
      destruct (decide (key = k)) as [<-|Hk].
      + rewrite lookup_delete_eq. rewrite decide_True by (split; reflexivity). reflexivity.
      + rewrite lookup_delete_ne by exact Hk.
        rewrite decide_False by (intros [_ ->]; congruence). reflexivity.
    - rewrite namespace_set_other by exact Hns. rewrite namespace_tick, Hw.
      rewrite decide_False by (intros [-> _]; congruence). reflexivity. }
  destruct (0 <? length ids)%nat eqn:Hlen.
  - destruct Hblocked as [->|Hrejects]; [discriminate Hlen|].
    destruct (fault env (calls (tick (world s))) (IndexDeleteByIds (string_ids ids)))
      as [e|] eqn:Hfault; [|destruct (Hrejects _ Hfault)].
    rewrite bind_run. unfold try_catch at 1.
    rewrite bind_run, lift_run. unfold index_deleteByIds.
    rewrite (await_rejects _ _ _ _ e Hfault).
    cbn [fst snd]. rewrite lift_run. cbn [console_error modify fst snd world deletedCount].
    rewrite lift_run, kv_delete_run by apply kv_quiet_delete, Hquiet.
    cbn [fst snd]. eexists. split; [reflexivity|]. cbn [world deletedCount].
    split; [|split; reflexivity]. apply Hdeleted. reflexivity.
  - rewrite bind_run. cbn [ret].
    rewrite lift_run, kv_delete_run by apply kv_quiet_delete, Hquiet.
    cbn [fst snd]. eexists. split; [reflexivity|]. cbn [world deletedCount].
    split; [|split; reflexivity]. apply Hdeleted. reflexivity.
Qed.

(** The loop over the keys when no removal goes through. *)
Lemma sweep_loop_no_removal (cutoff : number) (keys : list string) :
  NoDup keys ->
  forall s : Sweep,
    (forall k, k ∈ keys ->
       exists text,
         namespace (world s) (DOCUMENT_METADATA env) !! k = Some text
         /\ removal_blocked env cutoff text) ->
    exists s',
      for_of keys (sweep_document env cutoff) s = (Ok tt, s')
      /\ (forall ns k,
            namespace (world s') ns !! k
            = if decide (ns = DOCUMENT_METADATA env /\ k ∈ keys)
              then kept env cutoff (namespace (world s) ns !! k)
              else namespace (world s) ns !! k)
      /\ index (world s') = index (world s)
      /\ deletedCount s' = deletedCount s.
Proof.
  induction keys as [|k0 rest IH]; intros Hnodup s Hkeys.
  - exists s. split; [reflexivity|]. split; [|split; reflexivity].
    intros ns k. rewrite decide_False; [reflexivity|]. intros [_ Hin]. inversion Hin.
  - apply NoDup_cons in Hnodup as [Hfresh Hnodup].
    destruct (Hkeys k0 ltac:(left)) as (text0 & Htext0 & Hsw0).
    destruct (sweep_document_no_removal cutoff k0 text0 s Htext0 Hsw0)
      as (s1 & Hstep & Hns1 & Hidx1 & Hcnt1).
    destruct (IH Hnodup s1) as (s' & Hrest & Hns & Hidx & Hcnt).
    { intros k Hk. destruct (Hkeys k ltac:(right; exact Hk)) as (text & Htext & Hsw).
      exists text. split; [|exact Hsw]. rewrite Hns1.
      rewrite decide_False; [exact Htext|]. intros [_ ->]. exact (Hfresh Hk). }
    exists s'. cbn [for_of]. rewrite bind_run, Hstep. split; [exact Hrest|].
    split; [|split; congruence].
    intros ns k. rewrite Hns, !Hns1.
    destruct (decide (ns = DOCUMENT_METADATA env /\ k = k0)) as [[-> ->]|Hne].
    + rewrite decide_False by (intros [_ Hin]; exact (Hfresh Hin)).
      rewrite decide_True by (split; [reflexivity | left]).
      rewrite Htext0. reflexivity.
    + destruct (decide (ns = DOCUMENT_METADATA env /\ k ∈ rest)) as [[-> Hin]|Hout].
      * rewrite decide_True by (split; [reflexivity | right; exact Hin]). reflexivity.
      * rewrite decide_False; [reflexivity|].
        intros [-> Hin]. apply elem_of_cons in Hin as [->|Hin]; [apply Hne | apply Hout]; auto.
Qed.

Lemma counter_text_not_over_age (cutoff : number) (c : Z) :
  over_age_text env cutoff (Num.toString (Int c)) = false.
Proof.
  unfold over_age_text.
  change (Num.toString (Int c)) with (Json.stringify (JNum c)).
  rewrite JsonFacts.parse_stringify. unfold over_age. cbn [Json.prop].
  apply andb_false_r.
Qed.

(** The whole sweep when no removal goes through: it returns 0, deletes
    the over-age records and nothing else, and leaves the index and the
    counter as they were. *)
Lemma cleanupOldVectors_no_removal (maxAgeInDays : Z) (w : World) :
  let cutoff := cutoff_time (now w) maxAgeInDays in
  Z.of_nat (size (namespace w (DOCUMENT_METADATA env))) <= 1000 ->
  (forall k text,
      namespace w (DOCUMENT_METADATA env) !! k = Some text ->
      removal_blocked env cutoff text) ->
  exists w',
    cleanupOldVectors env maxAgeInDays w = (Ok 0, w')
    /\ (forall k,
          namespace w' (DOCUMENT_METADATA env) !! k
          = kept env cutoff (namespace w (DOCUMENT_METADATA env) !! k))
    /\ (forall ns, ns <> DOCUMENT_METADATA env -> namespace w' ns = namespace w ns)
    /\ index w' = index w
    /\ (forall c, counter_is env w c -> counter_is env w' c).
Proof.
  intros cutoff Hsize Hsw.
  destruct (sweep_loop_no_removal cutoff
              (listed_keys (namespace w (DOCUMENT_METADATA env)))
              (listed_keys_NoDup _)
              {| world := tick w; deletedCount := 0 |})
    as (s' & Hloop & Hns & Hidx & Hcnt).
  { intros k Hk. apply listed_keys_elem in Hk as [text Hk].
    exists text. split; [exact Hk | eapply Hsw, Hk]. }
  cbn [world deletedCount] in *.
  assert (Hlookup : forall ns k,
             namespace (world s') ns !! k
             = if decide (ns = DOCUMENT_METADATA env)
               then kept env cutoff (namespace w ns !! k) else namespace w ns !! k).
  { intros ns k. rewrite Hns, !namespace_tick.
    destruct (decide (ns = DOCUMENT_METADATA env)) as [->|Hne].
    - case_decide as Hd; [reflexivity|].
      destruct (namespace w (DOCUMENT_METADATA env) !! k) as [text|] eqn:Hk; [|reflexivity].
      exfalso. apply Hd. split; [reflexivity|].
      apply listed_keys_all; [exact Hsize | exists text; exact Hk].
    - rewrite decide_False by (intros [? _]; auto). reflexivity. }
  exists (world s').
  unfold cleanupOldVectors, cleanupOldVectors_sweep.
  rewrite bind_run, lift_run. cbn [Date_now gets fst snd world deletedCount].
  fold cutoff. unfold try_catch.
  rewrite bind_run, lift_run, kv_list_run by apply kv_quiet_list, Hquiet.
  cbn [fst snd world deletedCount]. rewrite bind_run, Hloop.
  cbn [gets]. rewrite Hcnt. split; [reflexivity|].
  split; [intros k; rewrite Hlookup, decide_True by reflexivity; reflexivity|].
  split; [intros ns Hne; apply map_eq; intros k;
          rewrite Hlookup, decide_False by exact Hne; reflexivity|].
  split; [exact Hidx|].
  intros c [Hc|[Hc ->]]; [left | right; split; [|reflexivity]];
    rewrite Hlookup; case_decide as Hd; rewrite Hc; try reflexivity.
  cbn [kept]. rewrite counter_text_not_over_age. reflexivity.
Qed.

End NoRemoval.

(** A record written by [embedAndStore] has no [chunks]: the sweep
    finds no vector id in it. *)
Lemma docMetadata_chunk_ids md uploadedAt vectors :
  chunk_ids (docMetadata md uploadedAt vectors) = Ok [].
Proof. reflexivity. Qed.

(** The sweep over a namespace that holds the counter and records
    written by [embedAndStore], on a platform that does not fail: it
    returns 0, deletes the over-age records, and removes no vector nor
    changes the counter. *)
Lemma cleanupOldVectors_ingested_records (env : Env) (maxAgeInDays : Z) (w : World) :
  fault_free env ->
  let cutoff := cutoff_time (now w) maxAgeInDays in
  Z.of_nat (size (namespace w (DOCUMENT_METADATA env))) <= 1000 ->
  (forall k text,
      namespace w (DOCUMENT_METADATA env) !! k = Some text ->
      (exists c, text = Num.toString (Int c))
      \/ (exists md uploadedAt vectors,
            text = Json.stringify (docMetadata md uploadedAt vectors))) ->
  exists w',
    cleanupOldVectors env maxAgeInDays w = (Ok 0, w')
    /\ (forall k,
          namespace w' (DOCUMENT_METADATA env) !! k
          = kept env cutoff (namespace w (DOCUMENT_METADATA env) !! k))
    /\ index w' = index w
    /\ (forall c, counter_is env w c -> counter_is env w' c).
Proof.
  intros Hfree cutoff Hsize Hrecords.
  destruct (cleanupOldVectors_no_removal env (fault_free_kv_quiet env Hfree) maxAgeInDays w
              Hsize)
    as (w' & Hrun & Hkept & _ & Hidx & Hcount).
  { intros k text Hk. destruct (Hrecords k text Hk) as [[c ->]|(md & at' & vs & ->)].
    - exists (JNum c). split; [apply (JsonFacts.parse_stringify (JNum c))|].
      unfold over_age. cbn [Json.prop]. rewrite andb_false_r. discriminate.
    - eexists. split; [apply JsonFacts.parse_stringify|].
      intros _. exists []. split; [apply docMetadata_chunk_ids | left; reflexivity]. }
  exists w'. repeat split; assumption.
Qed.

(** ** The sweep when the removal of one document rejects *)

(** [for ... of] over a list in two parts. *)
Lemma for_of_app {S A} (l1 l2 : list A) (body : A -> M S unit) (s : S) :
  for_of (l1 ++ l2) body s
  = match for_of l1 body s with
    | (Ok _, s1) => for_of l2 body s1
    | (Throw e, s1) => (Throw e, s1)
    end.
Proof.
  revert s. induction l1 as [|x l1 IH]; intros s; cbn [app for_of]; [reflexivity|].
  unfold bind. destruct (body x s) as [[[]|e] s1]; [apply IH | reflexivity].
Qed.

Section Cells.

Import SweepViews.

Variable env : Env.

Lemma erases_on_refl (w : World) : erases_on env w w.
Proof. intros ns k _. right. reflexivity. Qed.

Lemma erases_on_trans (w1 w2 w3 : World) :
  erases_on env w1 w2 -> erases_on env w2 w3 -> erases_on env w1 w3.
Proof.
  intros H12 H23 ns k Hcell.
  destruct (H23 ns k Hcell) as [H|H]; [left; exact H|].
  destruct (H12 ns k Hcell) as [H'|H']; [left | right]; congruence.
Qed.

Lemma erases_on_same (w w' : World) : kv w' = kv w -> erases_on env w w'.
Proof. intros H ns k _. right. unfold namespace. rewrite H. reflexivity. Qed.

Lemma erasing_same {A} (m : M World A) : (forall w, kv (snd (m w)) = kv w) -> erasing env m.
Proof. intros H w. apply erases_on_same, H. Qed.

Lemma erasing_bind {A B} (m : M World A) (k : A -> M World B) :
  erasing env m -> (forall a, erasing env (k a)) -> erasing env (bind m k).
Proof.
  intros Hm Hk w. unfold bind. specialize (Hm w).
  destruct (m w) as [[a|e] w1]; cbn [snd] in *; [|exact Hm].
  eapply erases_on_trans; [exact Hm | apply Hk].
Qed.

Lemma erasing_await {A} (op : Op) (act : M World A) :
  erasing env act -> erasing env (await env op act).
Proof.
  intros Hact w. unfold await. destruct (fault env (calls w) op).
  - apply erases_on_same. reflexivity.
  - eapply erases_on_trans; [|exact (Hact (tick w))]. apply erases_on_same. reflexivity.
Qed.

Lemma erasing_kv_get_json ns key : erasing env (kv_get_json env ns key).
Proof.
  unfold kv_get_json, kv_get_text. apply erasing_bind.
  - apply erasing_await, erasing_same. reflexivity.
  - intros [t|]; [destruct (Json.parse t)|]; apply erasing_same; reflexivity.
Qed.

Lemma erasing_kv_delete ns key : erasing env (kv_delete env ns key).
Proof.
  apply erasing_await. intros w ns' k _. cbn [kv_delete modify snd].
  destruct (decide (ns = ns')) as [<-|Hns].
  - rewrite namespace_set_same. destruct (decide (key = k)) as [<-|Hk].
    + left. apply lookup_delete_eq.
    + right. apply lookup_delete_ne, Hk.
  - right. rewrite namespace_set_other by exact Hns. reflexivity.
Qed.

Lemma erasing_kv_list ns : erasing env (kv_list env ns).
Proof. apply erasing_await, erasing_same. reflexivity. Qed.

Lemma erasing_updateVectorCount delta : erasing env (updateVectorCount env delta).
Proof.
  unfold updateVectorCount. apply erasing_bind.
  - unfold getVectorCount, kv_get_text. apply erasing_bind.
    + apply erasing_await, erasing_same. reflexivity.
    + intros v. apply erasing_same. reflexivity.
  - intros currentCount. apply erasing_bind; [|intros _; apply erasing_same; reflexivity].
    apply erasing_await. intros w ns k Hcell. right. cbn [modify snd].
    destruct (decide (DOC_METADATA env = ns)) as [<-|Hns].
    + rewrite namespace_set_same. apply lookup_insert_ne.
      intros <-. apply Hcell. split; reflexivity.
    + rewrite namespace_set_other by exact Hns. reflexivity.
Qed.

Lemma erasing_index_deleteByIds ids : erasing env (index_deleteByIds env ids).
Proof. apply erasing_await. destruct ids; apply erasing_same; reflexivity. Qed.

Lemma erasing_console_error label e : erasing env (console_error label e).
Proof. apply erasing_same. reflexivity. Qed.

Lemma sweep_erasing_ret {A} (a : A) : sweep_erasing env (ret a).
Proof. intros s. apply erases_on_refl. Qed.

Lemma sweep_erasing_throw {A} (e : exn) : sweep_erasing env (@throw Sweep A e).
Proof. intros s. apply erases_on_refl. Qed.

Lemma sweep_erasing_gets {A} (f : Sweep -> A) : sweep_erasing env (gets f).
Proof. intros s. apply erases_on_refl. Qed.

Lemma sweep_erasing_add_deleted (n : Z) : sweep_erasing env (add_deleted n).
Proof. intros s. apply erases_on_refl. Qed.

Lemma sweep_erasing_lift {A} (m : M World A) : erasing env m -> sweep_erasing env (lift m).
Proof.
  intros Hm s. unfold lift. specialize (Hm (world s)).
  destruct (m (world s)) as [r w']. exact Hm.
Qed.

Lemma sweep_erasing_bind {A B} (m : M Sweep A) (k : A -> M Sweep B) :
  sweep_erasing env m -> (forall a, sweep_erasing env (k a)) -> sweep_erasing env (bind m k).
Proof.
  intros Hm Hk s. unfold bind. specialize (Hm s).
  destruct (m s) as [[a|e] s1]; cbn [snd] in *; [|exact Hm].
  eapply erases_on_trans; [exact Hm | apply Hk].
Qed.

Lemma sweep_erasing_try_catch {A} (m : M Sweep A) (h : exn -> M Sweep A) :
  sweep_erasing env m -> (forall e, sweep_erasing env (h e)) ->
  sweep_erasing env (try_catch m h).
Proof.
  intros Hm Hh s. unfold try_catch. specialize (Hm s).
  destruct (m s) as [[a|e] s1]; cbn [snd] in *; [exact Hm|].
  eapply erases_on_trans; [exact Hm | apply Hh].
Qed.

Lemma sweep_erasing_for_of {A} (l : list A) (body : A -> M Sweep unit) :
  (forall x, sweep_erasing env (body x)) -> sweep_erasing env (for_of l body).
Proof.
  intros Hbody. induction l as [|x rest IH]; cbn [for_of].
  - apply sweep_erasing_ret.
  - apply sweep_erasing_bind; [apply Hbody | intros _; exact IH].
Qed.

(** A turn of the loop writes no cell of the KV store but the counter:
    the others it leaves or deletes, on every platform. *)
Lemma sweep_erasing_sweep_document cutoff key :
  sweep_erasing env (sweep_document env cutoff key).
Proof.
  unfold sweep_document.
  apply sweep_erasing_bind; [apply sweep_erasing_lift, erasing_kv_get_json|].
  intros [md|]; [|apply sweep_erasing_ret].
  destruct (negb (Json.truthy md)); [apply sweep_erasing_ret|].
  destruct (Json.prop "uploadedAt" md) as [uploadedAt|]; [|apply sweep_erasing_ret].
  destruct (negb (Json.truthy uploadedAt)); [apply sweep_erasing_ret|].
  destruct (Num.lt _ _); [|apply sweep_erasing_ret].
  apply sweep_erasing_bind.
  { destruct (chunk_ids md); [apply sweep_erasing_ret | apply sweep_erasing_throw]. }
  intros vectorIds.
  apply sweep_erasing_bind; [|intros _; apply sweep_erasing_lift, erasing_kv_delete].
  destruct (0 <? length vectorIds)%nat; [|apply sweep_erasing_ret].
  apply sweep_erasing_try_catch.
  - apply sweep_erasing_bind; [apply sweep_erasing_lift, erasing_index_deleteByIds|]. intros _.
    apply sweep_erasing_bind; [apply sweep_erasing_add_deleted|]. intros _.
    apply sweep_erasing_bind; [apply sweep_erasing_lift, erasing_updateVectorCount|]. intros _.
    apply sweep_erasing_ret.
  - intros e. apply sweep_erasing_lift, erasing_console_error.
Qed.

(** The turn of a document that is over age and lists vector ids, when
    the removal of these ids rejects and the reads and writes of the
    record go through. *)
Lemma sweep_document_removal_rejected (e : exn) (cutoff : number) (key text : string)
    (record : json) (ids : list (option json)) (s : Sweep) :
  fault env (calls (world s)) (KvGet (DOCUMENT_METADATA env) key) = None ->
  namespace (world s) (DOCUMENT_METADATA env) !! key = Some text ->
  Json.parse text = Some record ->
  over_age env cutoff record = true ->
  chunk_ids record = Ok ids ->
  ids <> [] ->
  fault env (S (calls (world s))) (IndexDeleteByIds (string_ids ids)) = Some e ->
  fault env (S (S (calls (world s)))) (KvDelete (DOCUMENT_METADATA env) key) = None ->
  exists s',
    sweep_document env cutoff key s = (Ok tt, s')
    /\ namespace (world s') (DOCUMENT_METADATA env) !! key = None
    /\ (forall ns k,
          ~ (ns = DOCUMENT_METADATA env /\ k = key) ->
          namespace (world s') ns !! k = namespace (world s) ns !! k)
    /\ index (world s') = index (world s)
    /\ deletedCount s' = deletedCount s
    /\ console (world s')
       = console (world s)
         ++ [ConsoleError ("Error deleting vectors for document " +:+ key +:+ ":") e].
Proof.
  intros Hget Htext Hparse Hold Hchunks Hids Hreject Hdelete.
  unfold over_age in Hold.
  destruct (Json.truthy record) eqn:Htruthy; [|discriminate Hold].
  destruct (Json.prop "uploadedAt" record) as [uploadedAt|] eqn:Hup; [|discriminate Hold].
  destruct (Json.truthy uploadedAt) eqn:Hut; [|discriminate Hold].
  cbn [andb] in Hold.
  unfold sweep_document.
  rewrite bind_run, lift_run, kv_get_json_run by exact Hget.
  rewrite Htext, Hparse. cbn [fst snd]. rewrite Htruthy, Hup, Hut. cbn [negb].
  rewrite Hold, Hchunks, bind_run. cbn [ret].
  destruct ids as [|x rest]; [congruence|]. cbn [length Nat.ltb Nat.leb].
  rewrite bind_run. unfold try_catch at 1.
  rewrite bind_run, lift_run. unfold index_deleteByIds.
  rewrite (await_rejects _ _ _ _ e) by exact Hreject.
  cbn [fst snd]. rewrite lift_run. cbn [console_error modify fst snd world deletedCount].
  rewrite lift_run, kv_delete_run by exact Hdelete.
  cbn [fst snd]. eexists. split; [reflexivity|]. cbn [world deletedCount].
  split; [|split; [|split; [|split]]]; try reflexivity.
  - rewrite namespace_set_same. apply lookup_delete_eq.
  - intros ns k Hne. destruct (decide (DOCUMENT_METADATA env = ns)) as [<-|Hns].
    + rewrite namespace_set_same, lookup_delete_ne by (intros <-; apply Hne; auto).
      rewrite namespace_log, !namespace_tick. reflexivity.
    + rewrite namespace_set_other by exact Hns.
      rewrite namespace_tick, namespace_log, !namespace_tick. reflexivity.
Qed.

End Cells.

(** A counter cannot sit under the key of a record that is over age. *)
Lemma counter_is_not_over_age (env : Env) (cutoff : number) (w : World) (c : Z)
    (key text : string) (record : json) :
  counter_is env w c ->
  namespace w (DOCUMENT_METADATA env) !! key = Some text ->
  Json.parse text = Some record ->
  over_age env cutoff record = true ->
  ~ (DOCUMENT_METADATA env = DOC_METADATA env /\ key = VECTOR_COUNT_KEY).
Proof.
  intros Hc Htext Hparse Hold [Hns ->]. rewrite Hns in Htext.
  destruct Hc as [Hc|[Hc _]]; rewrite Hc in Htext; [|discriminate Htext].
  injection Htext as <-.
  change (Num.toString (Int c)) with (Json.stringify (JNum c)) in Hparse.
  rewrite JsonFacts.parse_stringify in Hparse. injection Hparse as <-.
  unfold over_age in Hold. cbn [Json.prop] in Hold. rewrite andb_false_r in Hold.
  discriminate Hold.
Qed.

(** C10. An over-age document whose record lists vector ids, in the
    sweep and in the interactive deletion, when the call that removes
    its vectors rejects (whatever the platform does for other documents
    and at other calls).  In its turn of the sweep, the rejection is
    logged and the record is deleted all the same, while the index, the
    counter, every other cell of the KV store and the count of the
    sweep stay as they were: the vectors are left without a record.
    Once the sweep has reached that turn, the record is gone when the
    sweep returns, whatever happens in the turns that follow.
    [deleteDocumentVectors], when its removal rejects, returns a
    failure and leaves the whole KV store, the record included, and the
    index as they were. *)
Theorem cleanup_drops_record_when_removal_fails (env : Env) (e : exn) :
  (forall (cutoff : number) (key text : string) (record : json)
          (ids : list (option json)) (s : Sweep),
      fault env (calls (world s)) (KvGet (DOCUMENT_METADATA env) key) = None ->
      namespace (world s) (DOCUMENT_METADATA env) !! key = Some text ->
      Json.parse text = Some record ->
      over_age env cutoff record = true ->
      chunk_ids record = Ok ids ->
      ids <> [] ->
      fault env (S (calls (world s))) (IndexDeleteByIds (string_ids ids)) = Some e ->
      fault env (S (S (calls (world s)))) (KvDelete (DOCUMENT_METADATA env) key) = None ->
      exists s',
        sweep_document env cutoff key s = (Ok tt, s')
        /\ namespace (world s') (DOCUMENT_METADATA env) !! key = None
        /\ (forall ns k,
              ~ (ns = DOCUMENT_METADATA env /\ k = key) ->
              namespace (world s') ns !! k = namespace (world s) ns !! k)
        /\ (forall c, counter_is env (world s) c -> counter_is env (world s') c)
        /\ index (world s') = index (world s)
        /\ deletedCount s' = deletedCount s
        /\ console (world s')
           = console (world s)
             ++ [ConsoleError ("Error deleting vectors for document " +:+ key +:+ ":") e])
  /\ (forall (maxAgeInDays : Z) (w : World) (before after : list string)
             (key text : string) (record : json) (ids : list (option json)) (s : Sweep),
        let cutoff := cutoff_time (now w) maxAgeInDays in
        kv_list env (DOCUMENT_METADATA env) w = (Ok (before ++ key :: after), tick w) ->
        for_of before (sweep_document env cutoff) {| world := tick w; deletedCount := 0 |}
        = (Ok tt, s) ->
        fault env (calls (world s)) (KvGet (DOCUMENT_METADATA env) key) = None ->
        namespace (world s) (DOCUMENT_METADATA env) !! key = Some text ->
        Json.parse text = Some record ->
        over_age env cutoff record = true ->
        chunk_ids record = Ok ids ->
        ids <> [] ->
        fault env (S (calls (world s))) (IndexDeleteByIds (string_ids ids)) = Some e ->
        fault env (S (S (calls (world s)))) (KvDelete (DOCUMENT_METADATA env) key) = None ->
        ~ (DOCUMENT_METADATA env = DOC_METADATA env /\ key = VECTOR_COUNT_KEY) ->
        exists n w',
          cleanupOldVectors env maxAgeInDays w = (Ok n, w')
          /\ namespace w' (DOCUMENT_METADATA env) !! key = None)
  /\ (forall (documentId text : string) (record vectorIds : json) (w0 : World),
        fault env (calls w0) (KvGet (DOC_METADATA env) documentId) = None ->
        namespace w0 (DOC_METADATA env) !! documentId = Some text ->
        Json.parse text = Some record ->
        Json.truthy record = true ->
        Json.prop "vectorIds" record = Some vectorIds ->
        Json.truthy vectorIds = true ->
        fault env (S (calls w0)) (IndexDeleteByIds (string_array vectorIds)) = Some e ->
        exists w0',
          deleteDocumentVectors documentId env w0
          = (Ok {| DeleteResult.success := false;
                   DeleteResult.deletedCount := Int 0;
                   DeleteResult.error :=
                     Some (message_or "Failed to delete document vectors" e) |}, w0')
          /\ namespace w0' (DOC_METADATA env) !! documentId = Some text
          /\ kv w0' = kv w0
          /\ index w0' = index w0).
Proof.
  split; [|split].
  - intros cutoff key text record ids s Hget Htext Hparse Hold Hchunks Hids Hreject Hdelete.
    destruct (sweep_document_removal_rejected env e cutoff key text record ids s
                Hget Htext Hparse Hold Hchunks Hids Hreject Hdelete)
      as (s' & Hrun & Hgone & Hrest & Hidx & Hcnt & Hlog).
    exists s'. split; [exact Hrun|]. split; [exact Hgone|]. split; [exact Hrest|].
    split; [|split; [exact Hidx | split; [exact Hcnt | exact Hlog]]].
    intros c Hc.
    pose proof (counter_is_not_over_age env cutoff (world s) c key text record
                  Hc Htext Hparse Hold) as Hcell.
    unfold counter_is in *. rewrite (Hrest (DOC_METADATA env) VECTOR_COUNT_KEY); [exact Hc|].
    intros [Hns Hk]. apply Hcell. split; congruence.
  - intros maxAgeInDays w before after key text record ids s cutoff Hlist Hbefore
      Hget Htext Hparse Hold Hchunks Hids Hreject Hdelete Hcell.
    destruct (sweep_document_removal_rejected env e cutoff key text record ids s
                Hget Htext Hparse Hold Hchunks Hids Hreject Hdelete)
      as (s1 & Hturn & Hgone & _).
    pose proof (sweep_erasing_for_of env after (sweep_document env cutoff)
                  (sweep_erasing_sweep_document env cutoff) s1) as Hafter.
    assert (Hend : namespace (world (snd (for_of after (sweep_document env cutoff) s1)))
                     (DOCUMENT_METADATA env) !! key = None).
    { destruct (Hafter (DOCUMENT_METADATA env) key) as [H|H].
      - intros [Hns Hk]. apply Hcell. split; congruence.
      - exact H.
      - rewrite H. exact Hgone. }
    unfold cleanupOldVectors, cleanupOldVectors_sweep.
    rewrite bind_run, lift_run. cbn [Date_now gets fst snd world deletedCount].
    fold cutoff. unfold try_catch.
    rewrite bind_run, lift_run. cbn [world deletedCount]. rewrite Hlist.
    cbn [fst snd]. rewrite bind_run, for_of_app, Hbefore. cbn [for_of]. rewrite bind_run, Hturn.
    destruct (for_of after (sweep_document env cutoff) s1) as [[[]|e'] s2];
      cbn [snd] in Hend.
    + eexists _, _. split; [reflexivity|]. exact Hend.
    + eexists _, _. rewrite bind_run, lift_run.
      cbn [console_error modify gets fst snd world deletedCount].
      split; [reflexivity|]. rewrite namespace_log. exact Hend.
  - intros documentId text record vectorIds w0 Hget Htext Hparse Htruthy Hids Hidt Hreject.
    unfold deleteDocumentVectors, try_catch, deleteDocumentVectors_try.
    rewrite bind_run, kv_get_json_run by exact Hget.
    rewrite Htext, Hparse, Htruthy, Hids, Hidt. cbn [negb].
    rewrite bind_run. unfold index_deleteByIds.
    rewrite (await_rejects _ _ _ _ e) by exact Hreject.
    eexists. split; [reflexivity|]. repeat split. exact Htext.
Qed.

End CleanupFacts.

(* ===================================================================== *)
(** * The chunker on concrete texts *)
(* ===================================================================== *)

Module ChunkerFacts.
Import JsString Chunker.

Lemma squeeze_app (a b : string) : squeeze (a +:+ b) = squeeze a +:+ squeeze b.
Proof.
  induction a as [|c a IH]; [reflexivity|]. cbn [String.append squeeze].
  destruct (is_whitespace c); rewrite IH; reflexivity.
Qed.

Lemma squeeze_trimStart (s : string) : squeeze (trimStart s) = squeeze s.
Proof.
  induction s as [|c s IH]; [reflexivity|]. cbn [trimStart squeeze].
  destruct (is_whitespace c) eqn:E; [exact IH|]. cbn [squeeze]. rewrite E. reflexivity.
Qed.

Lemma squeeze_trimEnd (s : string) : squeeze (trimEnd s) = squeeze s.
Proof.
  induction s as [|c s IH]; [reflexivity|]. cbn [trimEnd squeeze].
  destruct (trimEnd s) as [|c' r] eqn:E.
  - rewrite <- IH. destruct (is_whitespace c) eqn:Ec; cbn [squeeze]; rewrite ?Ec; reflexivity.
  - cbn [squeeze] in *. rewrite IH. reflexivity.
Qed.

Lemma squeeze_trim (s : string) : squeeze (trim s) = squeeze s.
Proof. unfold trim. rewrite squeeze_trimEnd. apply squeeze_trimStart. Qed.

Lemma length_trimStart (s : string) : (String.length (trimStart s) <= String.length s)%nat.
Proof.
  induction s as [|c s IH]; [reflexivity|]. cbn [trimStart].
  destruct (is_whitespace c); cbn [String.length]; lia.
Qed.

Lemma length_trimEnd (s : string) : (String.length (trimEnd s) <= String.length s)%nat.
Proof.
  induction s as [|c s IH]; [reflexivity|]. cbn [trimEnd].
  destruct (trimEnd s); [destruct (is_whitespace c)|]; cbn [String.length] in *; lia.
Qed.

Lemma len_trim (s : string) : len (trim s) <= len s.
Proof.
  unfold len, trim. pose proof (length_trimEnd (trimStart s)). pose proof (length_trimStart s).
  lia.
Qed.

Lemma len_app (a b : string) : len (a +:+ b) = len a + len b.
Proof. unfold len. rewrite JsonFacts.string_length_app. lia. Qed.

Lemma trim_space (s : string) : trim (" " +:+ s) = trim s.
Proof. reflexivity. Qed.

Lemma trim_empty_squeeze (s : string) : trim s = EmptyString -> squeeze s = EmptyString.
Proof. intros H. rewrite <- squeeze_trim, H. reflexivity. Qed.

Lemma concat_all_cons (x : string) (l : list string) : concat_all (x :: l) = x +:+ concat_all l.
Proof.
  unfold concat_all. destruct l as [|y l]; cbn [String.concat].
  - symmetry. apply JsonFacts.string_app_empty_r.
  - reflexivity.
Qed.

Lemma concat_all_app (a b : list string) : concat_all (a ++ b) = concat_all a +:+ concat_all b.
Proof.
  induction a as [|x a IH]; [reflexivity|].
  rewrite <- app_comm_cons, !concat_all_cons, IH, JsonFacts.string_app_assoc. reflexivity.
Qed.

(** Chunking loses nothing of the sentences: up to white space, the
    chunks spell what the sentences spell. *)
Lemma chunkText_spells_sentences (text : string) (maxChunkSize : Z) :
  squeeze (concat_all (chunkText text maxChunkSize)) = squeeze (concat_all (sentences_of text)).
Proof.
  unfold chunkText.
  assert (Hfold : forall sentences chunks cur,
             let '(chunks', cur') := fold_left (chunk_step maxChunkSize) sentences (chunks, cur) in
             squeeze (concat_all chunks' +:+ cur')
             = squeeze (concat_all chunks +:+ cur) +:+ squeeze (concat_all sentences)).
  { induction sentences as [|s rest IH]; intros chunks cur.
    - cbn [fold_left]. symmetry. apply JsonFacts.string_app_empty_r.
    - cbn [fold_left]. unfold chunk_step at 2.
      destruct ((len (cur +:+ s) >? maxChunkSize) && (len cur >? 0)).
      + specialize (IH (chunks ++ [trim cur]) s).
        destruct (fold_left _ rest _) as [chunks' cur']. rewrite IH.
        rewrite concat_all_cons, concat_all_app, concat_all_cons. cbn [concat_all String.concat].
        rewrite !squeeze_app, squeeze_trim. cbn [squeeze]. 
        rewrite !JsonFacts.string_app_empty_r, !JsonFacts.string_app_assoc. reflexivity.
      + specialize (IH chunks (cur +:+ " " +:+ s)).
        destruct (fold_left _ rest _) as [chunks' cur']. rewrite IH.
        rewrite concat_all_cons, !squeeze_app. 
        change (squeeze " ") with EmptyString. cbn [String.append].
        rewrite !JsonFacts.string_app_assoc. reflexivity. }
  specialize (Hfold (sentences_of text) [] EmptyString).
  destruct (fold_left _ _ _) as [chunks cur]. cbn [concat_all String.concat String.append squeeze] in Hfold.
  rewrite <- Hfold.
  destruct (len (trim cur) >? 0) eqn:E.
  - rewrite concat_all_app, concat_all_cons. cbn [concat_all String.concat].
    rewrite !squeeze_app, squeeze_trim. cbn [squeeze].
    rewrite !JsonFacts.string_app_empty_r. reflexivity.
  - assert (Hcur : trim cur = EmptyString).
    { destruct (trim cur); [reflexivity|]. unfold len in E. cbn in E. discriminate E || lia. }
    rewrite squeeze_app, (trim_empty_squeeze cur Hcur), JsonFacts.string_app_empty_r. reflexivity.
Qed.

Lemma current_within_trim maxChunkSize sentences cur :
  current_within maxChunkSize sentences cur -> (len (trim cur) >? 0) = true ->
  chunk_within maxChunkSize sentences (trim cur).
Proof.
  intros [->|[H|(s & Hs & [->| ->])]] Hpos.
  - discriminate Hpos.
  - left. pose proof (len_trim cur). lia.
  - right. exists s. split; [exact Hs | reflexivity].
  - right. exists s. split; [exact Hs | apply trim_space].
Qed.

Lemma chunk_step_within maxChunkSize all chunks cur s :
  s ∈ all ->
  Forall (chunk_within maxChunkSize all) chunks ->
  current_within maxChunkSize all cur ->
  Forall (chunk_within maxChunkSize all) (fst (chunk_step maxChunkSize (chunks, cur) s))
  /\ current_within maxChunkSize all (snd (chunk_step maxChunkSize (chunks, cur) s)).
Proof.
  intros Hs Hchunks Hcur. unfold chunk_step.
  destruct (len (cur +:+ s) >? maxChunkSize) eqn:Hbig;
    destruct (len cur >? 0) eqn:Hpos; cbn [andb fst snd].
  - split; [|right; right; exists s; split; [exact Hs | left; reflexivity]].
    apply Forall_app. split; [exact Hchunks|]. constructor; [|constructor].
    destruct Hcur as [->|[H|(s' & Hs' & [->| ->])]].
    + discriminate Hpos.
    + left. pose proof (len_trim cur). lia.
    + right. exists s'. split; [exact Hs' | reflexivity].
    + right. exists s'. split; [exact Hs' | apply trim_space].
  - split; [exact Hchunks|]. right; right. exists s. split; [exact Hs|]. right.
    destruct cur; [reflexivity|]. unfold len in Hpos. cbn in Hpos. discriminate Hpos || lia.
  - split; [exact Hchunks|]. right; left.
    rewrite !len_app in *. change (len " ") with 1. lia.
  - split; [exact Hchunks|]. right; right. exists s. split; [exact Hs|]. right.
    destruct cur; [reflexivity|]. unfold len in Hpos. cbn in Hpos. discriminate Hpos || lia.
Qed.

(** No chunk is more than one character over the maximum, unless it is
    a single sentence. *)
Lemma chunkText_within (text : string) (maxChunkSize : Z) :
  Forall (chunk_within maxChunkSize (sentences_of text)) (chunkText text maxChunkSize).
Proof.
  unfold chunkText.
  assert (Hfold : forall sentences chunks cur,
             (forall s, s ∈ sentences -> s ∈ sentences_of text) ->
             Forall (chunk_within maxChunkSize (sentences_of text)) chunks ->
             current_within maxChunkSize (sentences_of text) cur ->
             let r := fold_left (chunk_step maxChunkSize) sentences (chunks, cur) in
             Forall (chunk_within maxChunkSize (sentences_of text)) (fst r)
             /\ current_within maxChunkSize (sentences_of text) (snd r)).
  { induction sentences as [|s rest IH]; intros chunks cur Hsub Hchunks Hcur.
    - split; assumption.
    - cbn [fold_left].
      destruct (chunk_step_within maxChunkSize (sentences_of text) chunks cur s
                  (Hsub s ltac:(left)) Hchunks Hcur) as [H1 H2].
      destruct (chunk_step maxChunkSize (chunks, cur) s) as [chunks1 cur1].
      apply IH; [intros s' Hs'; apply Hsub; right; exact Hs' | exact H1 | exact H2]. }
  destruct (Hfold (sentences_of text) [] EmptyString (fun s H => H) ltac:(constructor)
              ltac:(left; reflexivity)) as [H1 H2].
  destruct (fold_left _ _ _) as [chunks cur]. cbn [fst snd] in *.
  destruct (len (trim cur) >? 0) eqn:E; [|exact H1].
  apply Forall_app. split; [exact H1|]. constructor; [|constructor].
  apply current_within_trim; assumption.
Qed.

Lemma span_app (p : ascii -> bool) (s : string) : fst (span p s) +:+ snd (span p s) = s.
Proof.
  induction s as [|c s IH]; [reflexivity|]. cbn [span].
  destruct (p c); [|reflexivity]. destruct (span p s) as [a b]. cbn in *. congruence.
Qed.

Lemma span_body_rest (s : string) :
  ends_with_terminator s = true ->
  exists c r, snd (span (fun c => negb (is_terminator c)) s) = String c r
              /\ is_terminator c = true
              /\ ends_with_terminator (String c r) = true.
Proof.
  induction s as [|c s IH]; [discriminate|]. intros Hend. cbn [span].
  destruct (is_terminator c) eqn:Ec; cbn [negb].
  - exists c, s. repeat split; assumption.
  - destruct s as [|c' s']; [cbn in Hend; congruence|].
    destruct (IH Hend) as (d & r & Hsnd & Hd & Hr).
    destruct (span _ (String c' s')) as [a b]. cbn [snd] in *. eauto.
Qed.

Lemma span_marks_rest (s : string) :
  ends_with_terminator s = true ->
  snd (span is_terminator s) = EmptyString
  \/ made_of_sentences (snd (span is_terminator s)) = true.
Proof.
  induction s as [|c s IH]; [discriminate|]. intros Hend. cbn [span].
  destruct (is_terminator c) eqn:Ec.
  - destruct s as [|c' s']; [left; reflexivity|].
    destruct (IH Hend) as [H|H]; destruct (span _ (String c' s')) as [a b];
      cbn [snd] in *; auto.
  - right. cbn [snd]. unfold made_of_sentences. cbn [starts_sentence]. rewrite Ec. exact Hend.
Qed.

Lemma exec_sentence_made (s : string) :
  made_of_sentences s = true ->
  exists m rest,
    exec_sentence s = Some (m, rest)
    /\ m +:+ rest = s
    /\ (String.length rest < String.length s)%nat
    /\ (rest = EmptyString \/ made_of_sentences rest = true).
Proof.
  unfold made_of_sentences. intros H. apply andb_prop in H as [Hstart Hend].
  unfold exec_sentence.
  pose proof (span_app (fun c => negb (is_terminator c)) s) as Happ1.
  destruct (span_body_rest s Hend) as (c & r & Hsnd & Hc & Hr).
  destruct (span (fun c => negb (is_terminator c)) s) as [body r1]. cbn [fst snd] in *.
  subst r1.
  pose proof (span_app is_terminator (String c r)) as Happ2.
  pose proof (span_marks_rest (String c r) Hr) as Hrest.
  destruct (span is_terminator (String c r)) as [marks r2] eqn:Hspan. cbn [fst snd] in *.
  assert (Hbody : body <> EmptyString).
  { intros ->. cbn in Happ1. subst s. cbn in Hstart. rewrite Hc in Hstart. discriminate. }
  assert (Hmarks : marks <> EmptyString).
  { intros ->. cbn [span] in Hspan. rewrite Hc in Hspan.
    destruct (span is_terminator r). discriminate. }
  destruct body as [|b0 body]; [congruence|]. destruct marks as [|m0 marks]; [congruence|].
  eexists _, _. split; [reflexivity|].
  split; [rewrite JsonFacts.string_app_assoc, Happ2; exact Happ1|].
  split; [|exact Hrest].
  rewrite <- Happ1, <- Happ2, !JsonFacts.string_length_app. cbn [String.length]. lia.
Qed.

Lemma match_sentences_made (fuel : nat) (s : string) :
  (String.length s < fuel)%nat ->
  made_of_sentences s = true ->
  concat_all (match_sentences fuel s) = s /\ match_sentences fuel s <> [].
Proof.
  revert s. induction fuel as [|fuel IH]; intros s Hfuel Hmade; [lia|].
  destruct (exec_sentence_made s Hmade) as (m & rest & Hexec & Happ & Hlen & Hrest).
  destruct s as [|c s]; [discriminate Hmade|].
  cbn [match_sentences]. rewrite Hexec. split; [|discriminate].
  rewrite concat_all_cons. destruct Hrest as [->|Hrest].
  - destruct fuel; cbn [match_sentences concat_all String.concat]; exact Happ.
  - rewrite (proj1 (IH rest ltac:(cbn [String.length] in *; lia) Hrest)). exact Happ.
Qed.

(** The sentences of a text made of sentences spell the text. *)
Lemma sentences_of_made (text : string) :
  made_of_sentences text = true -> concat_all (sentences_of text) = text.
Proof.
  intros Hmade. unfold sentences_of.
  destruct (match_sentences_made (S (String.length text)) text ltac:(lia) Hmade) as [H Hne].
  destruct (match_sentences _ text); [congruence | exact H].
Qed.

(** On a text made of sentences the chunks spell the text, up to white
    space. *)
Lemma chunkText_spells_sentence_text (text : string) (maxChunkSize : Z) :
  made_of_sentences text = true ->
  squeeze (concat_all (chunkText text maxChunkSize)) = squeeze text.
Proof.
  intros Hmade. rewrite chunkText_spells_sentences, sentences_of_made by exact Hmade.
  reflexivity.
Qed.

Example chunkText_sentences :
  chunkText "One. Two! Three?" 10 = ["One.  Two!"; "Three?"].
Proof. vm_compute. reflexivity. Qed.

Example chunkText_without_boundary :
  chunkText_default "no boundary here" = ["no boundary here"]
  /\ chunkText_default EmptyString = [].
Proof. split; vm_compute; reflexivity. Qed.

(** C2. The text after the last sentence terminator is in no chunk:
    ["Hello. World"] is chunked into ["Hello."] alone, so the chunks do
    not give the input back, not even with all white space removed. *)
Theorem chunkText_drops_unterminated_tail :
  sentences_of "Hello. World" = ["Hello."]
  /\ chunkText_default "Hello. World" = ["Hello."]
  /\ squeeze (String.concat EmptyString (chunkText_default "Hello. World")) = "Hello."
  /\ squeeze "Hello. World" = "Hello.World".
Proof. repeat split; vm_compute; reflexivity. Qed.

(** C7. The size test of the loop leaves out the space it then joins
    with: with a maximum of 4, ["abc.d.e."] gives the chunk ["d. e."]
    of 5 characters although no sentence is longer than 4; with the
    default maximum of 1000, sentences of 601, 500 and 500 characters
    give a chunk of 1001. *)
Theorem chunkText_exceeds_size_by_separator :
  sentences_of "abc.d.e." = ["abc."; "d."; "e."]
  /\ chunkText "abc.d.e." 4 = ["abc."; "d. e."]
  /\ map String.length (sentences_of Demo.long_text) = [601; 500; 500]%nat
  /\ map String.length (chunkText_default Demo.long_text) = [601; 1001]%nat.
Proof. repeat split; vm_compute; reflexivity. Qed.

End ChunkerFacts.

(* ===================================================================== *)
(** * The pipelines on concrete worlds *)
(* ===================================================================== *)

Module Scenarios.
Import Platform Vectorize Cleanup.
Import QuotaFacts IngestFacts DeleteFacts RoundTripFacts CleanupFacts.

Lemma demo_fault_free : fault_free Demo.env.
Proof. intros t op. reflexivity. Qed.

Example date_round_trip :
  JsDate.toISOString Demo.t0 = "2023-11-14T22:13:20.123Z"
  /\ JsDate.parse_iso "2023-11-14T22:13:20.123Z" = Some Demo.t0
  /\ JsDate.toISOString 951782400000 = "2000-02-29T00:00:00.000Z"
  /\ JsDate.parse_iso "2000-02-29T00:00:00.000Z" = Some 951782400000
  /\ JsDate.parse_iso "2023-02-29T00:00:00.000Z" = None
  /\ JsDate.toISOString (-62198755200000) = "-000001-01-01T00:00:00.000Z".
Proof. repeat split; vm_compute; reflexivity. Qed.

Example json_round_trip :
  let v := JObj [("name", JStr "a\c"); ("n", JNum (-12));
                 ("l", JArr [JStr EmptyString; JNull; JArr []; JObj []])] in
  String.length (Json.stringify v) = 43%nat
  /\ Json.parse (Json.stringify v) = Some v
  /\ Json.parse "{ }" = Some (JObj [])
  /\ Json.parse "[1, 02]" = None
  /\ Json.parse "85" = Some (JNum 85)
  /\ Json.parse "NaN" = None.
Proof. repeat split; vm_compute; reflexivity. Qed.

(** The record [embedAndStore] leaves for [Demo.doc]. *)
Example ingested_record :
  (text ← namespace Demo.ingested "metadata" !! "doc1"; Json.parse text)
  = Some (JObj [ ("name", JStr "Notes");
                 ("type", JStr "text");
                 ("chunksCount", JNum 1);
                 ("uploadedAt", JStr "2023-11-14T22:13:20.123Z");
                 ("vectorIds", JArr [JStr "doc1-1700000000123-0"]) ])
  /\ stored_count Demo.env Demo.ingested = Int 1
  /\ (map_to_list (index Demo.ingested)).*1 = ["doc1-1700000000123-0"].
Proof. repeat split; vm_compute; reflexivity. Qed.

(** A retention that takes the cutoff out of the range of dates: the
    cutoff is then NaN, no record is older, and the sweep removes
    nothing, neither the record nor its vectors. *)
Example sweep_with_invalid_cutoff :
  let swept := cleanupOldVectors Demo.env (-100000000) Demo.with_legacy_record in
  Cleanup.cutoff_time (now Demo.with_legacy_record) (-100000000) = NaN
  /\ fst swept = Ok 0
  /\ (map_to_list (index (snd swept))).*1 = (map_to_list (index Demo.with_legacy_record)).*1
  /\ stored_count Demo.env (snd swept) = Int 2
  /\ namespace (snd swept) "metadata" !! "old" = Some Demo.legacy_record.
Proof. repeat split; vm_compute; reflexivity. Qed.

(** The sweep does remove the vectors of a record that has [chunks]. *)
Example cleanup_reads_chunks :
  let swept := cleanupOldVectors Demo.env 30 Demo.with_legacy_record in
  fst swept = Ok 2
  /\ index (snd swept) = ∅
  /\ stored_count Demo.env (snd swept) = Int 0
  /\ namespace (snd swept) "metadata" !! "old" = None.
Proof. repeat split; vm_compute; reflexivity. Qed.

(** C1. A document ingested by [embedAndStore] and swept 31 days
    later: the sweep removes no vector and leaves the counter at 1; it
    deletes the metadata record when the sweep's binding names the
    namespace of the records, and does not see the document at all
    when it names another one.  [deleteDocumentVectors] on the same
    world removes the vector and brings the counter to 0. *)
Theorem cleanup_misses_ingested_vectors :
  let later := at_time (Demo.t0 + 31 * JsDate.ms_per_day) Demo.ingested in
  let swept := cleanupOldVectors Demo.env 30 later in
  let swept_split := cleanupOldVectors Demo.env_split 30 later in
  let deleted := deleteDocumentVectors "doc1" Demo.env later in
  (map_to_list (index Demo.ingested)).*1 = ["doc1-1700000000123-0"]
  /\ stored_count Demo.env Demo.ingested = Int 1
  /\ fst swept = Ok 0
  /\ (map_to_list (index (snd swept))).*1 = ["doc1-1700000000123-0"]
  /\ stored_count Demo.env (snd swept) = Int 1
  /\ namespace (snd swept) "metadata" !! "doc1" = None
  /\ fst swept_split = Ok 0
  /\ (map_to_list (index (snd swept_split))).*1 = ["doc1-1700000000123-0"]
  /\ stored_count Demo.env_split (snd swept_split) = Int 1
  /\ namespace (snd swept_split) "metadata" !! "doc1"
     = namespace Demo.ingested "metadata" !! "doc1"
  /\ (map_to_list (index (snd deleted))).*1 = []
  /\ stored_count Demo.env (snd deleted) = Int 0.
Proof. repeat split; vm_compute; reflexivity. Qed.

(** The scenarios of the specification: a counter at 85 and a batch
    of 5 chunks, then of 20 chunks. *)
Example scenario_admitted :
  let texts := ["A."; "B."; "C."; "D."; "E."] in
  let run := embedAndStore texts Demo.doc Demo.env (Demo.with_count 85) in
  EmbedResponse.success <$> (match fst run with Ok r => Some r | Throw _ => None end) = Some true
  /\ stored_count Demo.env (snd run) = Int 90
  /\ console (snd run)
     = [Metric "2023-11-14T22:13:20.123Z" (Int 90) (Some (Int 5)) "upsert_document_doc1"].
Proof. repeat split; vm_compute; reflexivity. Qed.

Example scenario_denied :
  let texts := repeat "A." 20 in
  let run := embedAndStore texts Demo.doc Demo.env (Demo.with_count 85) in
  fst run
  = Ok {| EmbedResponse.success := false;
          EmbedResponse.vectorIds := None;
          EmbedResponse.error :=
            Some "Vector limit exceeded. Current count: 85/100. Requested: 20. Available quota: 15" |}
  /\ stored_count Demo.env (snd run) = Int 85
  /\ index (snd run) = ∅
  /\ console (snd run)
     = [Metric "2023-11-14T22:13:20.123Z" (Int 85) (Some (Int 0)) "quota_denied_requested_20"].
Proof. repeat split; vm_compute; reflexivity. Qed.

(** C9. The counter key is a key like any other, and no id is
    refused: a document ingested under the id ["__vector_count__"],
    with the counter at 5, is stored with success, and its record
    overwrites the counter, which then reads as NaN; deleting the
    document succeeds, removes its one vector, writes the text ["NaN"]
    under the counter key and then deletes that key, so that the counter
    reads 0 after the round trip, not 5. *)
Theorem reserved_key_collision :
  let md := {| documentId := VECTOR_COUNT_KEY; documentName := "n"; documentType := "t" |} in
  let ingestion := embedAndStore ["One."] md Demo.env (Demo.with_count 5) in
  let deletion :=
    deleteDocumentVectors VECTOR_COUNT_KEY Demo.env
      (at_time (Demo.t0 + 1000) (snd ingestion)) in
  stored_count Demo.env (Demo.with_count 5) = Int 5
  /\ fst ingestion
     = Ok {| EmbedResponse.success := true;
             EmbedResponse.vectorIds := Some ["__vector_count__-1700000000123-0"];
             EmbedResponse.error := None |}
  /\ (map_to_list (index (snd ingestion))).*1 = ["__vector_count__-1700000000123-0"]
  /\ stored_count Demo.env (snd ingestion) = NaN
  /\ fst deletion
     = Ok {| DeleteResult.success := true;
             DeleteResult.deletedCount := Int 1;
             DeleteResult.error := None |}
  /\ (map_to_list (index (snd deletion))).*1 = []
  /\ namespace (snd deletion) "metadata" !! VECTOR_COUNT_KEY = None
  /\ stored_count Demo.env (snd deletion) = Int 0.
Proof. repeat split; vm_compute; reflexivity. Qed.

(** ** Instances of the general theorems *)

Lemma checkVectorQuota_decides_witness :
  exists q w',
    checkVectorQuota Demo.env (Int 10) (Demo.with_count 85) = (Ok q, w')
    /\ QuotaCheck.currentCount q = Int 85
    /\ QuotaCheck.availableQuota q = Int (100 - 85)
    /\ (QuotaCheck.allowed q = true <-> 10 <= 100 - 85)
    /\ kv w' = kv (Demo.with_count 85) /\ index w' = index (Demo.with_count 85)
    /\ console w' = console (Demo.with_count 85).
Proof.
  apply (checkVectorQuota_decides Demo.env (Demo.with_count 85) 10 85);
    [reflexivity | left; reflexivity | | | ];
    unfold Num.safe, Num.MAX_SAFE_INTEGER; lia.
Defined.

Lemma updateVectorCount_clamps_witness :
  exists w',
    updateVectorCount Demo.env (Int (-90)) (Demo.with_count 85) = (Ok (Int 0), w')
    /\ stored_count Demo.env w' = Int 0.
Proof.
  assert (Hsafe : forall z, -100 <= z <= 100 -> Num.safe z)
    by (unfold Num.safe, Num.MAX_SAFE_INTEGER; lia).
  destruct (proj1 (updateVectorCount_clamps Demo.env (Demo.with_count 85) 85
                     demo_fault_free (or_introl eq_refl) (Hsafe 85 ltac:(lia))) (-90)
              (Hsafe (-90) ltac:(lia)) (Hsafe (85 + -90) ltac:(lia)))
    as (w' & Hrun & _ & Hcount & _).
  exists w'. split; [exact Hrun | exact Hcount].
Defined.

Lemma embedAndStore_denied_witness :
  exists w',
    fst (embedAndStore ["One. Two."] Demo.doc Demo.env (Demo.with_count 100))
    = Ok {| EmbedResponse.success := false;
            EmbedResponse.vectorIds := None;
            EmbedResponse.error :=
              Some "Vector limit exceeded. Current count: 100/100. Requested: 1. Available quota: 0" |}
    /\ kv w' = kv (Demo.with_count 100).
Proof.
  destruct (embedAndStore_denied Demo.env ["One. Two."] Demo.doc (Demo.with_count 100) 100
              eq_refl (or_introl eq_refl) eq_refl)
    as (w' & Hrun & _ & _ & Hkv).
  exists w'. split; [rewrite Hrun; reflexivity | exact Hkv].
Defined.


Lemma deleteDocumentVectors_unknown_witness :
  exists w',
    deleteDocumentVectors "ghost" Demo.env Demo.ingested
    = (Ok {| DeleteResult.success := true;
             DeleteResult.deletedCount := Int 0;
             DeleteResult.error := None |}, w')
    /\ kv w' = kv Demo.ingested /\ index w' = index Demo.ingested
    /\ console w' = console Demo.ingested.
Proof.
  apply (deleteDocumentVectors_unknown Demo.env "ghost" Demo.ingested);
    [reflexivity | left; reflexivity].
Defined.

Lemma ingest_then_delete_restores_count_witness :
  exists ids w1 w2,
    embedAndStore ["One. Two."; "Three."] Demo.doc Demo.env (Demo.with_count 85)
    = (Ok {| EmbedResponse.success := true;
             EmbedResponse.vectorIds := Some ids;
             EmbedResponse.error := None |}, w1)
    /\ Z.of_nat (length ids) = 2
    /\ stored_count Demo.env w1 = Int (85 + 2)
    /\ deleteDocumentVectors "doc1" Demo.env (at_time (Demo.t0 + 1000) w1)
       = (Ok {| DeleteResult.success := true;
                DeleteResult.deletedCount := Int 2;
                DeleteResult.error := None |}, w2)
    /\ stored_count Demo.env w2 = Int 85.
Proof.
  apply (ingest_then_delete_restores_count Demo.env ["One. Two."; "Three."] Demo.doc
           [[1; 2; 3]; [1; 2; 3]] (Demo.with_count 85) 85 (Demo.t0 + 1000)).
  - exact demo_fault_free.
  - left. reflexivity.
  - lia.
  - discriminate.
  - vm_compute. discriminate.
  - intros t. reflexivity.
  - reflexivity.
Defined.

(** The sweep of [Demo.with_legacy_record] lists the counter key, then
    the record; the turn of the counter key reads it and goes on. *)
Lemma legacy_listing :
  kv_list Demo.env_deleteByIds_down "metadata" Demo.with_legacy_record
  = (Ok ([VECTOR_COUNT_KEY] ++ "old" :: []), tick Demo.with_legacy_record).
Proof. vm_compute. reflexivity. Qed.

Lemma legacy_first_turn (cutoff : number) :
  for_of [VECTOR_COUNT_KEY] (sweep_document Demo.env_deleteByIds_down cutoff)
    {| world := tick Demo.with_legacy_record; deletedCount := 0 |}
  = (Ok tt, {| world := tick (tick Demo.with_legacy_record); deletedCount := 0 |}).
Proof. reflexivity. Qed.

Lemma cleanup_drops_record_when_removal_fails_witness :
  exists n w',
    cleanupOldVectors Demo.env_deleteByIds_down 30 Demo.with_legacy_record = (Ok n, w')
    /\ namespace w' "metadata" !! "old" = None.
Proof.
  apply (proj1 (proj2 (cleanup_drops_record_when_removal_fails
                         Demo.env_deleteByIds_down Demo.index_down))
           30 Demo.with_legacy_record [VECTOR_COUNT_KEY] [] "old"
           Demo.legacy_record Demo.legacy_json [Some (JStr "old-0"); Some (JStr "old-1")]
           {| world := tick (tick Demo.with_legacy_record); deletedCount := 0 |}).
  - exact legacy_listing.
  - apply legacy_first_turn.
  - reflexivity.
  - reflexivity.
  - apply JsonFacts.parse_stringify.
  - vm_compute. reflexivity.
  - reflexivity.
  - discriminate.
  - reflexivity.
  - reflexivity.
  - intros [_ [=]].
Defined.

End Scenarios.

Module ChunkerEdgeFacts.
Import JsString Chunker ChunkerViews ChunkerFacts.

Lemma trimEnd_twice (s : string) : trimEnd (trimEnd s) = trimEnd s.
Proof.
  induction s as [|c s IH]; [reflexivity|]. cbn [trimEnd].
  destruct (trimEnd s) as [|c' r] eqn:E.
  - destruct (is_whitespace c) eqn:Ec; [reflexivity|]. cbn [trimEnd]. rewrite Ec. reflexivity.
  - cbn [trimEnd] in *. rewrite IH. reflexivity.
Qed.

Lemma trimStart_head (s : string) :
  trimStart s = EmptyString
  \/ exists c r, trimStart s = String c r /\ is_whitespace c = false.
Proof.
  induction s as [|c s IH]; [left; reflexivity|]. cbn [trimStart].
  destruct (is_whitespace c) eqn:E; [exact IH|]. right. eauto.
Qed.

Lemma trimEnd_keeps_head (c : ascii) (r : string) :
  is_whitespace c = false -> exists r', trimEnd (String c r) = String c r'.
Proof.
  intros H. cbn [trimEnd]. destruct (trimEnd r); [rewrite H|]; eauto.
Qed.

Lemma trim_twice (s : string) : trim (trim s) = trim s.
Proof.
  unfold trim. destruct (trimStart_head s) as [->|(c & r & -> & Hc)]; [reflexivity|].
  destruct (trimEnd_keeps_head c r Hc) as [r' E].
  rewrite E. cbn [trimStart]. rewrite Hc, <- E. apply trimEnd_twice.
Qed.

Lemma squeeze_empty_trim (s : string) : squeeze s = EmptyString -> trim s = EmptyString.
Proof.
  unfold trim. induction s as [|c s IH]; [reflexivity|]. cbn [squeeze trimStart].
  destruct (is_whitespace c); [exact IH | discriminate].
Qed.

Lemma blank_iff (s : string) : trim s = EmptyString <-> squeeze s = EmptyString.
Proof. split; [apply trim_empty_squeeze | apply squeeze_empty_trim]. Qed.


Lemma span_head (p : ascii -> bool) (s : string) (c : ascii) (a b : string) :
  span p s = (String c a, b) -> p c = true.
Proof.
  destruct s as [|c0 s]; [discriminate|]. cbn [span].
  destruct (p c0) eqn:E; [|discriminate].
  destruct (span p s). intros [= <- _ _]. exact E.
Qed.

Lemma terminator_not_whitespace (c : ascii) :
  is_terminator c = true -> is_whitespace c = false.
Proof. destruct c as [[] [] [] [] [] [] [] []]; vm_compute; congruence. Qed.

Lemma exec_sentence_nonblank (s m rest : string) :
  exec_sentence s = Some (m, rest) -> squeeze m <> EmptyString.
Proof.
  unfold exec_sentence.
  destruct (span (fun c => negb (is_terminator c)) s) as [body r1].
  destruct (span is_terminator r1) as [marks r2] eqn:Hmarks.
  destruct body as [|b0 body]; [discriminate|].
  destruct marks as [|c marks]; [discriminate|]. intros [= <- _].
  apply span_head in Hmarks. apply terminator_not_whitespace in Hmarks.
  change (squeeze (String b0 body +:+ String c marks) <> EmptyString).
  rewrite squeeze_app. set (a := squeeze (String b0 body)).
  cbn [squeeze]. rewrite Hmarks. destruct a; cbn [String.append]; discriminate.
Qed.

Lemma match_sentences_nonblank (fuel : nat) (s : string) :
  Forall (fun m => squeeze m <> EmptyString) (match_sentences fuel s).
Proof.
  revert s. induction fuel as [|fuel IH]; intros s; [constructor|].
  cbn [match_sentences]. destruct s as [|c r]; [constructor|].
  destruct (exec_sentence (String c r)) as [[m rest]|] eqn:E; [|apply IH].
  constructor; [exact (exec_sentence_nonblank _ _ _ E) | apply IH].
Qed.

(** The sentences of a text: the text itself when nothing matches, else
    matches, none of them blank. *)
Lemma sentences_of_cases (text : string) :
  sentences_of text = [text]
  \/ (sentences_of text <> []
      /\ Forall (fun m => squeeze m <> EmptyString) (sentences_of text)).
Proof.
  unfold sentences_of.
  pose proof (match_sentences_nonblank (S (String.length text)) text) as H.
  destruct (match_sentences _ text) as [|m l]; [left; reflexivity|].
  right. split; [discriminate | exact H].
Qed.

Lemma trim_nonblank (s : string) :
  squeeze s <> EmptyString -> trimmed_chunk (trim s).
Proof.
  intros H. split; [|apply trim_twice]. intros E. apply H, blank_iff, E.
Qed.

Lemma len_pos_nonempty (s : string) : (len s >? 0) = true <-> s <> EmptyString.
Proof.
  unfold len. destruct s; cbn [String.length]; split; intros H; try congruence; try lia.
  - discriminate H.
  - apply Z.gtb_lt. lia.
Qed.

Lemma fold_chunk_step_trimmed (maxChunkSize : Z) (sentences : list string) :
  Forall (fun m => squeeze m <> EmptyString) sentences ->
  forall chunks cur,
    Forall trimmed_chunk chunks ->
    cur = EmptyString \/ squeeze cur <> EmptyString ->
    Forall trimmed_chunk (fst (fold_left (chunk_step maxChunkSize) sentences (chunks, cur)))
    /\ (sentences <> [] ->
        squeeze (snd (fold_left (chunk_step maxChunkSize) sentences (chunks, cur)))
        <> EmptyString).
Proof.
  induction 1 as [|s rest Hs Hrest IH]; intros chunks cur Hchunks Hcur.
  - split; [exact Hchunks | congruence].
  - cbn [fold_left]. unfold chunk_step at 2 4.
    assert (Hnext : forall chunks' cur',
               Forall trimmed_chunk chunks' -> squeeze cur' <> EmptyString ->
               Forall trimmed_chunk
                 (fst (fold_left (chunk_step maxChunkSize) rest (chunks', cur')))
               /\ (s :: rest <> [] ->
                   squeeze (snd (fold_left (chunk_step maxChunkSize) rest (chunks', cur')))
                   <> EmptyString)).
    { intros chunks' cur' H1 H2. destruct (IH chunks' cur' H1 (or_intror H2)) as [IH1 IH2].
      split; [exact IH1|]. intros _. destruct rest; [exact H2 | apply IH2; discriminate]. }
    destruct (len (cur +:+ s) >? maxChunkSize); cbn [andb].
    + destruct (len cur >? 0) eqn:Hpos.
      * apply Hnext; [|exact Hs]. apply Forall_app. split; [exact Hchunks|].
        constructor; [|constructor]. apply trim_nonblank.
        destruct Hcur as [->|H]; [discriminate Hpos | exact H].
      * apply Hnext; [exact Hchunks|]. rewrite !squeeze_app.
        intros E. apply Hs. destruct (squeeze cur); [|discriminate]. exact E.
    + apply Hnext; [exact Hchunks|]. rewrite !squeeze_app.
      intros E. apply Hs. destruct (squeeze cur); [|discriminate]. exact E.
Qed.

Lemma chunkText_all_trimmed (text : string) (maxChunkSize : Z) :
  Forall trimmed_chunk (chunkText text maxChunkSize).
Proof.
  unfold chunkText.
  assert (Hlast : forall chunks cur,
             Forall trimmed_chunk chunks ->
             Forall trimmed_chunk
               (if len (trim cur) >? 0 then chunks ++ [trim cur] else chunks)).
  { intros chunks cur H. destruct (len (trim cur) >? 0) eqn:E; [|exact H].
    apply Forall_app. split; [exact H|]. constructor; [|constructor].
    split; [apply len_pos_nonempty, E | apply trim_twice]. }
  destruct (sentences_of_cases text) as [-> | [_ Hall]].
  - cbn [fold_left chunk_step]. change (len EmptyString >? 0) with false.
    rewrite andb_false_r. apply Hlast. constructor.
  - destruct (fold_chunk_step_trimmed maxChunkSize _ Hall [] EmptyString
                ltac:(constructor) ltac:(left; reflexivity)) as [H _].
    destruct (fold_left _ _ _) as [chunks cur]. apply Hlast, H.
Qed.

(** X1. Every chunk [chunkText] returns is a non-empty text with no
    white space at its start nor at its end. *)
Theorem chunkText_chunks_trimmed (text : string) (maxChunkSize : Z) :
  Forall (fun c => c <> EmptyString /\ trim c = c /\ trimStart c = c /\ trimEnd c = c)
         (chunkText text maxChunkSize).
Proof.
  eapply Forall_impl; [apply chunkText_all_trimmed|].
  intros c [Hne Htrim]. split; [exact Hne|]. split; [exact Htrim|].
  assert (Hstart : trimStart c = c).
  { rewrite <- Htrim at 1. unfold trim.
    destruct (trimStart_head c) as [E|(a & r & E & Ha)]; rewrite E.
    - unfold trim in Htrim. rewrite E in Htrim. cbn in Htrim. congruence.
    - destruct (trimEnd_keeps_head a r Ha) as [r' E']. rewrite E'. cbn [trimStart].
      rewrite Ha, <- E'. rewrite <- E. exact Htrim. }
  split; [exact Hstart|]. unfold trim in Htrim. rewrite Hstart in Htrim. exact Htrim.
Qed.


Lemma exec_sentence_no_terminator (s : string) :
  unpunctuated s ->
  exec_sentence s = None.
Proof.
  intros H. unfold exec_sentence.
  assert (Hspan : span (fun c => negb (is_terminator c)) s = (s, EmptyString)).
  { induction s as [|c s IH]; [reflexivity|]. cbn [list_ascii_of_string] in H.
    apply Forall_cons in H as [Hc Hs]. cbn [span]. rewrite Hc, (IH Hs). reflexivity. }
  rewrite Hspan. cbn [span]. destruct s; reflexivity.
Qed.

Lemma match_sentences_no_terminator (fuel : nat) (s : string) :
  unpunctuated s ->
  match_sentences fuel s = [].
Proof.
  revert s. induction fuel as [|fuel IH]; intros s H; [reflexivity|].
  cbn [match_sentences]. destruct s as [|c r]; [reflexivity|].
  rewrite (exec_sentence_no_terminator _ H). apply IH.
  cbn [list_ascii_of_string] in H. apply Forall_cons in H as [_ H]. exact H.
Qed.

Lemma blank_no_terminator (s : string) :
  squeeze s = EmptyString ->
  unpunctuated s.
Proof.
  induction s as [|c s IH]; [constructor|]. cbn [squeeze list_ascii_of_string].
  destruct (is_whitespace c) eqn:E; [|discriminate]. intros H.
  constructor; [|exact (IH H)].
  destruct (is_terminator c) eqn:Et; [|reflexivity].
  rewrite (terminator_not_whitespace c Et) in E. discriminate.
Qed.

Lemma chunkText_no_terminator (text : string) (maxChunkSize : Z) :
  unpunctuated text ->
  chunkText text maxChunkSize = if len (trim text) >? 0 then [trim text] else [].
Proof.
  intros H. unfold chunkText, sentences_of.
  rewrite (match_sentences_no_terminator _ _ H).
  cbn [fold_left chunk_step]. change (len EmptyString >? 0) with false.
  rewrite andb_false_r. reflexivity.
Qed.

(** X2. A text without any of [.], [!] and [?] is never split: unless
    it is blank it comes back whole, trimmed, as the only chunk, whatever
    the maximum; the chunk is then as long as the trimmed text, also
    when that is more than the maximum. *)
Theorem chunkText_unpunctuated_whole (text : string) (maxChunkSize : Z) :
  unpunctuated text ->
  trim text <> EmptyString ->
  chunkText text maxChunkSize = [trim text]
  /\ map len (chunkText text maxChunkSize) = [len (trim text)].
Proof.
  intros H Hne. rewrite (chunkText_no_terminator text maxChunkSize H).
  apply len_pos_nonempty in Hne. rewrite Hne. split; reflexivity.
Qed.

(** X3. [chunkText] returns no chunk exactly for a blank text (empty,
    or white space only); every other text gives at least one chunk. *)
Theorem chunkText_empty_iff_blank (text : string) (maxChunkSize : Z) :
  chunkText text maxChunkSize = [] <-> trim text = EmptyString.
Proof.
  split.
  - intros E. pose proof (chunkText_spells_sentences text maxChunkSize) as H.
    rewrite E in H. cbn [concat_all String.concat squeeze] in H.
    destruct (sentences_of_cases text) as [Hs | [Hne Hall]].
    + rewrite Hs in H. cbn [concat_all String.concat] in H.
      apply blank_iff. symmetry. exact H.
    + destruct (sentences_of text) as [|m l]; [congruence|].
      apply Forall_cons in Hall as [Hm _]. rewrite concat_all_cons, squeeze_app in H.
      destruct (squeeze m); [congruence | discriminate H].
  - intros Hblank. apply blank_iff in Hblank.
    rewrite (chunkText_no_terminator text maxChunkSize (blank_no_terminator _ Hblank)).
    apply blank_iff in Hblank. rewrite Hblank. reflexivity.
Qed.

(** X4. When no sentence of the text is longer than the maximum, no
    chunk is more than one character over it. *)
Theorem chunkText_short_sentences_bound (text : string) (maxChunkSize : Z) :
  Forall (fun s => len s <= maxChunkSize) (sentences_of text) ->
  Forall (fun c => len c <= maxChunkSize + 1) (chunkText text maxChunkSize).
Proof.
  intros Hshort. pose proof (chunkText_within text maxChunkSize) as H.
  induction H as [|c chunks Hc _ IH]; constructor; [|exact IH].
  destruct Hc as [Hc | (s & Hs & ->)]; [exact Hc|].
  rewrite Forall_forall in Hshort. pose proof (Hshort s Hs). pose proof (len_trim s). lia.
Qed.

End ChunkerEdgeFacts.

Module CounterFacts.
Import Platform Vectorize PlatformFacts QuotaFacts IngestFacts DeleteFacts RoundTripFacts.

#[local] Arguments Json.parse : simpl never.
#[local] Arguments Json.stringify : simpl never.
#[local] Arguments Num.toString : simpl never.
#[local] Arguments Num.parseInt : simpl never.
#[local] Arguments JsDate.toISOString : simpl never.
#[local] Arguments String.append : simpl never.
#[local] Arguments namespace : simpl never.
#[local] Arguments stored_count : simpl never.
#[local] Arguments chunk_all : simpl never.
#[local] Arguments make_vectors : simpl never.
#[local] Arguments docMetadata : simpl never.

Lemma stored_count_after_put (env : Env) (w w0 : World) (v : number) :
  stored_count env
    (set_namespace (DOC_METADATA env)
       (<[VECTOR_COUNT_KEY := Num.toString v]> (namespace w (DOC_METADATA env))) w0)
  = v.
Proof.
  unfold stored_count. rewrite namespace_set_same, lookup_insert_eq.
  rewrite NumFacts.toString_truthy. destruct v as [z|].
  - apply NumFacts.parseInt_toString.
  - reflexivity.
Qed.

(** X5. A counter text that does not read as a number is never
    repaired: every admission check then denies, whatever is requested,
    every adjustment returns NaN and writes the text "NaN", which reads
    as NaN again, and every ingestion is refused without a write. *)
Theorem unreadable_counter_is_absorbing (env : Env) (w : World) :
  fault_free env ->
  stored_count env w = NaN ->
  (forall requiredVectors, exists q w',
      checkVectorQuota env requiredVectors w = (Ok q, w')
      /\ QuotaCheck.allowed q = false
      /\ QuotaCheck.currentCount q = NaN
      /\ QuotaCheck.availableQuota q = NaN)
  /\ (forall delta, exists w',
        updateVectorCount env delta w = (Ok NaN, w')
        /\ namespace w' (DOC_METADATA env) !! VECTOR_COUNT_KEY = Some "NaN"
        /\ stored_count env w' = NaN)
  /\ (forall texts md, exists r w',
        embedAndStore texts md env w = (Ok r, w')
        /\ EmbedResponse.success r = false
        /\ kv w' = kv w /\ index w' = index w).
Proof.
  intros Hq Hnan. split; [|split].
  - intros n. unfold checkVectorQuota.
    rewrite bind_run, getVectorCount_run by apply Hq. rewrite Hnan.
    eexists _, _. split; [reflexivity|]. cbn. destruct n; repeat split; reflexivity.
  - intros delta. eexists. rewrite updateVectorCount_run by (intros; apply Hq).
    rewrite Hnan. cbn [Num.add Num.max]. split; [reflexivity|].
    split; [rewrite namespace_set_same; apply lookup_insert_eq|].
    apply (stored_count_after_put env w _ NaN).
  - intros texts md. unfold embedAndStore, try_catch, embedAndStore_try.
    rewrite bind_run. cbn [Date_toISOString gets].
    rewrite bind_run. unfold checkVectorQuota.
    rewrite bind_run, getVectorCount_run by apply Hq. rewrite Hnan.
    cbn [ret Num.sub Num.le QuotaCheck.allowed QuotaCheck.currentCount].
    replace (Num.le (count_of _) NaN) with false by (unfold count_of; reflexivity).
    cbn [negb]. eexists _, _. split; [reflexivity|]. cbn. repeat split; reflexivity.
Qed.

End CounterFacts.

Module LifecycleFacts.
Import Platform Vectorize IngestViews PlatformFacts QuotaFacts IngestFacts DeleteFacts RoundTripFacts.

#[local] Arguments Json.parse : simpl never.
#[local] Arguments Json.stringify : simpl never.
#[local] Arguments Num.toString : simpl never.
#[local] Arguments Num.parseInt : simpl never.
#[local] Arguments JsDate.toISOString : simpl never.
#[local] Arguments namespace : simpl never.
#[local] Arguments stored_count : simpl never.
#[local] Arguments chunk_all : simpl never.
#[local] Arguments docMetadata : simpl never.

(** ** Vector ids *)

Lemma append_cancel_l (p a b : string) : p +:+ a = p +:+ b -> a = b.
Proof. induction p as [|c p IH]; cbn [String.append]; [tauto|]. intros [= H]. exact (IH H). Qed.

Lemma toString_inj (a b : Z) : Num.toString (Int a) = Num.toString (Int b) -> a = b.
Proof.
  intros H. apply (f_equal Num.parseInt) in H.
  rewrite !NumFacts.parseInt_toString in H. congruence.
Qed.

Lemma parseInt_print_uint_app (u : Decimal.uint) (rest : string) :
  u <> Nil -> Num.no_digit_head rest ->
  Num.parseInt (NilEmpty.string_of_uint u +:+ rest) = Int (Z.of_int (Pos u)).
Proof.
  intros Hu Hrest. destruct (NumFacts.print_head u Hu) as (c & r & E & Hc).
  destruct (NumFacts.digit_not_space c Hc) as (Hw & Hm & Hp).
  unfold Num.parseInt. rewrite E. cbn [String.append JsString.trimStart]. rewrite Hw, Hm, Hp.
  change (String c (r +:+ rest)) with (String c r +:+ rest).
  rewrite <- E, NumFacts.digits_prefix_print by exact Hrest. cbn [fst].
  destruct u; [congruence|..]; reflexivity.
Qed.

Lemma parseInt_print_neg_app (u : Decimal.uint) (rest : string) :
  u <> Nil -> Num.no_digit_head rest ->
  Num.parseInt (String "-" (NilEmpty.string_of_uint u) +:+ rest) = Int (Z.of_int (Neg u)).
Proof.
  intros Hu Hrest. unfold Num.parseInt. cbn [String.append JsString.trimStart].
  change (JsString.is_whitespace "-") with false. cbn iota.
  change (Ascii.eqb "-" "-") with true. cbn iota.
  rewrite NumFacts.digits_prefix_print by exact Hrest. cbn [fst].
  destruct u; [congruence|..]; reflexivity.
Qed.

(** [parseInt] reads a printed number back whatever follows it, as
    long as it is not a digit. *)
Lemma parseInt_toString_app (z : Z) (rest : string) :
  Num.no_digit_head rest -> Num.parseInt (Num.toString (Int z) +:+ rest) = Int z.
Proof.
  intros Hrest. rewrite <- (DecimalZ.of_to z) at 2. unfold Num.toString.
  destruct z as [|p|p]; [destruct rest; cbn in *; [reflexivity|]|..].
  - apply (parseInt_print_uint_app (D0 Nil)); [discriminate | exact Hrest].
  - cbn [Z.to_int NilZero.string_of_int].
    pose proof (DecimalPos.Unsigned.to_uint_nonnil p) as Hn.
    unfold NilZero.string_of_uint.
    destruct (Pos.to_uint p) eqn:E; try congruence; rewrite <- E in *;
      apply parseInt_print_uint_app; assumption.
  - cbn [Z.to_int NilZero.string_of_int].
    pose proof (DecimalPos.Unsigned.to_uint_nonnil p) as Hn.
    unfold NilZero.string_of_uint.
    destruct (Pos.to_uint p) eqn:E; try congruence; rewrite <- E in *;
      apply parseInt_print_neg_app; assumption.
Qed.

Lemma vector_id_inj (documentId : string) (t1 t2 : Z) (i j : nat) :
  vector_id documentId t1 i = vector_id documentId t2 j -> t1 = t2 /\ i = j.
Proof.
  unfold vector_id. intros H. apply append_cancel_l in H.
  cbn [String.append] in H. injection H as H.
  assert (Ht : t1 = t2).
  { apply (f_equal Num.parseInt) in H.
    rewrite !parseInt_toString_app in H by reflexivity. congruence. }
  subst t2. split; [reflexivity|].
  apply append_cancel_l in H. cbn [String.append] in H. injection H as H.
  apply toString_inj in H. lia.
Qed.


Lemma make_vectors_lookup md t chunkMetadata data idx :
  make_vectors md t chunkMetadata data !! idx
  = (fun e => {| id := vector_id (documentId md) t idx;
                 values := e;
                 metadata := chunkMetadata !! idx |}) <$> data !! idx.
Proof. unfold make_vectors. apply list_lookup_imap. Qed.

Lemma make_vectors_ids_lookup md t chunkMetadata data idx :
  map id (make_vectors md t chunkMetadata data) !! idx
  = (fun _ => vector_id (documentId md) t idx) <$> data !! idx.
Proof.
  change (map id ?l) with (id <$> l). rewrite list_lookup_fmap, make_vectors_lookup.
  destruct (data !! idx); reflexivity.
Qed.

Lemma make_vectors_ids_NoDup md t chunkMetadata data :
  NoDup (map id (make_vectors md t chunkMetadata data)).
Proof.
  apply NoDup_alt. intros i j x Hi Hj.
  rewrite make_vectors_ids_lookup in Hi, Hj.
  destruct (data !! i); [|discriminate]. destruct (data !! j); [|discriminate].
  cbn in Hi, Hj. injection Hi as <-. injection Hj as Hj.
  symmetry in Hj. apply vector_id_inj in Hj. tauto.
Qed.

(** The index after an upsert of vectors with pairwise distinct ids. *)
Lemma upsert_lookup (vectors : list VectorizeVector) (i : gmap string VectorizeVector) :
  NoDup (map id vectors) ->
  (forall v, v ∈ vectors -> fold_left (fun i v => <[id v := v]> i) vectors i !! id v = Some v)
  /\ (forall k, k ∉ map id vectors ->
        fold_left (fun i v => <[id v := v]> i) vectors i !! k = i !! k).
Proof.
  revert i. induction vectors as [|v0 rest IH]; intros i Hnd.
  - split; [intros v Hv; inversion Hv | reflexivity].
  - cbn [map] in Hnd. apply NoDup_cons in Hnd as [Hfresh Hnd]. cbn [fold_left].
    destruct (IH (<[id v0 := v0]> i) Hnd) as [IH1 IH2]. split.
    + intros v Hv. apply elem_of_cons in Hv as [->|Hv]; [|exact (IH1 v Hv)].
      rewrite IH2 by exact Hfresh. apply lookup_insert_eq.
    + intros k Hk. cbn [map] in Hk. apply not_elem_of_cons in Hk as [Hne Hk].
      rewrite IH2 by exact Hk. apply lookup_insert_ne. congruence.
Qed.

Lemma deleteByIds_lookup (ids : list string) (i : gmap string VectorizeVector) (k : string) :
  fold_left (fun i k => delete k i) ids i !! k = if decide (k ∈ ids) then None else i !! k.
Proof.
  revert i. induction ids as [|k0 rest IH]; intros i; cbn [fold_left].
  - rewrite decide_False by (intros H; inversion H). reflexivity.
  - rewrite IH. destruct (decide (k ∈ rest)) as [Hin|Hout].
    + rewrite decide_True by (right; exact Hin). reflexivity.
    + destruct (decide (k = k0)) as [->|Hne].
      * rewrite decide_True by left. apply lookup_delete_eq.
      * rewrite decide_False by (intros H; apply elem_of_cons in H as [?|?]; auto).
        apply lookup_delete_ne. congruence.
Qed.


(** ** The runs of [embedAndStore] on a platform that does not fail *)

Lemma embedAndStore_stored (env : Env) (texts : list string) (md : EmbedMetadata)
    (data : list embedding) (w : World) (c : Z) :
  fault_free env ->
  counter_is env w c ->
  requested md texts w <= 100 - c ->
  embed_answer env md texts w = AiData data ->
  let vectors := make_vectors md (now w) (chunks_in md texts w) data in
  let newCount := Z.max 0 (c + Z.of_nat (length vectors)) in
  exists w1,
    embedAndStore texts md env w
    = (Ok {| EmbedResponse.success := true;
             EmbedResponse.vectorIds := Some (map id vectors);
             EmbedResponse.error := None |}, w1)
    /\ namespace w1 (DOC_METADATA env)
       = <[documentId md :=
             Json.stringify (docMetadata md (JsDate.toISOString (now w)) vectors)]>
           (<[VECTOR_COUNT_KEY := Num.toString (Int newCount)]>
              (namespace w (DOC_METADATA env)))
    /\ (forall ns, ns <> DOC_METADATA env -> namespace w1 ns = namespace w ns)
    /\ index w1 = fold_left (fun i v => <[id v := v]> i) vectors (index w)
    /\ now w1 = now w.
Proof.
  intros Hq Hc Hn Hai vectors newCount. unfold embed_answer in Hai.
  unfold embedAndStore, try_catch, embedAndStore_try.
  rewrite bind_run. cbn [Date_toISOString gets].
  fold (chunks_in md texts w). rewrite count_of_allChunks.
  rewrite bind_run. unfold checkVectorQuota.
  rewrite bind_run, getVectorCount_run by apply Hq.
  rewrite (counter_is_stored env w c Hc).
  cbn [ret Num.sub Num.le QuotaCheck.allowed QuotaCheck.currentCount].
  replace (requested md texts w <=? MAX_VECTORS - c) with true
    by (symmetry; apply Z.leb_le; unfold MAX_VECTORS; lia).
  cbn [negb]. rewrite bind_run, ai_run_run by apply Hq.
  change (calls (tick w)) with (S (calls w)). rewrite Hai.
  rewrite bind_run. cbn [Date_now gets now tick]. fold vectors.
  rewrite bind_run, index_upsert_run by apply Hq.
  rewrite bind_run, updateVectorCount_run by (intros; apply Hq).
  cbv zeta. rewrite stored_count_set_index, !stored_count_tick.
  rewrite (counter_is_stored env w c Hc).
  cbn [count_of Num.add Num.max]. fold newCount.
  rewrite bind_run, emitQuotaMetric_run.
  rewrite bind_run. cbn [Date_toISOString gets].
  rewrite bind_run, kv_put_run by apply Hq.
  eexists. split; [reflexivity|].
  rewrite namespace_set_same. cbn [now log set_namespace tick set_index].
  rewrite namespace_log, namespace_set_same.
  cbn [index console log set_namespace tick set_index].
  split; [reflexivity|]. split; [|split; reflexivity].
  intros ns Hns.
  repeat first [ rewrite namespace_set_other by congruence | rewrite namespace_tick
               | rewrite namespace_log | rewrite namespace_set_index ].
  reflexivity.
Qed.

(** A batch that is not admitted, or whose embeddings do not come
    back as an array, leaves both stores as they were. *)
Lemma embedAndStore_refused (env : Env) (texts : list string) (md : EmbedMetadata)
    (w : World) (c : Z) :
  fault_free env ->
  counter_is env w c ->
  100 - c < requested md texts w
  \/ (forall data, embed_answer env md texts w <> AiData data) ->
  exists r w1,
    embedAndStore texts md env w = (Ok r, w1)
    /\ EmbedResponse.success r = false
    /\ kv w1 = kv w /\ index w1 = index w.
Proof.
  intros Hq Hc Hcase. unfold embed_answer in Hcase.
  unfold embedAndStore, try_catch, embedAndStore_try.
  rewrite bind_run. cbn [Date_toISOString gets].
  fold (chunks_in md texts w). rewrite count_of_allChunks.
  rewrite bind_run. unfold checkVectorQuota.
  rewrite bind_run, getVectorCount_run by apply Hq.
  rewrite (counter_is_stored env w c Hc).
  cbn [ret Num.sub Num.le QuotaCheck.allowed QuotaCheck.currentCount].
  destruct (requested md texts w <=? MAX_VECTORS - c) eqn:Hle; cbn [negb].
  - destruct Hcase as [Hgt|Hshape];
      [apply Z.leb_le in Hle; unfold MAX_VECTORS in Hle; lia|].
    rewrite bind_run, ai_run_run by apply Hq.
    change (calls (tick w)) with (S (calls w)).
    destruct (AI env _ _ _) as [| | |data] eqn:Hai;
      try (eexists _, _; split; [reflexivity|]; cbn; repeat split; reflexivity).
    destruct (Hshape data eq_refl).
  - eexists _, _. split; [reflexivity|]. cbn. repeat split; reflexivity.
Qed.


(** X6. An admitted ingestion on a platform that does not fail stores
    one vector per embedding returned: the ids it answers with are
    pairwise distinct, the vector under the id of position [idx] holds
    the embedding of that position and the metadata of the chunk of that
    position, every other vector of the index is as it was, and the
    record read back under the document id lists exactly these ids. *)
Theorem embedAndStore_stores_each_vector (env : Env) (texts : list string)
    (md : EmbedMetadata) (data : list embedding) (w : World) (c : Z) :
  fault_free env ->
  counter_is env w c ->
  requested md texts w <= 100 - c ->
  embed_answer env md texts w = AiData data ->
  exists ids w1,
    embedAndStore texts md env w
    = (Ok {| EmbedResponse.success := true;
             EmbedResponse.vectorIds := Some ids;
             EmbedResponse.error := None |}, w1)
    /\ length ids = length data
    /\ NoDup ids
    /\ (forall idx e,
          data !! idx = Some e ->
          ids !! idx = Some (vector_id (documentId md) (now w) idx)
          /\ index w1 !! vector_id (documentId md) (now w) idx
             = Some {| id := vector_id (documentId md) (now w) idx;
                       values := e;
                       metadata := chunks_in md texts w !! idx |})
    /\ (forall k, k ∉ ids -> index w1 !! k = index w !! k)
    /\ (text ← namespace w1 (DOC_METADATA env) !! documentId md; Json.parse text)
       = Some (JObj [ ("name", JStr (documentName md));
                      ("type", JStr (documentType md));
                      ("chunksCount", JNum (Z.of_nat (length data)));
                      ("uploadedAt", JStr (JsDate.toISOString (now w)));
                      ("vectorIds", JArr (map JStr ids)) ]).
Proof.
  intros Hq Hc Hn Hai.
  destruct (embedAndStore_stored env texts md data w c Hq Hc Hn Hai)
    as (w1 & Hrun & Hns & _ & Hidx & _).
  set (vectors := make_vectors md (now w) (chunks_in md texts w) data) in *.
  pose proof (make_vectors_ids_NoDup md (now w) (chunks_in md texts w) data) as Hnd.
  fold vectors in Hnd.
  destruct (upsert_lookup vectors (index w) Hnd) as [Hin Hout].
  exists (map id vectors), w1. split; [exact Hrun|].
  split; [rewrite length_map; apply make_vectors_length|].
  split; [exact Hnd|]. split; [|split].
  - intros idx e He. split.
    + unfold vectors. rewrite make_vectors_ids_lookup, He. reflexivity.
    + rewrite Hidx.
      pose proof (make_vectors_lookup md (now w) (chunks_in md texts w) data idx) as Hv.
      rewrite He in Hv. cbn in Hv. fold vectors in Hv.
      apply (Hin _ (list_elem_of_lookup_2 _ _ _ Hv)).
  - intros k Hk. rewrite Hidx. apply Hout, Hk.
  - rewrite Hns, lookup_insert_eq. cbn. rewrite JsonFacts.parse_stringify.
    unfold docMetadata. rewrite map_map. unfold vectors at 1.
    rewrite make_vectors_length. reflexivity.
Qed.


(** ** The runs of [deleteDocumentVectors] on a platform that does not fail *)

(** X8. Ingestion keeps the counter within the capacity: on a platform
    that does not fail, with an embedding service that answers with one
    embedding per text whenever it answers with an array, a counter
    holding [0 <= c <= 100] holds [c] plus the number of chunks after a
    success and [c] after a failure, and never more than 100. *)
Theorem embedAndStore_keeps_quota_invariant (env : Env) (texts : list string)
    (md : EmbedMetadata) (w : World) (c : Z) :
  fault_free env ->
  (forall calls_before model texts' data,
      AI env calls_before model texts' = AiData data -> length data = length texts') ->
  counter_is env w c ->
  0 <= c <= 100 ->
  documentId md <> VECTOR_COUNT_KEY ->
  exists r w' c',
    embedAndStore texts md env w = (Ok r, w')
    /\ counter_is env w' c'
    /\ c' = c + (if EmbedResponse.success r then requested md texts w else 0)
    /\ 0 <= c' <= 100.
Proof.
  intros Hq Haligned Hc Hrange Hkey.
  assert (Hreq : 0 <= requested md texts w) by (unfold requested; lia).
  destruct (Z_lt_le_dec (100 - c) (requested md texts w)) as [Hgt|Hle].
  { destruct (embedAndStore_refused env texts md w c Hq Hc (or_introl Hgt))
      as (r & w1 & Hrun & Hfail & Hkv & _).
    exists r, w1, c. split; [exact Hrun|]. rewrite Hfail.
    split; [|lia]. unfold counter_is, namespace in *. rewrite Hkv. exact Hc. }
  destruct (embed_answer env md texts w) as [| | |data] eqn:Hai.
  4:{ destruct (embedAndStore_stored env texts md data w c Hq Hc Hle Hai)
        as (w1 & Hrun & Hns & _).
      pose proof (Haligned _ _ _ _ Hai) as Hlen.
      rewrite make_vectors_length, Hlen, length_map in Hns.
      fold (requested md texts w) in Hns.
      eexists _, w1, (c + requested md texts w). split; [exact Hrun|].
      cbn [EmbedResponse.success]. split; [|lia].
      left. rewrite Hns, lookup_insert_ne by congruence.
      rewrite lookup_insert_eq. do 3 f_equal. lia. }
  all: destruct (embedAndStore_refused env texts md w c Hq Hc)
         as (r & w1 & Hrun & Hfail & Hkv & _);
         [right; intros data; rewrite Hai; discriminate|];
       exists r, w1, c; (split; [exact Hrun|]); rewrite Hfail;
       (split; [|lia]); unfold counter_is, namespace in *; rewrite Hkv; exact Hc.
Qed.

(** X9. Deleting a document twice: on a platform that does not fail,
    the first deletion of a document whose record lists vector ids
    removes them, and a second deletion, at any later time, is a
    success that removes nothing and leaves the KV store, the index and
    the console as the first one left them. *)
Theorem deleteDocumentVectors_twice (env : Env) (documentId : string) (w : World)
    (text : string) (record : json) (ids : list string) (c later : Z) :
  fault_free env ->
  namespace w (DOC_METADATA env) !! documentId = Some text ->
  Json.parse text = Some record ->
  Json.truthy record = true ->
  Json.prop "vectorIds" record = Some (JArr (map JStr ids)) ->
  counter_is env w c ->
  exists w1 w2,
    deleteDocumentVectors documentId env w
    = (Ok {| DeleteResult.success := true;
             DeleteResult.deletedCount := Int (Z.of_nat (length ids));
             DeleteResult.error := None |}, w1)
    /\ deleteDocumentVectors documentId env (at_time later w1)
       = (Ok {| DeleteResult.success := true;
                DeleteResult.deletedCount := Int 0;
                DeleteResult.error := None |}, w2)
    /\ kv w2 = kv w1 /\ index w2 = index w1 /\ console w2 = console w1.
Proof.
  intros Hq Htext Hparse Htruthy Hids Hc.
  destruct (deleteDocumentVectors_listed env documentId w text record ids c
              Hq Htext Hparse Htruthy Hids Hc) as (w1 & Hrun & Hns & _ & _).
  exists w1, (tick (at_time later w1)). split; [exact Hrun|].
  unfold deleteDocumentVectors, try_catch, deleteDocumentVectors_try.
  rewrite bind_run, kv_get_json_run by apply Hq.
  rewrite namespace_at_time, Hns, lookup_delete_eq. repeat split; reflexivity.
Qed.



Lemma make_vectors_ids_elem md t chunkMetadata data k :
  k ∈ map id (make_vectors md t chunkMetadata data) ->
  exists idx, k = vector_id (documentId md) t idx.
Proof.
  intros H. apply list_elem_of_lookup_1 in H as [idx H].
  rewrite make_vectors_ids_lookup in H. destruct (data !! idx); [|discriminate].
  injection H as <-. exists idx. reflexivity.
Qed.

(** X11. Ingesting again under the id of a stored document overwrites
    its record, and the vectors of the first ingestion are then listed
    nowhere: on a platform that does not fail, after two admitted
    ingestions under one document id at different times and the
    deletion of the document, only the vectors of the second ingestion
    are removed; those of the first are still in the index and still
    in the count, with no record left. *)
Theorem reingest_orphans_first_batch (env : Env) (md : EmbedMetadata)
    (texts1 texts2 : list string) (data1 data2 : list embedding)
    (w : World) (c t2 t3 : Z) :
  fault_free env ->
  counter_is env w c ->
  0 <= c ->
  documentId md <> VECTOR_COUNT_KEY ->
  t2 <> now w ->
  let chunks1 := chunk_all md (JsDate.toISOString (now w)) texts1 in
  let chunks2 := chunk_all md (JsDate.toISOString t2) texts2 in
  let N1 := Z.of_nat (length data1) in
  let N2 := Z.of_nat (length data2) in
  (forall calls_before, AI env calls_before EMBED_MODEL (map fullChunk chunks1) = AiData data1) ->
  (forall calls_before, AI env calls_before EMBED_MODEL (map fullChunk chunks2) = AiData data2) ->
  Z.of_nat (length chunks1) <= 100 - c ->
  Z.of_nat (length chunks2) <= 100 - (c + N1) ->
  exists ids1 ids2 w1 w2 w3,
    embedAndStore texts1 md env w
    = (Ok {| EmbedResponse.success := true;
             EmbedResponse.vectorIds := Some ids1;
             EmbedResponse.error := None |}, w1)
    /\ embedAndStore texts2 md env (at_time t2 w1)
       = (Ok {| EmbedResponse.success := true;
                EmbedResponse.vectorIds := Some ids2;
                EmbedResponse.error := None |}, w2)
    /\ deleteDocumentVectors (documentId md) env (at_time t3 w2)
       = (Ok {| DeleteResult.success := true;
                DeleteResult.deletedCount := Int N2;
                DeleteResult.error := None |}, w3)
    /\ Z.of_nat (length ids1) = N1
    /\ (forall vid, vid ∈ ids1 -> is_Some (index w3 !! vid))
    /\ stored_count env w3 = Int (c + N1)
    /\ namespace w3 (DOC_METADATA env) !! documentId md = None.
Proof.
  intros Hq Hc Hpos Hkey Htime chunks1 chunks2 N1 N2 Hai1 Hai2 Hn1 Hn2.
  destruct (embedAndStore_stored env texts1 md data1 w c Hq Hc Hn1 (Hai1 _))
    as (w1 & Hrun1 & Hns1 & _ & Hidx1 & Hnow1).
  fold chunks1 in Hrun1, Hns1, Hidx1.
  change (chunks_in md texts1 w) with chunks1 in Hrun1, Hns1, Hidx1.
  set (vectors1 := make_vectors md (now w) chunks1 data1) in *.
  assert (Hlen1 : Z.of_nat (length vectors1) = N1)
    by (unfold vectors1; rewrite make_vectors_length; reflexivity).
  rewrite Hlen1 in Hns1. replace (Z.max 0 (c + N1)) with (c + N1) in Hns1 by lia.
  assert (Hc1 : counter_is env (at_time t2 w1) (c + N1)).
  { left. rewrite namespace_at_time, Hns1, lookup_insert_ne by congruence.
    apply lookup_insert_eq. }
  destruct (embedAndStore_stored env texts2 md data2 (at_time t2 w1) (c + N1)
              Hq Hc1 Hn2 (Hai2 _))
    as (w2 & Hrun2 & Hns2 & _ & Hidx2 & _).
  change (chunks_in md texts2 (at_time t2 w1)) with chunks2 in Hrun2, Hns2, Hidx2.
  change (now (at_time t2 w1)) with t2 in Hrun2, Hns2, Hidx2.
  set (vectors2 := make_vectors md t2 chunks2 data2) in *.
  assert (Hlen2 : Z.of_nat (length vectors2) = N2)
    by (unfold vectors2; rewrite make_vectors_length; reflexivity).
  rewrite Hlen2 in Hns2.
  replace (Z.max 0 (c + N1 + N2)) with (c + N1 + N2) in Hns2 by lia.
  destruct (deleteDocumentVectors_listed env (documentId md) (at_time t3 w2)
              _ _ (map id vectors2) (c + N1 + N2) Hq
              ltac:(rewrite namespace_at_time, Hns2; apply lookup_insert_eq)
              (JsonFacts.parse_stringify _) eq_refl
              (docMetadata_vectorIds _ _ _)
              ltac:(left; rewrite namespace_at_time, Hns2, lookup_insert_ne by congruence;
                    apply lookup_insert_eq))
    as (w3 & Hdel & Hns3 & Hidx3 & _).
  rewrite length_map, Hlen2 in Hdel, Hns3.
  replace (Z.max 0 (c + N1 + N2 - N2)) with (c + N1) in Hns3 by lia.
  exists (map id vectors1), (map id vectors2), w1, w2, w3.
  split; [exact Hrun1|]. split; [exact Hrun2|]. split; [exact Hdel|].
  split; [rewrite length_map; exact Hlen1|]. split; [|split].
  - intros vid Hvid.
    pose proof (make_vectors_ids_NoDup md (now w) chunks1 data1) as Hnd1.
    pose proof (make_vectors_ids_NoDup md t2 chunks2 data2) as Hnd2.
    fold vectors1 in Hnd1. fold vectors2 in Hnd2.
    assert (Hout : vid ∉ map id vectors2).
    { intros Hin. apply make_vectors_ids_elem in Hvid as [i ->].
      apply make_vectors_ids_elem in Hin as [j Hij].
      apply vector_id_inj in Hij as [Ht _]. congruence. }
    rewrite Hidx3, deleteByIds_lookup, decide_False by exact Hout.
    cbn [index at_time]. rewrite Hidx2, (proj2 (upsert_lookup vectors2 _ Hnd2)) by exact Hout.
    cbn [index at_time]. rewrite Hidx1.
    change (map id vectors1) with (id <$> vectors1) in Hvid.
    apply list_elem_of_fmap in Hvid as (v & -> & Hv).
    rewrite (proj1 (upsert_lookup vectors1 _ Hnd1) v Hv). eauto.
  - apply stored_count_of_text. rewrite Hns3, lookup_delete_ne by congruence.
    apply lookup_insert_eq.
  - rewrite Hns3. apply lookup_delete_eq.
Qed.

End LifecycleFacts.

Module DateFacts.
Import JsDate DateViews.

Lemma all_from_spec (ok : Z -> bool) (count : nat) (from : Z) :
  all_from ok count from = true ->
  forall n, from <= n < from + Z.of_nat count -> ok n = true.
Proof.
  revert from. induction count as [|k IH]; intros from H n Hn; [lia|].
  cbn [all_from] in H. destruct (ok from) eqn:E; [|discriminate].
  destruct (Z.eq_dec n from) as [->|Hne]; [exact E|].
  apply (IH (from + 1) H). lia.
Qed.

Lemma era_checked : all_from doe_ok (Z.to_nat 146097) 0 = true.
Proof. vm_cast_no_check (eq_refl true). Qed.

Lemma doe_ok_all (doe : Z) : 0 <= doe < 146097 -> doe_ok doe = true.
Proof. intros H. apply (all_from_spec _ _ _ era_checked). lia. Qed.

Lemma pads2_checked : all_from (pad_ok 2) (Z.to_nat 100) 0 = true.
Proof. vm_cast_no_check (eq_refl true). Qed.

Lemma pads3_checked : all_from (pad_ok 3) (Z.to_nat 1000) 0 = true.
Proof. vm_cast_no_check (eq_refl true). Qed.

Lemma pads4_checked : all_from (pad_ok 4) (Z.to_nat 10000) 0 = true.
Proof. vm_cast_no_check (eq_refl true). Qed.


Lemma civil_from_days_era (n : Z) :
  let era := (n + 719468) / 146097 in
  let doe := n + 719468 - era * 146097 in
  civil_from_days n
  = let '(yoe, m, d) := civil_of_doe doe in
    (yoe + era * 400 + (if m <=? 2 then 1 else 0), m, d).
Proof. reflexivity. Qed.

Lemma days_in_month_era (y era m : Z) :
  days_in_month (y + era * 400) m = days_in_month y m.
Proof.
  unfold days_in_month.
  replace ((y + era * 400) mod 4) with (y mod 4)
    by (replace (y + era * 400) with (y + era * 100 * 4) by lia;
        symmetry; apply Z.mod_add; lia).
  replace ((y + era * 400) mod 100) with (y mod 100)
    by (replace (y + era * 400) with (y + era * 4 * 100) by lia;
        symmetry; apply Z.mod_add; lia).
  replace ((y + era * 400) mod 400) with (y mod 400)
    by (symmetry; apply Z.mod_add; lia).
  reflexivity.
Qed.

(** The calendar date of a day of the years 0 to 9999 is a valid date
    of that range, and [days_from_civil] gives the day back. *)
Lemma civil_round_trip (n : Z) :
  -719528 <= n <= 2932896 ->
  let '(y, m, d) := civil_from_days n in
  0 <= y <= 9999 /\ 1 <= m <= 12 /\ 1 <= d <= days_in_month y m
  /\ days_from_civil y m d = n.
Proof.
  intros Hn. rewrite civil_from_days_era. cbv zeta.
  set (era := (n + 719468) / 146097).
  set (doe := n + 719468 - era * 146097).
  assert (Hera : -1 <= era <= 24).
  { assert (era < 25) by (unfold era; apply Z.div_lt_upper_bound; lia).
    assert (-1 <= era) by (unfold era; apply Z.div_le_lower_bound; lia). lia. }
  assert (Hdoe : 0 <= doe < 146097).
  { unfold doe, era. pose proof (Z.mod_pos_bound (n + 719468) 146097 ltac:(lia)) as Hm.
    rewrite Z.mod_eq in Hm by lia. lia. }
  pose proof (doe_ok_all doe Hdoe) as Hok. unfold doe_ok in Hok.
  destruct (civil_of_doe doe) as [[yoe m] d].
  set (adj := if m <=? 2 then 1 else 0) in *.
  repeat (apply andb_prop in Hok as [Hok ?]).
  repeat match goal with
         | H : (_ <=? _) = true |- _ => apply Z.leb_le in H
         | H : (_ =? _) = true |- _ => apply Z.eqb_eq in H
         end.
  assert (Hyear : 0 <= yoe + era * 400 + adj <= 9999).
  { destruct (doe <? 146037) eqn:E.
    - apply Z.ltb_lt in E. match goal with H : (_ <=? _) = true |- _ => apply Z.leb_le in H end.
      assert (0 <= adj <= 1) by (unfold adj; destruct (m <=? 2); lia).
      assert (era <> -1) by (unfold doe in E; lia).
      assert (era < 24 \/ era = 24) as [?|?] by lia; lia.
    - apply Z.ltb_ge in E. match goal with H : (_ =? _) = true |- _ => apply Z.eqb_eq in H end.
      assert (era <> 24) by (unfold doe in E; lia). lia. }
  split; [exact Hyear|]. split; [lia|].
  replace (yoe + era * 400 + adj) with (yoe + adj + era * 400) by lia.
  rewrite days_in_month_era. split; [lia|].
  unfold days_from_civil. cbv zeta. fold adj.
  replace (if m <=? 2 then yoe + adj + era * 400 - 1 else yoe + adj + era * 400)
    with (yoe + era * 400) by (unfold adj; destruct (m <=? 2); lia).
  replace ((yoe + era * 400) / 400) with era
    by (rewrite Z.div_add by lia; rewrite Z.div_small by lia; lia).
  replace (yoe + era * 400 - era * 400) with yoe by lia.
  unfold doe in *. lia.
Qed.


Lemma field_app (width : nat) (acc : Z) (s : string) (v : Z) (r rest : string) :
  field width acc s = Some (v, r) -> field width acc (s +:+ rest) = Some (v, r +:+ rest).
Proof.
  revert acc s. induction width as [|k IH]; intros acc s; cbn [field].
  - intros [= -> ->]. reflexivity.
  - destruct s as [|c s]; [discriminate|]. cbn [String.append].
    destruct ((48 <=? nat_of_ascii c) && (nat_of_ascii c <=? 57))%nat; [apply IH | discriminate].
Qed.

Lemma field_pad_checked (width : nat) (bound : Z) (n : Z) (rest : string) :
  all_from (pad_ok width) (Z.to_nat bound) 0 = true ->
  0 <= n < bound ->
  field width 0 (pad width n +:+ rest) = Some (n, rest).
Proof.
  intros Hall Hn. pose proof (all_from_spec _ _ _ Hall n ltac:(lia)) as Hok.
  unfold pad_ok in Hok.
  destruct (field width 0 (pad width n)) as [[v [|? ?]]|] eqn:E; try discriminate.
  apply Z.eqb_eq in Hok. subst v. exact (field_app _ _ _ _ _ rest E).
Qed.

Lemma field_pad2 (n : Z) (rest : string) :
  0 <= n < 100 -> field 2 0 (pad 2 n +:+ rest) = Some (n, rest).
Proof. exact (field_pad_checked 2 100 n rest pads2_checked). Qed.

Lemma field_pad3 (n : Z) (rest : string) :
  0 <= n < 1000 -> field 3 0 (pad 3 n +:+ rest) = Some (n, rest).
Proof. exact (field_pad_checked 3 1000 n rest pads3_checked). Qed.

Lemma field_pad4 (n : Z) (rest : string) :
  0 <= n < 10000 -> field 4 0 (pad 4 n +:+ rest) = Some (n, rest).
Proof. exact (field_pad_checked 4 10000 n rest pads4_checked). Qed.

Lemma expect_head (c : ascii) (r : string) : expect c (String c r) = Some r.
Proof. cbn [expect]. rewrite Ascii.eqb_refl. reflexivity. Qed.

Lemma days_in_month_le (y m : Z) : days_in_month y m <= 31.
Proof.
  unfold days_in_month.
  repeat match goal with |- context [if ?b then _ else _] => destruct b end; lia.
Qed.

#[local] Arguments pad : simpl never.
#[local] Arguments field : simpl never.
#[local] Arguments days_from_civil : simpl never.
#[local] Arguments days_in_month : simpl never.

(** [Date.parse] of [toISOString]: the time value, for every time of
    the years 0 to 9999. *)
Lemma parse_iso_toISOString (ms : Z) :
  -62167219200000 <= ms <= 253402300799999 ->
  parse_iso (toISOString ms) = Some ms.
Proof.
  intros Hms. unfold toISOString, ms_per_day.
  assert (Hday : -719528 <= ms / 86400000 <= 2932896).
  { split; [apply Z.div_le_lower_bound | apply Z.lt_succ_r, Z.div_lt_upper_bound]; lia. }
  pose proof (civil_round_trip _ Hday) as Hcivil.
  destruct (civil_from_days (ms / 86400000)) as [[y m] d].
  destruct Hcivil as (Hy & Hm & Hd & Hback).
  pose proof (days_in_month_le y m) as Hdim.
  pose proof (Z.mod_pos_bound ms 86400000 ltac:(lia)) as Ht.
  set (t := ms mod 86400000) in *.
  assert (Hhh : 0 <= t / 3600000 < 24)
    by (split; [apply Z.div_pos | apply Z.div_lt_upper_bound]; lia).
  pose proof (Z.mod_pos_bound (t / 60000) 60 ltac:(lia)) as Hmm.
  pose proof (Z.mod_pos_bound (t / 1000) 60 ltac:(lia)) as Hss.
  pose proof (Z.mod_pos_bound t 1000 ltac:(lia)) as Hmsec.
  unfold year_string.
  replace ((0 <=? y) && (y <=? 9999)) with true by (symmetry; apply andb_true_iff; lia).
  unfold parse_iso.
  rewrite field_pad4 by lia. cbn [mbind option_bind String.append]. rewrite expect_head.
  cbn [mbind option_bind].
  rewrite field_pad2 by lia. cbn [mbind option_bind String.append]. rewrite expect_head.
  cbn [mbind option_bind].
  rewrite field_pad2 by lia. cbn [mbind option_bind String.append]. rewrite expect_head.
  cbn [mbind option_bind].
  rewrite field_pad2 by lia. cbn [mbind option_bind String.append]. rewrite expect_head.
  cbn [mbind option_bind].
  rewrite field_pad2 by lia. cbn [mbind option_bind String.append]. rewrite expect_head.
  cbn [mbind option_bind].
  rewrite field_pad2 by lia. cbn [mbind option_bind String.append]. rewrite expect_head.
  cbn [mbind option_bind].
  rewrite field_pad3 by lia. cbn [mbind option_bind String.append]. rewrite expect_head.
  cbn [mbind option_bind].
  replace ((1 <=? m) && (m <=? 12) && (1 <=? d) && (d <=? days_in_month y m)
           && (t / 3600000 <=? 23) && (t / 60000 mod 60 <=? 59) && (t / 1000 mod 60 <=? 59))
    with true by (symmetry; rewrite !andb_true_iff; lia).
  f_equal. rewrite Hback. unfold ms_per_day.
  pose proof (Z.div_mod ms 86400000 ltac:(lia)) as E0. fold t in E0.
  pose proof (Z.div_mod t 3600000 ltac:(lia)) as E1.
  pose proof (Z.div_mod t 60000 ltac:(lia)) as E2.
  pose proof (Z.div_mod (t / 60000) 60 ltac:(lia)) as E3.
  pose proof (Z.div_mod t 1000 ltac:(lia)) as E4.
  pose proof (Z.div_mod (t / 1000) 60 ltac:(lia)) as E5.
  assert (E6 : t / 60000 / 60 = t / 3600000) by (rewrite Z.div_div by lia; reflexivity).
  assert (E7 : t / 1000 / 60 = t / 60000) by (rewrite Z.div_div by lia; reflexivity).
  lia.
Qed.

End DateFacts.

Module AgeFacts.
Import Platform Vectorize Cleanup PlatformFacts QuotaFacts DeleteFacts RoundTripFacts CleanupFacts.
Import DateFacts.

#[local] Arguments Json.parse : simpl never.
#[local] Arguments Json.stringify : simpl never.
#[local] Arguments Num.toString : simpl never.
#[local] Arguments JsDate.toISOString : simpl never.
#[local] Arguments JsDate.parse_iso : simpl never.
#[local] Arguments namespace : simpl never.

Lemma toISOString_truthy (t : Z) : JsString.truthy (JsDate.toISOString t) = true.
Proof.
  unfold JsDate.toISOString.
  destruct (JsDate.civil_from_days _) as [[y m] d].
  destruct (JsDate.year_string y); reflexivity.
Qed.

Lemma time_of_toISOString (other : string -> number) (t : Z) :
  -62167219200000 <= t <= 253402300799999 ->
  JsDate.time_of_json other (JStr (JsDate.toISOString t)) = Int t.
Proof.
  intros Ht. cbn [JsDate.time_of_json]. unfold JsDate.parse.
  rewrite (parse_iso_toISOString t Ht). reflexivity.
Qed.

Lemma over_age_ingested (env : Env) (md : EmbedMetadata) (vectors : list VectorizeVector)
    (t : Z) (cutoff : number) :
  -62167219200000 <= t <= 253402300799999 ->
  over_age env cutoff (docMetadata md (JsDate.toISOString t) vectors) = Num.lt (Int t) cutoff.
Proof.
  intros Ht. unfold over_age, docMetadata.
  cbn [Json.truthy Json.prop Json.member String.eqb Ascii.eqb Bool.eqb andb].
  rewrite toISOString_truthy, (time_of_toISOString _ t Ht). reflexivity.
Qed.

(** X12. The upload time [embedAndStore] writes into a record is the
    time the sweep reads from it: for every time [t] of the years 0 to
    9999, every cutoff and whatever the engine makes of other date
    formats, the sweep reads [t] back and takes the record written at
    [t] for over age exactly when [t] is before the cutoff. *)
Theorem ingested_record_age_exact (env : Env) (md : EmbedMetadata)
    (vectors : list VectorizeVector) (t cutoff : Z) :
  -62167219200000 <= t <= 253402300799999 ->
  (uploadedAt ← Json.prop "uploadedAt" (docMetadata md (JsDate.toISOString t) vectors);
   Some (JsDate.time_of_json (Date_parse_other env) uploadedAt)) = Some (Int t)
  /\ over_age env (Int cutoff) (docMetadata md (JsDate.toISOString t) vectors) = (t <? cutoff)
  /\ over_age_text env (Int cutoff)
       (Json.stringify (docMetadata md (JsDate.toISOString t) vectors)) = (t <? cutoff).
Proof.
  intros Ht. split; [|split].
  - unfold docMetadata. cbn [Json.prop Json.member String.eqb Ascii.eqb Bool.eqb mbind option_bind].
    rewrite (time_of_toISOString _ t Ht). reflexivity.
  - apply (over_age_ingested env md vectors t (Int cutoff) Ht).
  - unfold over_age_text. rewrite JsonFacts.parse_stringify.
    apply (over_age_ingested env md vectors t (Int cutoff) Ht).
Qed.

(** X13. The sweep over a namespace of at most 1000 keys (what one
    listing returns) that holds records written by [embedAndStore]
    (and the counter), on a platform that does not fail: a record
    written at a time [t] of the years 0 to 9999 is
    deleted exactly when the cutoff, the time of the sweep less the
    retention, is a time value (at most 8.64e15 ms from the epoch) and
    [t] is before it, and kept as it is otherwise, so also whenever the
    retention takes the cutoff out of the range of dates; in both cases
    the sweep returns 0 and the index and the counter are as they
    were. *)
Theorem cleanup_cutoff_exact (env : Env) (maxAgeInDays : Z) (w : World) :
  fault_free env ->
  Z.of_nat (size (namespace w (DOCUMENT_METADATA env))) <= 1000 ->
  (forall k text,
      namespace w (DOCUMENT_METADATA env) !! k = Some text ->
      (exists c, text = Num.toString (Int c))
      \/ (exists md uploadedAt vectors,
            text = Json.stringify (docMetadata md uploadedAt vectors))) ->
  exists w',
    cleanupOldVectors env maxAgeInDays w = (Ok 0, w')
    /\ index w' = index w
    /\ (forall c, counter_is env w c -> counter_is env w' c)
    /\ (forall k md t vectors,
          -62167219200000 <= t <= 253402300799999 ->
          namespace w (DOCUMENT_METADATA env) !! k
          = Some (Json.stringify (docMetadata md (JsDate.toISOString t) vectors)) ->
          namespace w' (DOCUMENT_METADATA env) !! k
          = if (Z.abs (now w - maxAgeInDays * 86400000) <=? 8640000000000000)
               && (t <? now w - maxAgeInDays * 86400000)
            then None
            else Some (Json.stringify (docMetadata md (JsDate.toISOString t) vectors))).
Proof.
  intros Hq Hsize Hrecords.
  destruct (cleanupOldVectors_ingested_records env maxAgeInDays w Hq Hsize Hrecords)
    as (w' & Hrun & Hkept & Hidx & Hcount).
  exists w'. split; [exact Hrun|]. split; [exact Hidx|]. split; [exact Hcount|].
  intros k md t vectors Ht Hk. rewrite Hkept, Hk. cbn [kept].
  unfold over_age_text. rewrite JsonFacts.parse_stringify, (over_age_ingested env md vectors t _ Ht).
  unfold cutoff_time, JsDate.time_clip, JsDate.ms_per_day.
  destruct (Z.abs (now w - maxAgeInDays * 86400000) <=? 8640000000000000); reflexivity.
Qed.

End AgeFacts.

Module SweepSafetyFacts.
Import Platform Vectorize Cleanup SweepViews PlatformFacts.

Lemma sweeps_on_refl (s : Sweep) : sweeps_on s s.
Proof. split; [lia | reflexivity]. Qed.

Lemma sweeps_on_trans (s1 s2 s3 : Sweep) : sweeps_on s1 s2 -> sweeps_on s2 s3 -> sweeps_on s1 s3.
Proof. intros [H1 H2] [H3 H4]. split; [lia | etrans; eassumption]. Qed.

Lemma sweeping_ret {A} (a : A) : sweeping (ret a).
Proof. intros s. apply sweeps_on_refl. Qed.

Lemma sweeping_throw {A} (e : exn) : sweeping (@throw Sweep A e).
Proof. intros s. apply sweeps_on_refl. Qed.

Lemma sweeping_gets {A} (f : Sweep -> A) : sweeping (gets f).
Proof. intros s. apply sweeps_on_refl. Qed.

Lemma sweeping_bind {A B} (m : M Sweep A) (k : A -> M Sweep B) :
  sweeping m -> (forall a, sweeping (k a)) -> sweeping (bind m k).
Proof.
  intros Hm Hk s. unfold bind. specialize (Hm s).
  destruct (m s) as [[a|e] s1]; cbn [snd] in *; [|exact Hm].
  eapply sweeps_on_trans; [exact Hm | apply Hk].
Qed.

Lemma sweeping_try_catch {A} (m : M Sweep A) (h : exn -> M Sweep A) :
  sweeping m -> (forall e, sweeping (h e)) -> sweeping (try_catch m h).
Proof.
  intros Hm Hh s. unfold try_catch. specialize (Hm s).
  destruct (m s) as [[a|e] s1]; cbn [snd] in *; [exact Hm|].
  eapply sweeps_on_trans; [exact Hm | apply Hh].
Qed.

Lemma sweeping_for_of {A} (l : list A) (body : A -> M Sweep unit) :
  (forall x, sweeping (body x)) -> sweeping (for_of l body).
Proof.
  intros Hbody. induction l as [|x rest IH]; cbn [for_of].
  - apply sweeping_ret.
  - apply sweeping_bind; [apply Hbody | intros _; exact IH].
Qed.

Lemma sweeping_add_deleted (n : Z) : 0 <= n -> sweeping (add_deleted n).
Proof. intros Hn s. split; cbn; [lia | reflexivity]. Qed.

Lemma sweeping_lift {A} (m : M World A) : shrinking m -> sweeping (lift m).
Proof.
  intros Hm s. unfold lift. specialize (Hm (world s)).
  destruct (m (world s)) as [r w']. split; cbn in *; [lia | exact Hm].
Qed.

Lemma shrinking_bind {A B} (m : M World A) (k : A -> M World B) :
  shrinking m -> (forall a, shrinking (k a)) -> shrinking (bind m k).
Proof.
  intros Hm Hk w. unfold bind. specialize (Hm w).
  destruct (m w) as [[a|e] w1]; cbn [snd] in *; [|exact Hm].
  etrans; [apply Hk | exact Hm].
Qed.

Lemma shrinking_await {A} (env : Env) (op : Op) (act : M World A) :
  shrinking act -> shrinking (await env op act).
Proof.
  intros Hact w. unfold await. destruct (fault env (calls w) op); [reflexivity|].
  exact (Hact (tick w)).
Qed.

Lemma shrinking_same {A} (m : M World A) :
  (forall w, index (snd (m w)) = index w) -> shrinking m.
Proof. intros H w. rewrite H. reflexivity. Qed.

Lemma shrinking_kv_get_json env ns key : shrinking (kv_get_json env ns key).
Proof.
  unfold kv_get_json, kv_get_text. apply shrinking_bind.
  - apply shrinking_await, shrinking_same. reflexivity.
  - intros [t|]; [destruct (Json.parse t)|]; apply shrinking_same; reflexivity.
Qed.

Lemma shrinking_kv_delete env ns key : shrinking (kv_delete env ns key).
Proof. apply shrinking_await, shrinking_same. reflexivity. Qed.

Lemma shrinking_kv_list env ns : shrinking (kv_list env ns).
Proof. apply shrinking_await, shrinking_same. reflexivity. Qed.

Lemma shrinking_updateVectorCount env delta : shrinking (updateVectorCount env delta).
Proof.
  unfold updateVectorCount, getVectorCount, kv_get_text, kv_put.
  repeat first [ apply shrinking_bind | intros ? | apply shrinking_await
               | apply shrinking_same; reflexivity ].
Qed.

Lemma deleteByIds_subseteq (ids : list string) (i : gmap string VectorizeVector) :
  fold_left (fun i k => delete k i) ids i ⊆ i.
Proof.
  revert i. induction ids as [|k rest IH]; intros i; cbn [fold_left]; [reflexivity|].
  etrans; [apply IH | apply delete_subseteq].
Qed.

Lemma shrinking_index_deleteByIds env ids : shrinking (index_deleteByIds env ids).
Proof.
  apply shrinking_await. destruct ids as [l|].
  - intros w. apply deleteByIds_subseteq.
  - apply shrinking_same. reflexivity.
Qed.

Lemma shrinking_console_error label e : shrinking (console_error label e).
Proof. apply shrinking_same. reflexivity. Qed.

Lemma sweeping_sweep_document env cutoff key : sweeping (sweep_document env cutoff key).
Proof.
  unfold sweep_document.
  apply sweeping_bind; [apply sweeping_lift, shrinking_kv_get_json|].
  intros [md|]; [|apply sweeping_ret].
  destruct (negb (Json.truthy md)); [apply sweeping_ret|].
  destruct (Json.prop "uploadedAt" md) as [uploadedAt|]; [|apply sweeping_ret].
  destruct (negb (Json.truthy uploadedAt)); [apply sweeping_ret|].
  destruct (Num.lt _ _); [|apply sweeping_ret].
  apply sweeping_bind.
  { destruct (chunk_ids md); [apply sweeping_ret | apply sweeping_throw]. }
  intros vectorIds. apply sweeping_bind; [|intros _; apply sweeping_lift, shrinking_kv_delete].
  destruct (0 <? length vectorIds)%nat; [|apply sweeping_ret].
  apply sweeping_try_catch.
  - apply sweeping_bind; [apply sweeping_lift, shrinking_index_deleteByIds|]. intros _.
    apply sweeping_bind; [apply sweeping_add_deleted; lia|]. intros _.
    apply sweeping_bind; [apply sweeping_lift, shrinking_updateVectorCount|]. intros _.
    apply sweeping_ret.
  - intros e. apply sweeping_lift, shrinking_console_error.
Qed.

(** X14. The sweep never throws and never adds to the index: whatever
    the stores hold and whichever platform calls reject, the sweep (and
    the scheduled handler) returns a count that is not negative, and
    every vector of the index afterwards was in it before, unchanged. *)
Theorem cleanupOldVectors_never_throws (env : Env) (maxAgeInDays : Z) (w : World) :
  exists n w',
    cleanupOldVectors env maxAgeInDays w = (Ok n, w')
    /\ 0 <= n
    /\ (forall k v, index w' !! k = Some v -> index w !! k = Some v)
    /\ exists n30 w30, handleScheduledCleanup env w = (Ok n30, w30) /\ 0 <= n30.
Proof.
  assert (Hrun : forall days w0, exists n w',
             cleanupOldVectors env days w0 = (Ok n, w')
             /\ 0 <= n /\ index w' ⊆ index w0).
  { intros days w0. unfold cleanupOldVectors.
    assert (Hsweep : sweeping (cleanupOldVectors_sweep env days)).
    { unfold cleanupOldVectors_sweep.
      apply sweeping_bind; [apply sweeping_lift, shrinking_same; reflexivity|]. intros date_now.
      apply sweeping_try_catch.
      - apply sweeping_bind; [apply sweeping_lift, shrinking_kv_list|]. intros documents.
        apply sweeping_bind; [|intros _; apply sweeping_gets].
        apply sweeping_for_of. intros key. apply sweeping_sweep_document.
      - intros e. apply sweeping_bind; [apply sweeping_lift, shrinking_console_error|].
        intros _. apply sweeping_gets. }
    specialize (Hsweep {| world := w0; deletedCount := 0 |}).
    assert (Hcount : exists s',
               cleanupOldVectors_sweep env days {| world := w0; deletedCount := 0 |}
               = (Ok (deletedCount s'), s')).
    { unfold cleanupOldVectors_sweep. rewrite bind_run.
      unfold lift at 1. cbn [Date_now gets world deletedCount].
      unfold try_catch. rewrite bind_run.
      destruct (lift (kv_list env (DOCUMENT_METADATA env)) _) as [[documents|e] s1];
        [|eexists; reflexivity].
      rewrite bind_run. destruct (for_of documents _ s1) as [[[]|e] s2]; eexists; reflexivity. }
    destruct Hcount as [s' Hcount]. rewrite Hcount in *. cbn [snd] in Hsweep.
    destruct Hsweep as [Hn Hidx]. cbn [deletedCount world] in *.
    exists (deletedCount s'), (world s'). split; [reflexivity|]. split; assumption. }
  destruct (Hrun maxAgeInDays w) as (n & w' & Hn & Hpos & Hsub).
  exists n, w'. split; [exact Hn|]. split; [exact Hpos|]. split.
  - intros k v Hk. exact (lookup_weaken _ _ _ _ Hk Hsub).
  - destruct (Hrun 30 w) as (n30 & w30 & H30 & Hpos30 & _). exists n30, w30. split; assumption.
Qed.

End SweepSafetyFacts.

Module DeletionSafetyFacts.
Import Platform Vectorize Cleanup SweepViews DeletionViews.
Import PlatformFacts QuotaFacts DeleteFacts RoundTripFacts SweepSafetyFacts.

#[local] Arguments Json.parse : simpl never.
#[local] Arguments Json.stringify : simpl never.
#[local] Arguments Num.toString : simpl never.
#[local] Arguments Num.parseInt : simpl never.
#[local] Arguments namespace : simpl never.
#[local] Arguments stored_count : simpl never.

Section Lowering.
Variable env : Env.

Lemma lowers_on_refl (w : World) : lowers_on env w w.
Proof. intros c Hc Hpos. exists c. split; [exact Hc | lia]. Qed.

Lemma lowers_on_trans (w1 w2 w3 : World) :
  lowers_on env w1 w2 -> lowers_on env w2 w3 -> lowers_on env w1 w3.
Proof.
  intros H12 H23 c Hc Hpos. destruct (H12 c Hc Hpos) as (c2 & Hc2 & Hb2).
  destruct (H23 c2 Hc2 ltac:(lia)) as (c3 & Hc3 & Hb3). exists c3. split; [exact Hc3 | lia].
Qed.

Lemma lowers_on_same (w w' : World) : kv w' = kv w -> lowers_on env w w'.
Proof.
  intros H c Hc Hpos. exists c. split; [|lia].
  unfold counter_is, namespace in *. rewrite H. exact Hc.
Qed.

Lemma lowering_same {A} (m : M World A) : (forall w, kv (snd (m w)) = kv w) -> lowering env m.
Proof. intros H w. apply lowers_on_same, H. Qed.

Lemma lowering_bind {A B} (m : M World A) (k : A -> M World B) :
  lowering env m -> (forall a, lowering env (k a)) -> lowering env (bind m k).
Proof.
  intros Hm Hk w. unfold bind. specialize (Hm w).
  destruct (m w) as [[a|e] w1]; cbn [snd] in *; [|exact Hm].
  eapply lowers_on_trans; [exact Hm | apply Hk].
Qed.

Lemma lowering_try_catch {A} (m : M World A) (h : exn -> M World A) :
  lowering env m -> (forall e, lowering env (h e)) -> lowering env (try_catch m h).
Proof.
  intros Hm Hh w. unfold try_catch. specialize (Hm w).
  destruct (m w) as [[a|e] w1]; cbn [snd] in *; [exact Hm|].
  eapply lowers_on_trans; [exact Hm | apply Hh].
Qed.

Lemma lowering_await {A} (op : Op) (act : M World A) :
  lowering env act -> lowering env (await env op act).
Proof.
  intros Hact w. unfold await. destruct (fault env (calls w) op).
  - apply lowers_on_same. reflexivity.
  - eapply lowers_on_trans; [|exact (Hact (tick w))]. apply lowers_on_same. reflexivity.
Qed.

Lemma lowering_index_deleteByIds ids : lowering env (index_deleteByIds env ids).
Proof. apply lowering_await. destruct ids; apply lowering_same; reflexivity. Qed.

Lemma lowering_kv_delete (key : string) :
  key <> VECTOR_COUNT_KEY -> lowering env (kv_delete env (DOC_METADATA env) key).
Proof.
  intros Hkey. apply lowering_await. intros w c Hc Hpos. exists c. split; [|lia].
  cbn [modify snd]. unfold counter_is in *. rewrite namespace_set_same.
  rewrite lookup_delete_ne by exact Hkey. exact Hc.
Qed.

Lemma lowering_updateVectorCount (d : Z) :
  d <= 0 -> lowering env (updateVectorCount env (Int d)).
Proof.
  intros Hd w c Hc Hpos. unfold updateVectorCount, getVectorCount, kv_get_text, kv_put, bind, await.
  destruct (fault env (calls w) _); cbn [snd gets].
  { exists c. split; [exact Hc | lia]. }
  change (match namespace (tick w) (DOC_METADATA env) !! VECTOR_COUNT_KEY with
          | Some text => if JsString.truthy text then Num.parseInt text else Int 0
          | None => Int 0
          end) with (stored_count env (tick w)).
  rewrite stored_count_tick, (counter_is_stored env w c Hc). cbn [ret Num.add Num.max calls tick].
  destruct (fault env (S (calls w)) _); cbn [snd modify].
  { exists c. split; [exact Hc | lia]. }
  exists (Z.max 0 (c + d)). split; [|lia]. left. cbn [ret snd].
  rewrite namespace_set_same. apply lookup_insert_eq.
Qed.


(** The steps of [deleteDocumentVectors] after the record was read,
    for a list of ids and a document id other than the counter key. *)
Lemma lowering_removal (documentId : string) (ids : list string) :
  documentId <> VECTOR_COUNT_KEY ->
  lowering env
    (index_deleteByIds env (string_array (JArr (map JStr ids))) ;;;
     let* newCount :=
       updateVectorCount env (Num.neg (length_of (JArr (map JStr ids)))) in
     emitQuotaMetric env newCount (Some (Num.neg (length_of (JArr (map JStr ids)))))
       ("delete_document_" +:+ documentId) ;;;
     kv_delete env (DOC_METADATA env) documentId ;;;
     ret {| DeleteResult.success := true;
            DeleteResult.deletedCount := length_of (JArr (map JStr ids));
            DeleteResult.error := None |}).
Proof.
  intros Hkey.
  apply lowering_bind; [apply lowering_index_deleteByIds|]. intros _.
  apply lowering_bind.
  { cbn [length_of Num.neg]. unfold count_of. cbn [Num.neg].
    apply lowering_updateVectorCount. lia. }
  intros newCount.
  apply lowering_bind; [apply lowering_same; reflexivity|]. intros _.
  apply lowering_bind; [apply lowering_kv_delete, Hkey|]. intros _.
  apply lowering_same. reflexivity.
Qed.

Lemma shrinking_try_catch {A} (m : M World A) (h : exn -> M World A) :
  shrinking m -> (forall e, shrinking (h e)) -> shrinking (try_catch m h).
Proof.
  intros Hm Hh w. unfold try_catch. specialize (Hm w).
  destruct (m w) as [[a|e] w1]; cbn [snd] in *; [exact Hm|].
  etrans; [apply Hh | exact Hm].
Qed.

Lemma shrinking_deleteDocumentVectors (documentId : string) :
  shrinking (deleteDocumentVectors documentId env).
Proof.
  unfold deleteDocumentVectors. apply shrinking_try_catch.
  - unfold deleteDocumentVectors_try.
    apply shrinking_bind; [apply shrinking_kv_get_json|].
    intros [md|]; [|apply shrinking_same; reflexivity].
    destruct (negb (Json.truthy md)); [apply shrinking_same; reflexivity|].
    destruct (Json.prop "vectorIds" md) as [vectorIds|]; [|apply shrinking_same; reflexivity].
    destruct (negb (Json.truthy vectorIds)); [apply shrinking_same; reflexivity|].
    apply shrinking_bind; [apply shrinking_index_deleteByIds|]. intros _.
    apply shrinking_bind; [apply shrinking_updateVectorCount|]. intros newCount.
    apply shrinking_bind; [apply shrinking_same; reflexivity|]. intros _.
    apply shrinking_bind; [apply shrinking_kv_delete|]. intros _.
    apply shrinking_same. reflexivity.
  - intros e. apply shrinking_bind; [apply shrinking_console_error|]. intros _.
    apply shrinking_same. reflexivity.
Qed.

(** X7. Deleting a document never raises the counter nor takes it
    below zero, and never adds to the index, whichever platform calls
    reject: when nothing is stored under the document id, or a record
    whose [vectorIds], if it has any, is a list of strings, a counter
    holding a safe integer [0 <= c] holds some [0 <= c' <= c]
    afterwards, and every vector of the index afterwards was in it
    before. *)
Theorem deleteDocumentVectors_keeps_quota_invariant (documentId : string)
    (w : World) (c : Z) :
  counter_is env w c ->
  0 <= c <= Num.MAX_SAFE_INTEGER ->
  (forall text,
      namespace w (DOC_METADATA env) !! documentId = Some text ->
      exists record,
        Json.parse text = Some record
        /\ forall vectorIds,
             Json.prop "vectorIds" record = Some vectorIds ->
             Json.truthy vectorIds = true ->
             exists ids, vectorIds = JArr (map JStr ids)) ->
  exists r w' c',
    deleteDocumentVectors documentId env w = (Ok r, w')
    /\ counter_is env w' c'
    /\ 0 <= c' <= c
    /\ (forall k v, index w' !! k = Some v -> index w !! k = Some v).
Proof.
  intros Hc [Hpos _] Hrecord.
  assert (Htry : lowers_on env w (snd (deleteDocumentVectors_try documentId env w))).
  { unfold deleteDocumentVectors_try, kv_get_json, kv_get_text, bind at 1 2, await.
    destruct (fault env (calls w) _); [apply lowers_on_same; reflexivity|].
    cbn [gets fst snd]. rewrite namespace_tick.
    destruct (namespace w (DOC_METADATA env) !! documentId) as [text|] eqn:Htext;
      [|apply lowers_on_same; reflexivity].
    destruct (Hrecord text eq_refl) as (record & Hparse & Hids). rewrite Hparse. cbn [ret].
    destruct (Json.truthy record); cbn [negb]; [|apply lowers_on_same; reflexivity].
    destruct (Json.prop "vectorIds" record) as [vectorIds|] eqn:Hprop;
      [|apply lowers_on_same; reflexivity].
    destruct (Json.truthy vectorIds) eqn:Htruthy; cbn [negb];
      [|apply lowers_on_same; reflexivity].
    destruct (Hids vectorIds eq_refl Htruthy) as [ids ->].
    assert (Hkey : documentId <> VECTOR_COUNT_KEY).
    { intros ->. destruct Hc as [Hc|[Hc _]]; rewrite Hc in Htext; [|discriminate Htext].
      injection Htext as <-.
      change (Num.toString (Int c)) with (Json.stringify (JNum c)) in Hparse.
      rewrite JsonFacts.parse_stringify in Hparse. injection Hparse as <-.
      discriminate Hprop. }
    eapply lowers_on_trans; [|apply (lowering_removal documentId ids Hkey)].
    apply lowers_on_same. reflexivity. }
  pose proof (shrinking_deleteDocumentVectors documentId w) as Hsub.
  unfold deleteDocumentVectors, try_catch in *.
  destruct (deleteDocumentVectors_try documentId env w) as [[r|e] w1]; cbn [snd] in *.
  - destruct (Htry c Hc Hpos) as (c' & Hc' & Hb).
    exists r, w1, c'. split; [reflexivity|]. split; [exact Hc'|]. split; [exact Hb|].
    intros k v Hk. exact (lookup_weaken _ _ _ _ Hk Hsub).
  - destruct (Htry c Hc Hpos) as (c' & Hc' & Hb).
    eexists _, _, c'. split; [reflexivity|]. cbn [console_error modify bind ret snd] in *.
    split; [|split; [exact Hb|]].
    + unfold counter_is in *. rewrite namespace_log. exact Hc'.
    + intros k v Hk. exact (lookup_weaken _ _ _ _ Hk Hsub).
Qed.

End Lowering.

End DeletionSafetyFacts.

Module SweepFacts.
Import Platform Vectorize Cleanup SweepViews.
Import PlatformFacts QuotaFacts DeleteFacts RoundTripFacts CleanupFacts LifecycleFacts.

#[local] Arguments Json.parse : simpl never.
#[local] Arguments Json.stringify : simpl never.
#[local] Arguments Num.toString : simpl never.
#[local] Arguments Num.parseInt : simpl never.
#[local] Arguments JsDate.toISOString : simpl never.
#[local] Arguments JsDate.time_of_json : simpl never.
#[local] Arguments String.append : simpl never.
#[local] Arguments namespace : simpl never.
#[local] Arguments stored_count : simpl never.
#[local] Arguments chunk_ids : simpl never.

Lemma string_ids_length (ids : list (option json)) (l : list string) :
  string_ids ids = Some l -> length ids = length l.
Proof.
  unfold string_ids. revert l. induction ids as [|x r IH]; intros l.
  - intros [= <-]. reflexivity.
  - cbn [mapM]. destruct x as [[| | |s| |]|]; try discriminate. cbn.
    destruct (mapM _ r) as [l'|]; [|discriminate]. intros [= <-].
    cbn [length]. rewrite (IH l' eq_refl). reflexivity.
Qed.

Lemma swept_ids_counter_text (env : Env) (cutoff : number) (c : Z) :
  swept_ids env cutoff (Num.toString (Int c)) = [].
Proof.
  unfold swept_ids. change (Num.toString (Int c)) with (Json.stringify (JNum c)).
  rewrite JsonFacts.parse_stringify. unfold over_age. cbn [Json.prop].
  rewrite andb_false_r. reflexivity.
Qed.

Lemma lookup_set_namespace (ns : string) (content : gmap string string) (w : World)
    (ns' k : string) :
  namespace (set_namespace ns content w) ns' !! k
  = if decide (ns' = ns) then content !! k else namespace w ns' !! k.
Proof.
  case_decide as Hd.
  - subst ns'. rewrite namespace_set_same. reflexivity.
  - rewrite namespace_set_other by congruence. reflexivity.
Qed.

Lemma add_deleted_run (n : Z) (s : Sweep) :
  add_deleted n s = (Ok tt, {| world := world s; deletedCount := deletedCount s + n |}).
Proof. reflexivity. Qed.

Ltac ns_plain :=
  repeat first [ rewrite namespace_tick | rewrite namespace_set_index | rewrite namespace_log ].

Section Legacy.

Variable env : Env.
Hypothesis Hfree : fault_free env.
Variable cutoff : number.

(** The removal of the vectors of one document, when it goes through. *)
Lemma removal_run (key : string) (raw : list (option json)) (l : list string)
    (s : Sweep) (c : Z) :
  string_ids raw = Some l ->
  counter_is env (world s) c ->
  try_catch
    (lift (index_deleteByIds env (string_ids raw)) ;;;
     add_deleted (Z.of_nat (length raw)) ;;;
     lift (updateVectorCount env (Num.neg (count_of raw))) ;;;
     ret tt)
    (fun error =>
       lift (console_error ("Error deleting vectors for document " +:+ key +:+ ":") error)) s
  = (Ok tt,
     {| world :=
          set_namespace (DOC_METADATA env)
            (<[VECTOR_COUNT_KEY := Num.toString (Int (Z.max 0 (c - Z.of_nat (length l))))]>
               (namespace (world s) (DOC_METADATA env)))
            (tick (tick (set_index (fold_left (fun i k => delete k i) l (index (world s)))
                           (tick (world s)))));
        deletedCount := deletedCount s + Z.of_nat (length l) |}).
Proof.
  intros Hl Hc. pose proof (string_ids_length raw l Hl) as Hlen.
  unfold try_catch, count_of. rewrite Hl, Hlen.
  rewrite bind_run, lift_run, index_deleteByIds_run by apply Hfree. cbn [fst snd].
  rewrite bind_run, add_deleted_run.
  rewrite bind_run, lift_run, updateVectorCount_run by (intros; apply Hfree).
  cbv zeta. cbn [fst snd world deletedCount].
  rewrite stored_count_set_index, !stored_count_tick, (counter_is_stored env _ c Hc).
  cbn [Num.neg Num.add Num.max].
  replace (c + - Z.of_nat (length l)) with (c - Z.of_nat (length l)) by lia.
  reflexivity.
Qed.

(** One turn of the loop on a record in the format the sweep reads. *)
Lemma sweep_document_legacy (key text : string) (s : Sweep) (c : Z) :
  namespace (world s) (DOCUMENT_METADATA env) !! key = Some text ->
  legacy_format env cutoff text ->
  counter_is env (world s) c ->
  0 <= c ->
  ~ counter_cell env (DOCUMENT_METADATA env) key ->
  let ids := swept_ids env cutoff text in
  exists s',
    sweep_document env cutoff key s = (Ok tt, s')
    /\ deletedCount s' = deletedCount s + Z.of_nat (length ids)
    /\ index (world s') = fold_left (fun i k => delete k i) ids (index (world s))
    /\ counter_is env (world s') (Z.max 0 (c - Z.of_nat (length ids)))
    /\ (forall ns' k',
          ~ counter_cell env ns' k' ->
          namespace (world s') ns' !! k'
          = if decide (ns' = DOCUMENT_METADATA env /\ k' = key)
            then kept env cutoff (Some text)
            else namespace (world s) ns' !! k').
Proof.
  intros Htext (record & Hparse & Hids) Hc Hpos Hcell ids.
  assert (Hskip : forall w' : World,
             kv w' = kv (world s) -> index w' = index (world s) ->
             over_age env cutoff record = false ->
             deletedCount s = deletedCount s + Z.of_nat (length ids)
             /\ index w' = fold_left (fun i k => delete k i) ids (index (world s))
             /\ counter_is env w' (Z.max 0 (c - Z.of_nat (length ids)))
             /\ (forall ns' k',
                   ~ counter_cell env ns' k' ->
                   namespace w' ns' !! k'
                   = if decide (ns' = DOCUMENT_METADATA env /\ k' = key)
                     then kept env cutoff (Some text)
                     else namespace (world s) ns' !! k')).
  { intros w' Hkv Hidx Hyoung.
    assert (Hnone : ids = []) by (unfold ids, swept_ids; rewrite Hparse, Hyoung; reflexivity).
    rewrite Hnone. cbn [length fold_left]. split; [lia|]. split; [exact Hidx|].
    split.
    - replace (Z.max 0 (c - Z.of_nat 0)) with c by lia.
      unfold counter_is, namespace in *. rewrite Hkv. exact Hc.
    - intros ns' k' _. unfold namespace in *. rewrite Hkv.
      case_decide as Hd; [|reflexivity]. destruct Hd as [-> ->].
      cbn [kept]. unfold over_age_text. rewrite Hparse, Hyoung. exact Htext. }
  unfold sweep_document.
  rewrite bind_run, lift_run, kv_get_json_run by apply Hfree.
  rewrite Htext, Hparse. cbn [fst snd].
  destruct (over_age env cutoff record) eqn:Hold.
  2:{ unfold over_age in Hold.
      destruct (Json.truthy record); cbn [negb andb] in *;
        [|eexists; split; [reflexivity|]; apply Hskip; reflexivity].
      destruct (Json.prop "uploadedAt" record) as [uploadedAt|];
        [|eexists; split; [reflexivity|]; apply Hskip; reflexivity].
      destruct (Json.truthy uploadedAt); cbn [negb andb] in *;
        [|eexists; split; [reflexivity|]; apply Hskip; reflexivity].
      rewrite Hold. eexists; split; [reflexivity|]; apply Hskip; reflexivity. }
  destruct (Hids eq_refl) as [l Hl].
  assert (Hidsl : ids = l) by (unfold ids, swept_ids; rewrite Hparse, Hold, Hl; reflexivity).
  assert (Hgone : kept env cutoff (Some text) = None).
  { cbn [kept]. unfold over_age_text. rewrite Hparse, Hold. reflexivity. }
  rewrite Hgone, Hidsl. clearbody ids. clear Hidsl Hskip Hgone.
  unfold over_age in Hold.
  destruct (Json.truthy record); cbn [negb andb] in *; [|discriminate].
  destruct (Json.prop "uploadedAt" record) as [uploadedAt|]; [|discriminate].
  destruct (Json.truthy uploadedAt); cbn [negb andb] in *; [|discriminate].
  rewrite Hold. unfold record_ids in Hl.
  destruct (chunk_ids record) as [raw|e]; [|discriminate].
  rewrite bind_run. cbn [ret]. pose proof (string_ids_length raw l Hl) as Hlen.
  destruct (0 <? length raw)%nat eqn:Hsome.
  - rewrite bind_run,
      (removal_run key raw l {| world := tick (world s); deletedCount := deletedCount s |}
         c Hl Hc).
    rewrite lift_run, kv_delete_run by apply Hfree. cbn [fst snd world deletedCount].
    eexists. split; [reflexivity|]. cbn [world deletedCount].
    split; [reflexivity|]. split; [reflexivity|]. split.
    + left. rewrite lookup_set_namespace. case_decide as Hd.
      * rewrite lookup_delete_ne by (intros ->; apply Hcell; split; [congruence | reflexivity]).
        ns_plain. rewrite Hd, namespace_set_same. apply lookup_insert_eq.
      * ns_plain. rewrite namespace_set_same. apply lookup_insert_eq.
    + intros ns' k' Hother. rewrite lookup_set_namespace.
      assert (Hrest : namespace
                        (tick (set_namespace (DOC_METADATA env)
                           (<[VECTOR_COUNT_KEY :=
                                Num.toString (Int (Z.max 0 (c - Z.of_nat (length l))))]>
                              (namespace (tick (world s)) (DOC_METADATA env)))
                           (tick (tick (set_index
                              (fold_left (fun i k => delete k i) l (index (tick (world s))))
                              (tick (tick (world s)))))))) ns' !! k'
                      = namespace (world s) ns' !! k').
      { ns_plain. rewrite lookup_set_namespace. case_decide as Hd.
        - rewrite lookup_insert_ne by (intros <-; apply Hother; split; [exact Hd | reflexivity]).
          ns_plain. rewrite Hd. reflexivity.
        - ns_plain. reflexivity. }
      destruct (decide (ns' = DOCUMENT_METADATA env)) as [->|Hns].
      * destruct (decide (k' = key)) as [->|Hk].
        -- rewrite decide_True by (split; reflexivity). apply lookup_delete_eq.
        -- rewrite decide_False by (intros [_ ?]; congruence).
           rewrite lookup_delete_ne by congruence. exact Hrest.
      * rewrite decide_False by (intros [? _]; congruence). exact Hrest.
  - assert (Hnil : l = [])
      by (rewrite Hlen in Hsome; destruct l; [reflexivity | discriminate Hsome]).
    subst l.
    rewrite bind_run. cbn [ret].
    rewrite lift_run, kv_delete_run by apply Hfree. cbn [fst snd world deletedCount].
    eexists. split; [reflexivity|]. cbn [world deletedCount length fold_left].
    split; [lia|]. split; [reflexivity|]. split.
    + replace (Z.max 0 (c - Z.of_nat 0)) with c by lia.
      assert (Hsame : namespace
                        (set_namespace (DOCUMENT_METADATA env)
                           (delete key (namespace (tick (world s)) (DOCUMENT_METADATA env)))
                           (tick (tick (world s)))) (DOC_METADATA env) !! VECTOR_COUNT_KEY
                      = namespace (world s) (DOC_METADATA env) !! VECTOR_COUNT_KEY).
      { rewrite lookup_set_namespace. case_decide as Hd; [|reflexivity].
        rewrite lookup_delete_ne by (intros ->; apply Hcell; split; [congruence | reflexivity]).
        rewrite namespace_tick, Hd. reflexivity. }
      unfold counter_is. rewrite Hsame. exact Hc.
    + intros ns' k' Hother. rewrite lookup_set_namespace.
      destruct (decide (ns' = DOCUMENT_METADATA env)) as [->|Hns].
      * destruct (decide (k' = key)) as [->|Hk].
        -- rewrite decide_True by (split; reflexivity). apply lookup_delete_eq.
        -- rewrite decide_False by (intros [_ ?]; congruence).
           rewrite lookup_delete_ne by congruence. reflexivity.
      * rewrite decide_False by (intros [? _]; congruence). reflexivity.
Qed.


(** The turn of the loop on the key of the counter, when the sweep
    lists the namespace of the counter: nothing happens. *)
Lemma sweep_document_counter_cell (s : Sweep) (c : Z) :
  DOCUMENT_METADATA env = DOC_METADATA env ->
  counter_is env (world s) c ->
  exists s',
    sweep_document env cutoff VECTOR_COUNT_KEY s = (Ok tt, s')
    /\ deletedCount s' = deletedCount s
    /\ index (world s') = index (world s)
    /\ kv (world s') = kv (world s).
Proof.
  intros Hsame Hc. unfold sweep_document.
  rewrite bind_run, lift_run, kv_get_json_run by apply Hfree. rewrite Hsame.
  destruct Hc as [Hc|[Hc _]]; rewrite Hc; cbn [fst snd].
  - change (Num.toString (Int c)) with (Json.stringify (JNum c)).
    rewrite JsonFacts.parse_stringify. cbn [fst snd Json.prop].
    destruct (negb (Json.truthy (JNum c))); eexists; repeat split; reflexivity.
  - eexists; repeat split; reflexivity.
Qed.

Lemma swept_ids_at_counter_cell (w : World) (c : Z) :
  DOCUMENT_METADATA env = DOC_METADATA env ->
  counter_is env w c ->
  swept_ids_at env cutoff w VECTOR_COUNT_KEY = [].
Proof.
  intros Hsame [Hc|[Hc _]]; unfold swept_ids_at; rewrite Hsame, Hc; [|reflexivity].
  apply swept_ids_counter_text.
Qed.

(** The loop over the keys of a namespace in the format the sweep
    reads. *)
Lemma sweep_loop_legacy (keys : list string) :
  NoDup keys ->
  forall (s : Sweep) (c : Z),
    counter_is env (world s) c ->
    0 <= c ->
    (forall k, k ∈ keys -> ~ counter_cell env (DOCUMENT_METADATA env) k ->
       exists text,
         namespace (world s) (DOCUMENT_METADATA env) !! k = Some text
         /\ legacy_format env cutoff text) ->
    let removed := concat (map (swept_ids_at env cutoff (world s)) keys) in
    exists s',
      for_of keys (sweep_document env cutoff) s = (Ok tt, s')
      /\ deletedCount s' = deletedCount s + Z.of_nat (length removed)
      /\ (forall i, index (world s') !! i
                    = if decide (i ∈ removed) then None else index (world s) !! i)
      /\ counter_is env (world s') (Z.max 0 (c - Z.of_nat (length removed)))
      /\ (forall ns' k',
            ~ counter_cell env ns' k' ->
            namespace (world s') ns' !! k'
            = if decide (ns' = DOCUMENT_METADATA env /\ k' ∈ keys)
              then kept env cutoff (namespace (world s) ns' !! k')
              else namespace (world s) ns' !! k').
Proof.
  induction keys as [|k0 rest IH]; intros Hnodup s c Hc Hpos Hkeys removed.
  - exists s. split; [reflexivity|]. unfold removed. cbn [map concat length].
    split; [lia|]. split; [|split].
    + intros i. rewrite decide_False by (intros H; inversion H). reflexivity.
    + replace (Z.max 0 (c - Z.of_nat 0)) with c by lia. exact Hc.
    + intros ns' k' _. rewrite decide_False; [reflexivity|]. intros [_ H]. inversion H.
  - apply NoDup_cons in Hnodup as [Hfresh Hnodup].
    set (ids0 := swept_ids_at env cutoff (world s) k0).
    assert (Hstep : exists s1,
               sweep_document env cutoff k0 s = (Ok tt, s1)
               /\ deletedCount s1 = deletedCount s + Z.of_nat (length ids0)
               /\ index (world s1) = fold_left (fun i k => delete k i) ids0 (index (world s))
               /\ counter_is env (world s1) (Z.max 0 (c - Z.of_nat (length ids0)))
               /\ (forall ns' k',
                     ~ counter_cell env ns' k' ->
                     namespace (world s1) ns' !! k'
                     = if decide (ns' = DOCUMENT_METADATA env /\ k' = k0)
                       then kept env cutoff (namespace (world s) ns' !! k')
                       else namespace (world s) ns' !! k')).
    { destruct (decide (counter_cell env (DOCUMENT_METADATA env) k0)) as [[Hsame ->]|Hcell].
      - destruct (sweep_document_counter_cell s c Hsame Hc) as (s1 & Hrun & Hcnt & Hidx & Hkv).
        exists s1. split; [exact Hrun|].
        unfold ids0. rewrite (swept_ids_at_counter_cell (world s) c Hsame Hc).
        cbn [length fold_left]. split; [lia|]. split; [exact Hidx|]. split.
        + replace (Z.max 0 (c - Z.of_nat 0)) with c by lia.
          unfold counter_is, namespace in *. rewrite Hkv. exact Hc.
        + intros ns' k' Hother. rewrite decide_False.
          * unfold namespace. rewrite Hkv. reflexivity.
          * intros [-> ->]. apply Hother. split; [exact Hsame | reflexivity].
      - destruct (Hkeys k0 ltac:(left) Hcell) as (text0 & Htext0 & Hformat0).
        destruct (sweep_document_legacy k0 text0 s c Htext0 Hformat0 Hc Hpos Hcell)
          as (s1 & Hrun & Hcnt & Hidx & Hc1 & Hcells).
        assert (Hids0 : ids0 = swept_ids env cutoff text0)
          by (unfold ids0, swept_ids_at; rewrite Htext0; reflexivity).
        exists s1. rewrite Hids0. repeat (split; [assumption|]).
        intros ns' k' Hother. rewrite (Hcells ns' k' Hother).
        case_decide as Hd; [|reflexivity]. destruct Hd as [-> ->]. rewrite Htext0. reflexivity. }
    destruct Hstep as (s1 & Hrun & Hcnt1 & Hidx1 & Hc1 & Hcells1).
    assert (Hsame_ids : map (swept_ids_at env cutoff (world s1)) rest
                        = map (swept_ids_at env cutoff (world s)) rest).
    { apply map_ext_in. intros k Hin. apply list_elem_of_In in Hin.
      destruct (decide (counter_cell env (DOCUMENT_METADATA env) k)) as [[Hsame ->]|Hcell].
      - rewrite (swept_ids_at_counter_cell (world s1) _ Hsame Hc1).
        rewrite (swept_ids_at_counter_cell (world s) _ Hsame Hc). reflexivity.
      - unfold swept_ids_at. rewrite (Hcells1 _ _ Hcell).
        rewrite decide_False by (intros [_ ->]; exact (Hfresh Hin)). reflexivity. }
    destruct (IH Hnodup s1 (Z.max 0 (c - Z.of_nat (length ids0))) Hc1 ltac:(lia))
      as (s' & Hrest & Hcnt & Hidx & Hc' & Hcells).
    { intros k Hin Hcell. destruct (Hkeys k ltac:(right; exact Hin) Hcell) as (text & Htext & Hf).
      exists text. split; [|exact Hf]. rewrite (Hcells1 _ _ Hcell).
      rewrite decide_False by (intros [_ ->]; exact (Hfresh Hin)). exact Htext. }
    rewrite Hsame_ids in Hcnt, Hidx, Hc'.
    set (removed_rest := concat (map (swept_ids_at env cutoff (world s)) rest)) in *.
    assert (Hremoved : removed = ids0 ++ removed_rest) by reflexivity.
    exists s'. cbn [for_of]. rewrite bind_run, Hrun. split; [exact Hrest|].
    rewrite Hremoved, length_app. split; [lia|]. split; [|split].
    + intros i. rewrite Hidx, Hidx1, deleteByIds_lookup.
      destruct (decide (i ∈ removed_rest)) as [Hin|Hout].
      * rewrite decide_True by (apply elem_of_app; right; exact Hin). reflexivity.
      * destruct (decide (i ∈ ids0)) as [Hin0|Hout0].
        -- rewrite decide_True by (apply elem_of_app; left; exact Hin0). reflexivity.
        -- rewrite decide_False; [reflexivity|].
           intros H. apply elem_of_app in H as [?|?]; auto.
    + replace (Z.max 0 (c - Z.of_nat (length ids0 + length removed_rest)))
        with (Z.max 0 (Z.max 0 (c - Z.of_nat (length ids0)) - Z.of_nat (length removed_rest)))
        by lia.
      exact Hc'.
    + intros ns' k' Hother. rewrite (Hcells _ _ Hother), !(Hcells1 _ _ Hother).
      destruct (decide (ns' = DOCUMENT_METADATA env /\ k' = k0)) as [[-> ->]|Hne].
      * rewrite decide_False by (intros [_ Hin]; exact (Hfresh Hin)).
        rewrite decide_True by (split; [reflexivity | left]). reflexivity.
      * destruct (decide (ns' = DOCUMENT_METADATA env /\ k' ∈ rest)) as [[-> Hin]|Hout].
        -- rewrite decide_True by (split; [reflexivity | right; exact Hin]). reflexivity.
        -- rewrite decide_False; [reflexivity|].
           intros [-> Hin]. apply elem_of_cons in Hin as [->|Hin]; [apply Hne | apply Hout]; auto.
Qed.

End Legacy.


(** X15. The sweep over a namespace in the format it reads (every
    entry is JSON whose numbers are integers, and every record that is
    over age has [chunks] with string ids), on a platform that does not
    fail and with a counter that holds a safe integer.  It goes through
    the keys of one listing (the first 1000 in the order of their
    bytes; all of them in a namespace of up to 1000 keys): it returns
    the number of ids listed by the over-age records under these keys,
    the index loses exactly these ids, the counter goes down by their
    number (not below 0), these records are deleted and all others are
    as they were.  The cutoff is the time of the sweep less the
    retention; when that is no time value, no record is over age, and
    nothing is removed. *)
Theorem cleanupOldVectors_removes_listed (env : Env) (maxAgeInDays : Z) (w : World) (c : Z) :
  fault_free env ->
  counter_is env w c ->
  0 <= c <= Num.MAX_SAFE_INTEGER ->
  let cutoff := cutoff_time (now w) maxAgeInDays in
  (forall k text,
      namespace w (DOCUMENT_METADATA env) !! k = Some text ->
      legacy_format env cutoff text) ->
  let keys := listed_keys (namespace w (DOCUMENT_METADATA env)) in
  let removed := concat (map (swept_ids_at env cutoff w) keys) in
  exists w',
    cleanupOldVectors env maxAgeInDays w = (Ok (Z.of_nat (length removed)), w')
    /\ (forall i, index w' !! i = if decide (i ∈ removed) then None else index w !! i)
    /\ counter_is env w' (Z.max 0 (c - Z.of_nat (length removed)))
    /\ (forall k,
          ~ counter_cell env (DOCUMENT_METADATA env) k ->
          namespace w' (DOCUMENT_METADATA env) !! k
          = if decide (k ∈ keys)
            then kept env cutoff (namespace w (DOCUMENT_METADATA env) !! k)
            else namespace w (DOCUMENT_METADATA env) !! k)
    /\ (Z.of_nat (size (namespace w (DOCUMENT_METADATA env))) <= 1000 ->
        forall k, is_Some (namespace w (DOCUMENT_METADATA env) !! k) -> k ∈ keys)
    /\ (cutoff = NaN -> removed = []).
Proof.
  intros Hfree Hc [Hpos _] cutoff Hformat keys removed.
  assert (Hremoved : concat (map (swept_ids_at env cutoff (tick w)) keys) = removed)
    by reflexivity.
  destruct (sweep_loop_legacy env Hfree cutoff keys (listed_keys_NoDup _)
              {| world := tick w; deletedCount := 0 |} c Hc Hpos)
    as (s' & Hloop & Hcnt & Hidx & Hc' & Hcells).
  { intros k Hk _. apply listed_keys_elem in Hk as [text Hk].
    exists text. split; [exact Hk | eapply Hformat, Hk]. }
  cbn [world deletedCount] in *. rewrite Hremoved in *.
  exists (world s').
  unfold cleanupOldVectors, cleanupOldVectors_sweep.
  rewrite bind_run, lift_run. cbn [Date_now gets fst snd world deletedCount].
  fold cutoff. unfold try_catch.
  rewrite bind_run, lift_run, kv_list_run by apply Hfree.
  cbn [fst snd world deletedCount]. fold keys. rewrite bind_run, Hloop.
  cbn [gets]. rewrite Hcnt. split; [reflexivity|]. split; [exact Hidx|]. split; [exact Hc'|].
  split; [|split].
  - intros k Hcell. rewrite (Hcells _ _ Hcell), !namespace_tick.
    destruct (decide (k ∈ keys)) as [Hin|Hout].
    + rewrite decide_True by (split; [reflexivity | exact Hin]). reflexivity.
    + rewrite decide_False by (intros [_ Hin]; exact (Hout Hin)). reflexivity.
  - intros Hsize k Hk. apply listed_keys_all; assumption.
  - intros Hnan. unfold removed. clear -Hnan.
    induction keys as [|k rest IH]; [reflexivity|]. cbn [map concat]. rewrite IH.
    unfold swept_ids_at, swept_ids. rewrite Hnan.
    destruct (namespace w (DOCUMENT_METADATA env) !! k) as [text|]; [|reflexivity].
    destruct (Json.parse text) as [record|]; [|reflexivity].
    replace (over_age env NaN record) with false; [reflexivity|].
    unfold over_age. destruct (Json.truthy record); [|reflexivity].
    destruct (Json.prop "uploadedAt" record) as [u|]; [|reflexivity].
    destruct (Json.truthy u); [|reflexivity].
    cbn [andb]. destruct (JsDate.time_of_json _ u); reflexivity.
Qed.

End SweepFacts.

Module RetrievalFacts.
Import Platform Vectorize Retrieval PlatformFacts QuotaFacts RoundTripFacts.

#[local] Arguments Num.toString : simpl never.
#[local] Arguments Num.parseInt : simpl never.
#[local] Arguments namespace : simpl never.
#[local] Arguments stored_count : simpl never.

(** ** The usage report *)

Lemma round2_percent_checked :
  Forall (fun c => Double.round2 (Double.percentUsed (Int c)) = Double.of_Z c)
         (map Z.of_nat (seq 0 101)).
Proof. cbn [seq map]. repeat (constructor; [vm_compute; reflexivity|]). constructor. Qed.

Lemma round2_percent_exact (c : Z) :
  0 <= c <= 100 -> Double.round2 (Double.percentUsed (Int c)) = Double.of_Z c.
Proof.
  intros Hc. pose proof round2_percent_checked as H. rewrite Forall_forall in H.
  apply H. apply list_elem_of_In, in_map_iff. exists (Z.to_nat c).
  split; [lia | apply in_seq; lia].
Qed.

(** X16. The usage report on a counter holding [0 <= c <= 100]: the
    count [c], the maximum 100, the remaining [100 - c], and a
    percentage that is exactly [c], free of the rounding noise of
    [(c / 100) * 100] (which for [c = 7] is not 7); nothing is
    written. *)
Theorem getVectorUsageStatus_exact (env : Env) (w : World) (c : Z) :
  fault env (calls w) (KvGet (DOC_METADATA env) VECTOR_COUNT_KEY) = None ->
  counter_is env w c ->
  0 <= c <= 100 ->
  (exists status w',
      getVectorUsageStatus env w = (Ok status, w')
      /\ UsageStatus.currentCount status = Int c
      /\ UsageStatus.maxCount status = Int 100
      /\ UsageStatus.availableQuota status = Int (100 - c)
      /\ UsageStatus.percentageUsed status = Double.of_Z c
      /\ kv w' = kv w /\ index w' = index w /\ console w' = console w)
  /\ Double.percentUsed (Int 7) <> Double.of_Z 7.
Proof.
  intros Hget Hc Hrange. split.
  - unfold getVectorUsageStatus. rewrite bind_run, getVectorCount_run by exact Hget.
    rewrite (counter_is_stored env w c Hc).
    eexists _, _. split; [reflexivity|]. cbn [UsageStatus.currentCount UsageStatus.maxCount
      UsageStatus.availableQuota UsageStatus.percentageUsed Num.sub].
    repeat split. apply round2_percent_exact, Hrange.
  - intros H.
    assert (Hne : PrimFloat.eqb (Double.percentUsed (Int 7)) (Double.of_Z 7) = false)
      by (vm_compute; reflexivity).
    rewrite H in Hne. vm_compute in Hne. discriminate Hne.
Qed.


(** ** [queryDocuments] *)

Lemma index_query_run (env : QueryEnv) (vector : embedding) (topK : number) (w : World) :
  index_query env vector topK w
  = (DOC_INDEX_query env (calls w) (index w) vector topK, tick w).
Proof. reflexivity. Qed.

(** The [try] block of [queryDocuments] reads only. *)
Lemma queryDocuments_try_reads (query : string) (limit : number) (env : QueryEnv) (w : World) :
  exists r w1,
    queryDocuments_try query limit env w = (r, w1)
    /\ kv w1 = kv w /\ index w1 = index w /\ console w1 = console w.
Proof.
  unfold queryDocuments_try, ai_run, await. rewrite bind_run.
  destruct (fault env (calls w) _); [eexists _, _; repeat split; reflexivity|].
  cbn [gets]. rewrite bind_run. cbn [gets].
  destruct (query_vector env _ _ _) as [vector|]; [|eexists _, _; repeat split; reflexivity].
  rewrite bind_run, index_query_run.
  destruct (DOC_INDEX_query env _ _ _ _) as [[matches|]|e];
    eexists _, _; repeat split; reflexivity.
Qed.

(** X17. [queryDocuments] never throws and never writes: whatever the
    embedding service and the index do, it returns a list, the KV store
    and the index are as they were, and when its [try] block throws
    (the service rejects or answers without a query vector, the index
    rejects or answers without a list of matches) the list is empty
    and the error is logged. *)
Theorem queryDocuments_contains_failures (query : string) (limit : number)
    (env : QueryEnv) (w : World) :
  exists results w',
    queryDocuments query limit env w = (Ok results, w')
    /\ kv w' = kv w /\ index w' = index w
    /\ (forall e w1,
          queryDocuments_try query limit env w = (Throw e, w1) ->
          results = []
          /\ console w' = console w ++ [ConsoleError "Query documents error:" e])
    /\ (forall found w1,
          queryDocuments_try query limit env w = (Ok found, w1) ->
          results = found /\ console w' = console w).
Proof.
  destruct (queryDocuments_try_reads query limit env w) as (r & w1 & Hrun & Hkv & Hidx & Hcon).
  unfold queryDocuments, try_catch. rewrite Hrun. destruct r as [found|e].
  - exists found, w1. split; [reflexivity|]. split; [exact Hkv|]. split; [exact Hidx|].
    split; [intros e w2 [=] | intros f w2 [= <- <-]; split; [reflexivity | exact Hcon]].
  - eexists _, _. split; [reflexivity|]. cbn [kv index log console].
    split; [exact Hkv|]. split; [exact Hidx|].
    split; [intros e' w2 [= <- <-]; rewrite Hcon; split; reflexivity | intros f w2 [=]].
Qed.

(** X18. The index is never asked for more than 100 matches: a limit of
    100 or more gives what a limit of 100 gives, for [queryDocuments]
    and for [getDocumentContext]; and two indexes that answer alike up
    to [topK = 100] (and for a [topK] that is not a number) cannot be
    told apart by any query. *)
Theorem queryDocuments_caps_topK (query : string) (env : QueryEnv) (w : World) :
  (forall limit, 100 <= limit ->
     queryDocuments query (Int limit) env w = queryDocuments query (Int 100) env w
     /\ getDocumentContext query (Int limit) env w = getDocumentContext query (Int 100) env w)
  /\ (forall (limit : number) (other : QueryEnv),
        bindings other = bindings env ->
        AI_data_0 other = AI_data_0 env ->
        (forall t i v k,
            Num.le k (Int 100) = true \/ k = NaN ->
            DOC_INDEX_query other t i v k = DOC_INDEX_query env t i v k) ->
        queryDocuments query limit other w = queryDocuments query limit env w).
Proof.
  split.
  - intros limit Hlimit.
    assert (Hmin : Math.min (Int limit) (Int MAX_VECTORS) = Math.min (Int 100) (Int MAX_VECTORS)).
    { unfold Math.min, MAX_VECTORS. f_equal. lia. }
    split.
    + unfold queryDocuments, queryDocuments_try. rewrite Hmin. reflexivity.
    + unfold getDocumentContext. rewrite Hmin. reflexivity.
  - intros limit other Hbind Hdata Hquery.
    unfold queryDocuments, queryDocuments_try, query_vector, index_query.
    rewrite Hbind, Hdata. unfold try_catch, bind.
    destruct (ai_run env EMBED_MODEL [query] w) as [[response|e] w1]; [|reflexivity].
    cbn [gets].
    destruct (match response with
              | AiData data => head data
              | AiDataNotArray => AI_data_0 env (calls w1) EMBED_MODEL [query]
              | _ => None
              end) as [vector|]; [|reflexivity].
    rewrite Hquery; [reflexivity|].
    destruct limit as [z|]; [left | right; reflexivity].
    unfold Math.min, Num.le, MAX_VECTORS. apply Z.leb_le. lia.
Qed.


(** ** [getDocumentContext] *)

(** X19. [getDocumentContext] never throws and never writes, and its
    context is the empty string whenever the query fails or the index
    finds nothing. *)
Theorem getDocumentContext_contains_failures (query : string) (topK : number)
    (env : QueryEnv) (w : World) :
  exists context w',
    getDocumentContext query topK env w = (Ok context, w')
    /\ kv w' = kv w /\ index w' = index w
    /\ (forall r w1,
          queryDocuments_try query (Math.min topK (Int MAX_VECTORS)) env w = (r, w1) ->
          (forall found, r = Ok found -> found = []) ->
          context = EmptyString).
Proof.
  destruct (queryDocuments_try_reads query (Math.min topK (Int MAX_VECTORS)) env w)
    as (r & w1 & Hrun & Hkv & Hidx & _).
  unfold getDocumentContext, queryDocuments, try_catch. rewrite bind_run, Hrun.
  destruct r as [[|first rest]|e].
  - eexists _, _. split; [reflexivity|]. split; [exact Hkv|]. split; [exact Hidx|]. reflexivity.
  - eexists _, _. split; [reflexivity|]. split; [exact Hkv|]. split; [exact Hidx|].
    intros r w2 [= <- <-] Hnone. discriminate (Hnone _ eq_refl).
  - eexists _, _. split; [reflexivity|]. cbn [kv index log].
    split; [exact Hkv|]. split; [exact Hidx|]. reflexivity.
Qed.

(** The chunk records of [embedAndStore]: each holds a chunk of one of
    the texts in full, and its first 200 characters as the preview. *)
Lemma chunk_all_elem (md : EmbedMetadata) (at_time : string) (texts : list string)
    (cm : ChunkMetadata) :
  cm ∈ chunk_all md at_time texts ->
  exists textIndex text chunkIndex,
    texts !! textIndex = Some text
    /\ Chunker.chunkText_default text !! chunkIndex = Some (fullChunk cm)
    /\ chunk cm = JsString.slice0 200 (fullChunk cm)
    /\ cm_source cm = md.
Proof.
  unfold chunk_all. intros H. apply list_elem_of_In, in_concat in H as (l & Hl & Hcm).
  apply list_elem_of_In, elem_of_lookup_imap in Hl as (i & text & -> & Htext).
  apply list_elem_of_In in Hcm. unfold chunks_of_text in Hcm.
  apply elem_of_lookup_imap in Hcm as (j & c & -> & Hc).
  exists i, text, j. repeat split; assumption.
Qed.

Lemma stored_fullChunk (cm : ChunkMetadata) :
  stored_metadata cm !! "fullChunk" = Some (MStr (fullChunk cm)).
Proof. unfold stored_metadata. by simplify_map_eq. Qed.

Lemma stored_chunk (cm : ChunkMetadata) :
  stored_metadata cm !! "chunk" = Some (MStr (chunk cm)).
Proof. unfold stored_metadata. by simplify_map_eq. Qed.

Lemma context_chunk_stored (m : VectorizeMatch) (cm : ChunkMetadata) :
  match_metadata m = Some (stored_metadata cm) ->
  fullChunk cm <> EmptyString ->
  context_chunk (to_result m) = MStr (fullChunk cm)
  /\ has_length (MStr (fullChunk cm)) = true.
Proof.
  intros Hmd Hfull. unfold context_chunk, to_result, field. rewrite Hmd.
  cbn [QueryResult.metadata QueryMetadata.fullChunk QueryMetadata.chunk mbind option_bind].
  rewrite stored_fullChunk. cbn [truthy].
  destruct (fullChunk cm) as [|c r] eqn:E; [congruence|]. cbn [JsString.truthy].
  split; reflexivity.
Qed.


Lemma chunk_all_full (md : EmbedMetadata) (at_time : string) (texts : list string)
    (cm : ChunkMetadata) :
  cm ∈ chunk_all md at_time texts ->
  fullChunk cm <> EmptyString
  /\ exists text, text ∈ texts /\ fullChunk cm ∈ Chunker.chunkText_default text.
Proof.
  intros H. apply chunk_all_elem in H as (i & text & j & Htext & Hchunk & _ & _).
  apply list_elem_of_lookup_2 in Htext, Hchunk. split; [|eauto].
  pose proof (ChunkerEdgeFacts.chunkText_all_trimmed text 1000) as Hall.
  rewrite Forall_forall in Hall. exact (proj1 (Hall _ Hchunk)).
Qed.

(** The context of a list of matches that give back stored chunk
    records. *)
Lemma context_of_stored (md : EmbedMetadata) (at_time : string) (texts : list string)
    (matches : list VectorizeMatch) (cms : list ChunkMetadata) :
  Forall2 (fun m cm => cm ∈ chunk_all md at_time texts
                       /\ match_metadata m = Some (stored_metadata cm)) matches cms ->
  map text_of (filter (fun c => has_length c = true)
                      (map context_chunk (map to_result matches)))
  = map fullChunk cms.
Proof.
  induction 1 as [|m cm matches cms [Hcm Hmd] _ IH]; [reflexivity|].
  destruct (context_chunk_stored m cm Hmd (proj1 (chunk_all_full _ _ _ _ Hcm))) as [Hc Hlen].
  cbn [map]. rewrite Hc, filter_cons_True by exact Hlen. cbn [map text_of].
  rewrite IH. reflexivity.
Qed.

(** X20. Retrieval gives the stored chunks back in full: when the
    embedding service gives a query vector and the index answers with
    matches that carry the metadata [embedAndStore] attached to its
    vectors, the context is the chunks of these matches, each the whole
    chunk [chunkText] cut from one of the ingested texts and not its
    preview of 200 characters, in the order of the matches and joined
    by the separator. *)
Theorem getDocumentContext_returns_full_chunks (env : QueryEnv) (query : string) (topK : Z)
    (w : World) (vector : embedding) (matches : list VectorizeMatch)
    (md : EmbedMetadata) (at_time : string) (texts : list string)
    (cms : list ChunkMetadata) :
  fault env (calls w) (AiRun EMBED_MODEL [query]) = None ->
  query_vector env (S (calls w)) [query] (AI env (S (calls w)) EMBED_MODEL [query])
  = Some vector ->
  DOC_INDEX_query env (S (calls w)) (index w) vector (Int (Z.min topK 100))
  = Ok (Matches matches) ->
  Forall2 (fun m cm => cm ∈ chunk_all md at_time texts
                       /\ match_metadata m = Some (stored_metadata cm)) matches cms ->
  exists w',
    getDocumentContext query (Int topK) env w
    = (Ok (String.concat separator (map fullChunk cms)), w')
    /\ Forall (fun cm => exists text,
                 text ∈ texts /\ fullChunk cm ∈ Chunker.chunkText_default text) cms
    /\ kv w' = kv w /\ index w' = index w.
Proof.
  intros Hfault Hvector Hanswer Hstored.
  assert (Hrun : queryDocuments query (Math.min (Int topK) (Int MAX_VECTORS)) env w
                 = (Ok (map to_result matches), tick (tick w))).
  { unfold queryDocuments, try_catch, queryDocuments_try.
    rewrite bind_run, ai_run_run by exact Hfault.
    rewrite bind_run. cbn [gets calls tick]. rewrite Hvector.
    rewrite bind_run, index_query_run. cbn [calls index tick Math.min].
    unfold MAX_VECTORS.
    replace (Z.min (Z.min topK 100) 100) with (Z.min topK 100) by lia.
    rewrite Hanswer. reflexivity. }
  exists (tick (tick w)). unfold getDocumentContext. rewrite bind_run, Hrun.
  split; [|split; [|split; reflexivity]].
  - destruct Hstored as [|m cm matches cms Hm Hrest]; [reflexivity|].
    rewrite <- (context_of_stored md at_time texts (m :: matches) (cm :: cms))
      by (constructor; assumption).
    reflexivity.
  - clear Hanswer Hrun. induction Hstored as [|m cm matches cms [Hcm _] _ IH]; constructor.
    + exact (proj2 (chunk_all_full _ _ _ _ Hcm)).
    + exact IH.
Qed.

End RetrievalFacts.

(* ===================================================================== *)
(** * The router and the deletion endpoint *)
(* ===================================================================== *)

Module WorkerFacts.
Import Platform Vectorize Requests Worker PlatformFacts QuotaFacts DeleteFacts RoundTripFacts.

#[local] Arguments Json.parse : simpl never.
#[local] Arguments Json.stringify : simpl never.
#[local] Arguments Num.toString : simpl never.
#[local] Arguments String.append : simpl never.
#[local] Arguments namespace : simpl never.

(** ** The type guards *)

Lemma guard_reads_string (name : string) (data : json) :
  is_object data && has_member name data && is_string (Json.prop name data) = true
  <-> exists s, Json.prop name data = Some (JStr s).
Proof.
  destruct data as [| b | z | s | items | members];
    try (cbn; split; [discriminate | intros [s' [=]]]).
  cbn [is_object has_member Json.prop andb].
  destruct (Json.member name members) as [[| b | z | s | items | ms]|]; cbn;
    try (split; [discriminate | intros [s' [=]]]).
  split; [eauto | reflexivity].
Qed.

Lemma all_strings (items : list json) :
  forallb (fun text => is_string (Some text)) items = true
  <-> exists texts, items = map JStr texts.
Proof.
  induction items as [|x items IH]; cbn [forallb].
  - split; [exists []; reflexivity | reflexivity].
  - rewrite andb_true_iff, IH. split.
    + intros [Hx [texts ->]]. destruct x; try discriminate Hx. exists (s :: texts). reflexivity.
    + intros [[|text texts] [=]]. subst. split; [reflexivity | eauto].
Qed.

(** X21. What the type guards accept, in terms of a property read on
    the parsed body: a delete, query or chat request is a value whose
    [documentId], [query] or [question] reads as a string, and an embed
    request one whose [texts] reads as an array of strings, the empty
    array included.  Nothing else of the body is looked at, and an
    array, a string, a number, a boolean and [null] are refused. *)
Theorem type_guards_read_one_property (data : json) :
  (isEmbedRequest data = true
   <-> exists texts, Json.prop "texts" data = Some (JArr (map JStr texts)))
  /\ (isRAGRequest data = true <-> exists question, Json.prop "question" data = Some (JStr question))
  /\ (isQueryRequest data = true <-> exists query, Json.prop "query" data = Some (JStr query))
  /\ (isDeleteDocumentRequest data = true
      <-> exists documentId, Json.prop "documentId" data = Some (JStr documentId))
  /\ (match data with
      | JObj _ => True
      | _ => isEmbedRequest data = false /\ isRAGRequest data = false
             /\ isQueryRequest data = false /\ isDeleteDocumentRequest data = false
      end).
Proof.
  split; [|split; [|split; [|split]]].
  - unfold isEmbedRequest.
    destruct data as [| b | z | s | items | members];
      try (cbn; split; [discriminate | intros [s' [=]]]).
    cbn [is_object has_member Json.prop andb].
    destruct (Json.member "texts" members) as [[| b | z | s | items | ms]|];
      try (cbn; split; [discriminate | intros [s' [=]]]).
    cbn [andb]. rewrite all_strings. split.
    + intros [texts ->]. eauto.
    + intros [texts [= ->]]. eauto.
  - apply guard_reads_string.
  - apply guard_reads_string.
  - apply guard_reads_string.
  - destruct data; try exact I; repeat split; reflexivity.
Qed.

(** ** [fetch] *)


(** X23. A request that is on none of the six routes changes nothing
    and reaches no handler: it gets the preflight answer when its method
    is OPTIONS, whatever its path; else the health report on [/health],
    whatever its method; else 405 on a path of the router, 404 on any
    other path.  Paths are compared as they are, so [/embed/] is not
    [/embed]. *)
Theorem fetch_off_route_changes_nothing (h : Handlers) (request : Request) (env : Env)
    (w : World) :
  ~ In (pathname request, method request) routes ->
  fetch h request env w
  = (Ok (if String.eqb (method request) "OPTIONS" then preflight
         else if String.eqb (pathname request) "/health" then health
         else if existsb (String.eqb (pathname request))
                   ["/embed"; "/rag"; "/query"; "/documents"; "/metrics/quota"]
              then method_not_allowed
              else not_found), w).
Proof.
  intros Hroute. unfold fetch.
  destruct (String.eqb_spec (method request) "OPTIONS") as [Hm|Hm]; [reflexivity|].
  unfold try_catch, dispatch. cbn [existsb].
  destruct (String.eqb_spec (pathname request) "/health") as [Hp|_]; [reflexivity|].
  destruct (String.eqb_spec (pathname request) "/embed") as [Hp|_].
  { destruct (String.eqb_spec (method request) "POST") as [Hq|_]; [|reflexivity].
    exfalso. apply Hroute. rewrite Hp, Hq. cbn. tauto. }
  destruct (String.eqb_spec (pathname request) "/rag") as [Hp|_].
  { destruct (String.eqb_spec (method request) "POST") as [Hq|_]; [|reflexivity].
    exfalso. apply Hroute. rewrite Hp, Hq. cbn. tauto. }
  destruct (String.eqb_spec (pathname request) "/query") as [Hp|_].
  { destruct (String.eqb_spec (method request) "POST") as [Hq|_]; [|reflexivity].
    exfalso. apply Hroute. rewrite Hp, Hq. cbn. tauto. }
  destruct (String.eqb_spec (pathname request) "/documents") as [Hp|_].
  { destruct (String.eqb_spec (method request) "GET") as [Hq|_].
    { exfalso. apply Hroute. rewrite Hp, Hq. cbn. tauto. }
    destruct (String.eqb_spec (method request) "DELETE") as [Hq|_]; [|reflexivity].
    exfalso. apply Hroute. rewrite Hp, Hq. cbn. tauto. }
  destruct (String.eqb_spec (pathname request) "/metrics/quota") as [Hp|_]; [|reflexivity].
  destruct (String.eqb_spec (method request) "GET") as [Hq|_]; [|reflexivity].
  exfalso. apply Hroute. rewrite Hp, Hq. cbn. tauto.
Qed.

(** ** [handleDeleteDocument] *)

(** [deleteDocumentVectors] returns on every platform, and what it
    returns has a count that is a number. *)
Lemma deleteDocumentVectors_try_count (documentId : string) (env : Env) (w w1 : World)
    (r : DeleteResult.t) :
  deleteDocumentVectors_try documentId env w = (Ok r, w1) ->
  DeleteResult.success r = true
  /\ DeleteResult.error r = None
  /\ exists n, DeleteResult.deletedCount r = Int (Z.of_nat n).
Proof.
  unfold deleteDocumentVectors_try, bind.
  destruct (kv_get_json env (DOC_METADATA env) documentId w) as [[[md|]|e] w2];
    [| intros [= <- <-]; repeat split; exists O; reflexivity | discriminate].
  destruct (Json.truthy md); cbn [negb];
    [| intros [= <- <-]; repeat split; exists O; reflexivity].
  destruct (Json.prop "vectorIds" md) as [vectorIds|];
    [| intros [= <- <-]; repeat split; exists O; reflexivity].
  destruct (Json.truthy vectorIds); cbn [negb];
    [| intros [= <- <-]; repeat split; exists O; reflexivity].
  unfold index_deleteByIds at 1, await at 1.
  destruct (fault env (calls w2) (IndexDeleteByIds (string_array vectorIds))); [discriminate|].
  destruct vectorIds as [| b | z | s | items | members]; cbn [string_array]; try discriminate.
  destruct (mapM _ items); [|discriminate].
  cbn [modify].
  destruct (updateVectorCount _ _ _) as [[newCount|e] w3]; [|discriminate].
  unfold emitQuotaMetric, bind, Date_toISOString, gets, modify.
  destruct (kv_delete _ _ _ _) as [[[]|e] w4]; [|discriminate].
  intros [= <- <-]. repeat split. exists (length items). reflexivity.
Qed.

Lemma deleteDocumentVectors_returns (documentId : string) (env : Env) (w : World) :
  exists r w',
    deleteDocumentVectors documentId env w = (Ok r, w')
    /\ (exists n, DeleteResult.deletedCount r = Int (Z.of_nat n))
    /\ (DeleteResult.success r = true <-> DeleteResult.error r = None).
Proof.
  unfold deleteDocumentVectors, try_catch.
  destruct (deleteDocumentVectors_try documentId env w) as [[r|e] w1] eqn:Htry.
  - destruct (deleteDocumentVectors_try_count _ _ _ _ _ Htry) as (Hs & He & Hn).
    exists r, w1. split; [reflexivity|]. split; [exact Hn|]. rewrite Hs, He. tauto.
  - eexists _, _. split; [reflexivity|]. cbn. split; [exists O; reflexivity|].
    split; discriminate.
Qed.

(** X24. What a DELETE on [/documents] is answered, on every platform.
    A body that is no JSON makes the handler throw what the parser
    threw; a body that is no delete request gets a 400 and nothing is
    touched; any other body gets a 200 whose body is the result of
    [deleteDocumentVectors] for its [documentId]: [success] and
    [deletedCount] and, exactly when the deletion failed, [error].  A
    failed deletion is thus answered with status 200. *)
Theorem handleDeleteDocument_outcomes (request : Request) (env : Env) (w : World) :
  (forall e, json_body request = Throw e ->
             handleDeleteDocument request env w = (Throw e, w))
  /\ (forall data,
        json_body request = Ok data ->
        isDeleteDocumentRequest data = false ->
        handleDeleteDocument request env w
        = (Ok (error_response 400 "Document ID is required"), w))
  /\ (forall data,
        json_body request = Ok data ->
        isDeleteDocumentRequest data = true ->
        exists documentId result n w',
          Json.prop "documentId" data = Some (JStr documentId)
          /\ deleteDocumentVectors documentId env w = (Ok result, w')
          /\ DeleteResult.deletedCount result = Int (Z.of_nat n)
          /\ handleDeleteDocument request env w
             = (Ok {| body :=
                        Some (Json.stringify
                                (JObj ([("success", JBool (DeleteResult.success result));
                                        ("deletedCount", JNum (Z.of_nat n))]
                                       ++ match DeleteResult.error result with
                                          | Some message => [("error", JStr message)]
                                          | None => []
                                          end)));
                      status := 200;
                      headers := jsonHeaders |}, w')
          /\ (DeleteResult.success result = true <-> DeleteResult.error result = None)).
Proof.
  split; [|split].
  - intros e He. unfold handleDeleteDocument, bind, request_json. rewrite He. reflexivity.
  - intros data Hd Hguard. unfold handleDeleteDocument, bind, request_json.
    rewrite Hd, Hguard. reflexivity.
  - intros data Hd Hguard.
    destruct (proj1 (guard_reads_string "documentId" data) Hguard) as [documentId Hid].
    destruct (deleteDocumentVectors_returns documentId env w)
      as (result & w' & Hrun & [n Hn] & Herr).
    exists documentId, result, n, w'.
    split; [exact Hid|]. split; [exact Hrun|]. split; [exact Hn|]. split; [|exact Herr].
    unfold handleDeleteDocument, bind, request_json.
    rewrite Hd, Hguard, Hid. cbn [negb]. unfold try_catch. rewrite Hrun.
    unfold ret, json_response, delete_result_json. rewrite Hn. reflexivity.
Qed.

(** X25. The deletion of a stored document through the router, on a
    platform that does not fail: a DELETE on [/documents] that names a
    document whose record lists the vector ids [ids] is answered with a
    200 and the body [{success:true, deletedCount:n}] for the [n] ids;
    afterwards the record is gone, none of the ids is in the index, and
    the counter is lower by [n], but not below 0. *)
Theorem delete_request_removes_document (h : Handlers) (env : Env) (documentId : string)
    (data : json) (w : World) (text : string) (record : json) (ids : list string) (c : Z) :
  fault_free env ->
  Json.prop "documentId" data = Some (JStr documentId) ->
  documentId <> VECTOR_COUNT_KEY ->
  namespace w (DOC_METADATA env) !! documentId = Some text ->
  Json.parse text = Some record ->
  Json.truthy record = true ->
  Json.prop "vectorIds" record = Some (JArr (map JStr ids)) ->
  counter_is env w c ->
  exists w',
    fetch h {| method := "DELETE"; pathname := "/documents"; json_body := Ok data |} env w
    = (Ok (json_response
             (JObj [("success", JBool true);
                    ("deletedCount", JNum (Z.of_nat (length ids)))])), w')
    /\ namespace w' (DOC_METADATA env) !! documentId = None
    /\ (forall vid, vid ∈ ids -> index w' !! vid = None)
    /\ counter_is env w' (Z.max 0 (c - Z.of_nat (length ids))).
Proof.
  intros Hq Hid Hkey Htext Hparse Htruthy Hids Hc.
  destruct (deleteDocumentVectors_listed env documentId w text record ids c
              Hq Htext Hparse Htruthy Hids Hc) as (w' & Hrun & Hns & Hidx & _).
  exists w'. split; [|split; [|split]].
  - unfold fetch, try_catch, dispatch. cbn [method pathname String.eqb Ascii.eqb Bool.eqb].
    unfold handleDeleteDocument, bind, request_json. cbn [json_body].
    assert (Hguard : isDeleteDocumentRequest data = true)
      by (apply guard_reads_string; eauto).
    rewrite Hguard, Hid. cbn [negb]. unfold try_catch. rewrite Hrun. reflexivity.
  - rewrite Hns. apply lookup_delete_eq.
  - intros vid Hvid. rewrite Hidx. clear -Hvid.
    revert Hvid. generalize (index w). induction ids as [|k ids IH]; intros i Hvid.
    + apply elem_of_nil in Hvid. contradiction.
    + cbn [fold_left]. apply elem_of_cons in Hvid as [->|Hvid]; [|apply IH, Hvid].
      clear IH. assert (H : delete k i !! k = None) by apply lookup_delete_eq.
      revert H. generalize (delete k i). induction ids as [|k' ids IH]; intros j Hj.
      * exact Hj.
      * cbn [fold_left]. apply IH. destruct (decide (k' = k)) as [->|Hne].
        -- apply lookup_delete_eq.
        -- rewrite lookup_delete_ne by exact Hne. exact Hj.
  - left. rewrite Hns, lookup_delete_ne by congruence. apply lookup_insert_eq.
Qed.

End WorkerFacts.

Module Instances.
Import Platform Vectorize Cleanup IngestViews SweepViews ChunkerViews Retrieval Worker.

Lemma chunkText_unpunctuated_whole_witness :
  Chunker.chunkText "no boundary here" 5 = ["no boundary here"]
  /\ map JsString.len (Chunker.chunkText "no boundary here" 5) = [16].
Proof.
  apply (ChunkerEdgeFacts.chunkText_unpunctuated_whole "no boundary here" 5).
  - unfold unpunctuated. cbn [list_ascii_of_string]. repeat constructor.
  - vm_compute. discriminate.
Defined.

Lemma chunkText_short_sentences_bound_witness :
  Forall (fun c => JsString.len c <= 4 + 1) (Chunker.chunkText "abc.d.e." 4).
Proof.
  apply (ChunkerEdgeFacts.chunkText_short_sentences_bound "abc.d.e." 4).
  vm_compute. repeat constructor; discriminate.
Defined.

Lemma unreadable_counter_is_absorbing_witness :
  exists w',
    updateVectorCount Demo.env (Int 5) Cases.unreadable_counter = (Ok NaN, w')
    /\ stored_count Demo.env w' = NaN.
Proof.
  destruct (proj1 (proj2 (CounterFacts.unreadable_counter_is_absorbing
                            Demo.env Cases.unreadable_counter
                            Scenarios.demo_fault_free eq_refl)) (Int 5))
    as (w' & Hrun & _ & Hcount).
  exists w'. split; [exact Hrun | exact Hcount].
Defined.


Lemma demo_aligned (calls_before : nat) (model : string) (texts : list string)
    (data : list embedding) :
  AI Demo.env calls_before model texts = AiData data -> length data = length texts.
Proof. intros [= <-]. apply length_map. Qed.

Lemma embedAndStore_stores_each_vector_witness :
  exists ids w1,
    embedAndStore ["One. Two."; "Three."] Demo.doc Demo.env (Demo.with_count 85)
    = (Ok {| EmbedResponse.success := true;
             EmbedResponse.vectorIds := Some ids;
             EmbedResponse.error := None |}, w1)
    /\ length ids = 2%nat
    /\ NoDup ids.
Proof.
  destruct (LifecycleFacts.embedAndStore_stores_each_vector
              Demo.env ["One. Two."; "Three."] Demo.doc [[1; 2; 3]; [1; 2; 3]]
              (Demo.with_count 85) 85
              Scenarios.demo_fault_free (or_introl eq_refl)
              ltac:(vm_compute; discriminate) eq_refl)
    as (ids & w1 & Hrun & Hlen & Hnd & _).
  exists ids, w1. split; [exact Hrun|]. split; [exact Hlen | exact Hnd].
Defined.

Lemma embedAndStore_keeps_quota_invariant_witness :
  exists r w' c',
    embedAndStore (repeat "A." 20) Demo.doc Demo.env (Demo.with_count 85) = (Ok r, w')
    /\ counter_is Demo.env w' c'
    /\ 0 <= c' <= 100.
Proof.
  destruct (LifecycleFacts.embedAndStore_keeps_quota_invariant
              Demo.env (repeat "A." 20) Demo.doc (Demo.with_count 85) 85
              Scenarios.demo_fault_free demo_aligned (or_introl eq_refl)
              ltac:(lia) ltac:(discriminate))
    as (r & w' & c' & Hrun & Hc & _ & Hrange).
  exists r, w', c'. split; [exact Hrun|]. split; [exact Hc | exact Hrange].
Defined.

Lemma ingested_counter : counter_is Demo.env Demo.ingested 1.
Proof. left. vm_compute. reflexivity. Qed.

(** The record of [Demo.ingested]. *)
Lemma ingested_text :
  namespace Demo.ingested "metadata" !! "doc1"
  = Some (Json.stringify
            (docMetadata Demo.doc (JsDate.toISOString Demo.t0)
               [{| id := "doc1-1700000000123-0"; values := [1; 2; 3];
                   metadata := Some Cases.ingested_chunk |}])).
Proof. vm_compute. reflexivity. Qed.

Lemma deleteDocumentVectors_keeps_quota_invariant_witness :
  exists r w' c',
    deleteDocumentVectors "doc1" Demo.env_deleteByIds_down Demo.ingested = (Ok r, w')
    /\ counter_is Demo.env_deleteByIds_down w' c'
    /\ 0 <= c' <= 1.
Proof.
  destruct (DeletionSafetyFacts.deleteDocumentVectors_keeps_quota_invariant
              Demo.env_deleteByIds_down "doc1" Demo.ingested 1 ingested_counter
              ltac:(unfold Num.MAX_SAFE_INTEGER; lia))
    as (r & w' & c' & Hrun & Hc & Hrange & _).
  - intros text Htext. change (DOC_METADATA Demo.env_deleteByIds_down) with "metadata" in Htext.
    pose proof ingested_text as Hstored.
    assert (Heq : Some text = Some (Json.stringify
                      (docMetadata Demo.doc (JsDate.toISOString Demo.t0)
                         [{| id := "doc1-1700000000123-0"; values := [1; 2; 3];
                             metadata := Some Cases.ingested_chunk |}])))
      by congruence.
    clear Htext Hstored.
    exists (docMetadata Demo.doc (JsDate.toISOString Demo.t0)
              [{| id := "doc1-1700000000123-0"; values := [1; 2; 3];
                  metadata := Some Cases.ingested_chunk |}]).
    split; [replace text with (Json.stringify
                      (docMetadata Demo.doc (JsDate.toISOString Demo.t0)
                         [{| id := "doc1-1700000000123-0"; values := [1; 2; 3];
                             metadata := Some Cases.ingested_chunk |}])) by congruence;
            apply JsonFacts.parse_stringify|].
    intros vectorIds Hids _. rewrite RoundTripFacts.docMetadata_vectorIds in Hids.
    exists (map id [{| id := "doc1-1700000000123-0"; values := [1; 2; 3];
                       metadata := Some Cases.ingested_chunk |}]).
    congruence.
  - exists r, w', c'. split; [exact Hrun|]. split; [exact Hc | exact Hrange].
Defined.

Lemma deleteDocumentVectors_twice_witness :
  exists w1 w2,
    deleteDocumentVectors "doc1" Demo.env Demo.ingested
    = (Ok {| DeleteResult.success := true;
             DeleteResult.deletedCount := Int 1;
             DeleteResult.error := None |}, w1)
    /\ deleteDocumentVectors "doc1" Demo.env (at_time (Demo.t0 + 5) w1)
       = (Ok {| DeleteResult.success := true;
                DeleteResult.deletedCount := Int 0;
                DeleteResult.error := None |}, w2)
    /\ kv w2 = kv w1 /\ index w2 = index w1 /\ console w2 = console w1.
Proof.
  apply (LifecycleFacts.deleteDocumentVectors_twice
           Demo.env "doc1" Demo.ingested _ _ ["doc1-1700000000123-0"] 1 (Demo.t0 + 5)
           Scenarios.demo_fault_free ingested_text (JsonFacts.parse_stringify _)
           eq_refl eq_refl ingested_counter).
Defined.


Lemma reingest_orphans_first_batch_witness :
  exists ids1 ids2 w1 w2 w3,
    embedAndStore ["One."] Demo.doc Demo.env Demo.empty
    = (Ok {| EmbedResponse.success := true;
             EmbedResponse.vectorIds := Some ids1;
             EmbedResponse.error := None |}, w1)
    /\ embedAndStore ["Two. Three."] Demo.doc Demo.env (at_time (Demo.t0 + 1000) w1)
       = (Ok {| EmbedResponse.success := true;
                EmbedResponse.vectorIds := Some ids2;
                EmbedResponse.error := None |}, w2)
    /\ deleteDocumentVectors "doc1" Demo.env (at_time (Demo.t0 + 2000) w2)
       = (Ok {| DeleteResult.success := true;
                DeleteResult.deletedCount := Int 1;
                DeleteResult.error := None |}, w3)
    /\ (forall vid, vid ∈ ids1 -> is_Some (index w3 !! vid))
    /\ stored_count Demo.env w3 = Int 1.
Proof.
  destruct (LifecycleFacts.reingest_orphans_first_batch
              Demo.env Demo.doc ["One."] ["Two. Three."] [[1; 2; 3]] [[1; 2; 3]]
              Demo.empty 0 (Demo.t0 + 1000) (Demo.t0 + 2000)
              Scenarios.demo_fault_free (or_intror (conj eq_refl eq_refl))
              ltac:(lia) ltac:(discriminate) ltac:(vm_compute; discriminate)
              ltac:(intros t; reflexivity) ltac:(intros t; reflexivity)
              ltac:(vm_compute; discriminate) ltac:(vm_compute; discriminate))
    as (ids1 & ids2 & w1 & w2 & w3 & H1 & H2 & H3 & _ & Hin & Hcount & _).
  exists ids1, ids2, w1, w2, w3. repeat split; assumption.
Defined.


Lemma ingested_record_age_exact_witness :
  (uploadedAt ← Json.prop "uploadedAt" (docMetadata Demo.doc (JsDate.toISOString Demo.t0) []);
   Some (JsDate.time_of_json (Date_parse_other Demo.env) uploadedAt)) = Some (Int Demo.t0)
  /\ over_age Demo.env (Int (Demo.t0 + 1))
       (docMetadata Demo.doc (JsDate.toISOString Demo.t0) [])
     = (Demo.t0 <? Demo.t0 + 1)
  /\ over_age_text Demo.env (Int (Demo.t0 + 1))
       (Json.stringify (docMetadata Demo.doc (JsDate.toISOString Demo.t0) []))
     = (Demo.t0 <? Demo.t0 + 1).
Proof.
  apply (AgeFacts.ingested_record_age_exact Demo.env Demo.doc [] Demo.t0 (Demo.t0 + 1)).
  unfold Demo.t0. lia.
Defined.

(** The entries of the namespace of [Demo.ingested]. *)
Lemma ingested_entries (t : Z) (k text : string) :
  namespace (at_time t Demo.ingested) "metadata" !! k = Some text ->
  (k = VECTOR_COUNT_KEY /\ text = Num.toString (Int 1))
  \/ (k = "doc1"
      /\ text = Json.stringify
                  (docMetadata Demo.doc (JsDate.toISOString Demo.t0)
                     [{| id := "doc1-1700000000123-0"; values := [1; 2; 3];
                         metadata := Some Cases.ingested_chunk |}])).
Proof.
  intros H. apply elem_of_map_to_list in H.
  remember (Json.stringify
              (docMetadata Demo.doc (JsDate.toISOString Demo.t0)
                 [{| id := "doc1-1700000000123-0"; values := [1; 2; 3];
                     metadata := Some Cases.ingested_chunk |}])) as record eqn:Hrecord.
  assert (Hlist : map_to_list (namespace (at_time t Demo.ingested) "metadata")
                  = [(VECTOR_COUNT_KEY, Num.toString (Int 1)); ("doc1", record)])
    by (subst record; vm_compute; reflexivity).
  rewrite Hlist in H. clear Hlist Hrecord.
  apply elem_of_cons in H as [H|H].
  - left. split; congruence.
  - apply list_elem_of_singleton in H. right. split; congruence.
Qed.

Lemma cleanup_cutoff_exact_witness :
  exists w',
    cleanupOldVectors Demo.env 30 (at_time (Demo.t0 + 31 * 86400000) Demo.ingested) = (Ok 0, w')
    /\ index w' = index Demo.ingested
    /\ counter_is Demo.env w' 1
    /\ namespace w' "metadata" !! "doc1" = None.
Proof.
  destruct (AgeFacts.cleanup_cutoff_exact Demo.env 30
              (at_time (Demo.t0 + 31 * 86400000) Demo.ingested) Scenarios.demo_fault_free)
    as (w' & Hrun & Hidx & Hcount & Hrecord).
  - vm_compute. discriminate.
  - intros k text Hk. destruct (ingested_entries _ k text Hk) as [[_ ->]|[_ ->]].
    + left. eexists. reflexivity.
    + right. eexists _, _, _. reflexivity.
  - exists w'. split; [exact Hrun|]. split; [exact Hidx|].
    split; [apply Hcount, ingested_counter|].
    apply (Hrecord "doc1" Demo.doc Demo.t0
             [{| id := "doc1-1700000000123-0"; values := [1; 2; 3];
                 metadata := Some Cases.ingested_chunk |}]).
    + unfold Demo.t0. lia.
    + exact ingested_text.
Defined.

Lemma legacy_namespace_format (cutoff : number) (k text : string) :
  namespace Demo.with_legacy_record "metadata" !! k = Some text ->
  legacy_format Demo.env cutoff text.
Proof.
  unfold namespace, Demo.with_legacy_record. cbn [kv].
  rewrite lookup_singleton_eq. cbn [default from_option]. unfold Datatypes.id.
  intros H. apply lookup_insert_Some in H as [[_ <-]|[_ H]].
  - exists (JNum 2). split; [vm_compute; reflexivity | discriminate].
  - apply lookup_singleton_Some in H as [_ <-].
    eexists. split; [apply JsonFacts.parse_stringify|]. intros _. eexists.
    vm_compute. reflexivity.
Qed.

Lemma legacy_removed :
  concat (map (swept_ids_at Demo.env (cutoff_time (now Demo.with_legacy_record) 30)
                 Demo.with_legacy_record)
              (listed_keys (namespace Demo.with_legacy_record (DOCUMENT_METADATA Demo.env))))
  = ["old-0"; "old-1"].
Proof. vm_compute. reflexivity. Qed.

Lemma cleanupOldVectors_removes_listed_witness :
  exists w',
    cleanupOldVectors Demo.env 30 Demo.with_legacy_record = (Ok 2, w')
    /\ index w' !! "old-0" = None
    /\ index w' !! "old-1" = None
    /\ counter_is Demo.env w' 0
    /\ namespace w' "metadata" !! "old" = None.
Proof.
  destruct (SweepFacts.cleanupOldVectors_removes_listed Demo.env 30 Demo.with_legacy_record 2
              Scenarios.demo_fault_free (or_introl eq_refl)
              ltac:(unfold Num.MAX_SAFE_INTEGER; lia)
              (legacy_namespace_format _))
    as (w' & Hrun & Hidx & Hc & Hkept & _).
  rewrite legacy_removed in Hrun, Hidx, Hc.
  exists w'. split; [exact Hrun|].
  split; [rewrite Hidx; vm_compute; reflexivity|].
  split; [rewrite Hidx; vm_compute; reflexivity|].
  split; [exact Hc|].
  refine (eq_trans (Hkept "old" _) _).
  - intros [_ [=]].
  - vm_compute. reflexivity.
Defined.

Lemma getVectorUsageStatus_exact_witness :
  exists status w',
    getVectorUsageStatus Demo.env (Demo.with_count 85) = (Ok status, w')
    /\ UsageStatus.currentCount status = Int 85
    /\ UsageStatus.availableQuota status = Int 15
    /\ UsageStatus.percentageUsed status = Double.of_Z 85.
Proof.
  destruct (proj1 (RetrievalFacts.getVectorUsageStatus_exact Demo.env (Demo.with_count 85) 85
                     eq_refl (or_introl eq_refl) ltac:(lia)))
    as (status & w' & Hrun & Hcur & _ & Havail & Hpct & _).
  exists status, w'. split; [exact Hrun|]. split; [exact Hcur|].
  split; [exact Havail | exact Hpct].
Defined.

Lemma getDocumentContext_returns_full_chunks_witness :
  exists w',
    getDocumentContext "hello" (Int 3) Cases.query_env Demo.ingested
    = (Ok "Hello world.  How are you?", w')
    /\ kv w' = kv Demo.ingested /\ index w' = index Demo.ingested.
Proof.
  destruct (RetrievalFacts.getDocumentContext_returns_full_chunks
              Cases.query_env "hello" 3 Demo.ingested [1; 2; 3]
              [Cases.match_of {| id := "doc1-1700000000123-0"; values := [1; 2; 3];
                                 metadata := Some Cases.ingested_chunk |}]
              Demo.doc (JsDate.toISOString Demo.t0) ["Hello world. How are you?"]
              [Cases.ingested_chunk]
              eq_refl eq_refl ltac:(vm_compute; reflexivity))
    as (w' & Hrun & _ & Hkv & Hidx).
  - constructor; [|constructor]. split; [|reflexivity].
    apply list_elem_of_In. left. vm_compute. reflexivity.
  - exists w'. split; [exact Hrun|]. split; [exact Hkv | exact Hidx].
Defined.


Lemma fetch_off_route_changes_nothing_witness :
  fetch Cases.handlers_down
    {| method := "PUT"; pathname := "/documents"; json_body := Ok JNull |}
    Demo.env Demo.ingested
  = (Ok method_not_allowed, Demo.ingested).
Proof.
  apply (WorkerFacts.fetch_off_route_changes_nothing Cases.handlers_down
           {| method := "PUT"; pathname := "/documents"; json_body := Ok JNull |}
           Demo.env Demo.ingested).
  cbn. intros H. repeat destruct H as [[=]|H]. exact H.
Defined.

Lemma delete_request_removes_document_witness :
  exists w',
    fetch Cases.handlers_down
      {| method := "DELETE"; pathname := "/documents";
         json_body := Ok (JObj [("documentId", JStr "doc1")]) |}
      Demo.env Demo.ingested
    = (Ok (json_response (JObj [("success", JBool true); ("deletedCount", JNum 1)])), w')
    /\ namespace w' "metadata" !! "doc1" = None
    /\ index w' !! "doc1-1700000000123-0" = None
    /\ counter_is Demo.env w' 0.
Proof.
  destruct (WorkerFacts.delete_request_removes_document
              Cases.handlers_down Demo.env "doc1" (JObj [("documentId", JStr "doc1")])
              Demo.ingested _ _ ["doc1-1700000000123-0"] 1
              Scenarios.demo_fault_free eq_refl ltac:(discriminate)
              ingested_text (JsonFacts.parse_stringify _) eq_refl eq_refl ingested_counter)
    as (w' & Hrun & Hrecord & Hidx & Hcount).
  exists w'. split; [exact Hrun|]. split; [exact Hrecord|].
  split; [apply Hidx; left | exact Hcount].
Defined.

End Instances.
